(** * boxoffice: seat holds, expiry and booking

    A shallow embedding of the Django application [boxoffice]
    (models.py, serializers.py, views.py, tasks.py, utils.py) and the
    properties of its hold / expiry / booking engine.

    The relational store is a record of tables (lists of rows).  Code that
    reads or writes the store, raises, or talks to Redis / Celery lives in
    a small state-and-exception monad [M] that also records the external
    calls it performs.  Timestamps are integers (seconds). *)

From Stdlib Require Import ZArith List Bool Ascii String Lia.
Import ListNotations.
Open Scope Z_scope.

Set Implicit Arguments.

(* ================================================================== *)
(** * Data model (models.py) *)

Definition uuid := N.
Definition datetime := Z.

Module Event.
Record t := mk {
  id : uuid;
  name : string;
  total_seats : Z;
  created_at : datetime;
  updated_at : datetime }.
End Event.

Module Hold.
Module Status.
Inductive t := ACTIVE | EXPIRED | BOOKED.

Definition eqb (a b : t) : bool :=
  match a, b with
  | ACTIVE, ACTIVE | EXPIRED, EXPIRED | BOOKED, BOOKED => true
  | _, _ => false
  end.
End Status.

Record t := mk {
  id : uuid;
  event : uuid;                         (* ForeignKey(Event) *)
  qty : Z;
  expires_at : datetime;
  payment_token : string;
  status : Status.t;
  created_at : datetime;
  updated_at : datetime }.
End Hold.

Module Booking.
Record t := mk {
  id : uuid;
  hold : uuid;                          (* OneToOneField(Hold) *)
  booking_id : string;
  created_at : datetime }.
End Booking.

Module Metrics.
Record t := mk {
  id : Z;                               (* AutoField *)
  event : uuid;                         (* ForeignKey(Event) *)
  total_holds : Z;
  total_bookings : Z;
  total_expiries : Z;
  total_held_seats : Z;
  total_booked_seats : Z;
  total_expired_seats : Z;
  created_at : datetime;
  updated_at : datetime }.
End Metrics.

Import Hold.Status.

(** The relational store: one list of rows per table. *)
Record DB := mkDB {
  events : list Event.t;
  holds : list Hold.t;
  bookings : list Booking.t;
  metrics : list Metrics.t }.

Definition set_holds (hs : list Hold.t) (d : DB) : DB :=
  mkDB (events d) hs (bookings d) (metrics d).
Definition set_bookings (bs : list Booking.t) (d : DB) : DB :=
  mkDB (events d) (holds d) bs (metrics d).
Definition set_metrics (ms : list Metrics.t) (d : DB) : DB :=
  mkDB (events d) (holds d) (bookings d) ms.

(* ================================================================== *)
(** * Exceptions, external calls, and the monad *)

Inductive model := EventModel | HoldModel | BookingModel | MetricsModel.

(** What a [serializers.ValidationError] says. *)
Inductive detail :=
| Event_not_found
| Qty_below_min
| Ttl_below_min
| Ttl_above_max
| Not_enough_seats (requested available : Z)
| Hold_not_found
| Hold_is_not_active
| Hold_has_expired
| Invalid_payment_token
| Hold_is_already_booked
| Payment_token_blank
| Payment_token_null_character.

Inductive exn :=
| DoesNotExist (m : model)
| MultipleObjectsReturned (m : model)
| IntegrityError
| ValidationError (errors : list detail)
| Http404
| RedisError
| CeleryError
| LockNotAcquired.

Inductive outcome (A : Type) :=
| Return (a : A)
| Raise (e : exn).
Arguments Return {A} a.
Arguments Raise {A} e.

Inductive level := INFO | WARNING | ERROR.

Inductive redis_key :=
| hold_expiry_key (hold_id : uuid)
| metric_key (metric_name : string) (event_id : option uuid)
| lock_key (event_id : uuid).

(** Calls that leave the process: Redis, Celery, the logger. *)
Inductive effect :=
| RedisLockAcquire (k : redis_key)
| RedisLockRelease (k : redis_key)
| RedisSetex (k : redis_key) (seconds : Z)
| RedisDelete (k : redis_key)
| RedisExpire (k : redis_key) (seconds : Z)
| RedisIncr (k : redis_key)
| CeleryApplyAsync (hold_id : uuid) (eta : datetime)
| Log (l : level).

(** What the surroundings do during one request or task: the clock, the
    values [uuid.uuid4()] returns, and which external services answer. *)
Record Env := mkEnv {
  now : datetime;
  uuid4_pk : uuid;               (* default of a new row's [id] *)
  uuid4_token : string;          (* [str(uuid.uuid4())] *)
  uuid4_hex8 : string;           (* [uuid.uuid4().hex[:8].upper()] *)
  lock_acquired : bool;          (* [lock.acquire()] within its blocking timeout *)
  redis_ok : bool;               (* marker and counter commands succeed *)
  celery_ok : bool }.            (* [apply_async] succeeds *)

Definition M (A : Type) : Type := DB -> outcome A * DB * list effect.

Definition ret {A} (a : A) : M A := fun d => (Return a, d, []).

Definition bind {A B} (m : M A) (k : A -> M B) : M B :=
  fun d =>
    match m d with
    | (Return a, d1, t1) =>
        let '(r, d2, t2) := k a d1 in (r, d2, t1 ++ t2)
    | (Raise e, d1, t1) => (Raise e, d1, t1)
    end.

Notation "x <- m ;; k" := (bind m (fun x => k))
  (at level 61, m at next level, right associativity).
Notation "m ;; k" := (bind m (fun _ => k))
  (at level 61, right associativity).

Definition raise {A} (e : exn) : M A := fun d => (Raise e, d, []).
Definition query {A} (f : DB -> A) : M A := fun d => (Return (f d), d, []).
Definition lift {A} (f : DB -> outcome A) : M A := fun d => (f d, d, []).
Definition update (f : DB -> DB) : M unit := fun d => (Return tt, f d, []).
Definition emit (e : effect) : M unit := fun d => (Return tt, d, [e]).
Definition logger (l : level) : M unit := emit (Log l).

(** [try: body except Exception as e: handler e] *)
Definition try_except {A} (body : M A) (handler : exn -> M A) : M A :=
  fun d =>
    match body d with
    | (Return a, d1, t1) => (Return a, d1, t1)
    | (Raise e, d1, t1) =>
        let '(r, d2, t2) := handler e d1 in (r, d2, t1 ++ t2)
    end.

(** [with transaction.atomic(): body]: an exception leaving the block
    rolls the store back; what was sent to Redis or logged stays. *)
Definition atomic {A} (body : M A) : M A :=
  fun d =>
    match body d with
    | (Return a, d1, t1) => (Return a, d1, t1)
    | (Raise e, _, t1) => (Raise e, d, t1)
    end.

(* ================================================================== *)
(** * The ORM calls the code uses *)

(** [Model.objects.get] with keyword filters: exactly one row, or an
    exception. *)
Definition objects_get {A} (m : model) (p : A -> bool) (rows : list A)
  : outcome A :=
  match filter p rows with
  | [] => Raise (DoesNotExist m)
  | [r] => Return r
  | _ :: _ :: _ => Raise (MultipleObjectsReturned m)
  end.

(** [queryset.aggregate(total=models.Sum(field))['total']]: NULL on an
    empty queryset. *)
Definition Sum {A} (field : A -> Z) (rows : list A) : option Z :=
  match rows with
  | [] => None
  | _ :: _ => Some (fold_right (fun r acc => field r + acc) 0 rows)
  end.

(** Python's [x or default] on an optional integer. *)
Definition or_ (x : option Z) (default : Z) : Z :=
  match x with
  | None => default
  | Some v => if v =? 0 then default else v
  end.

(** [queryset.count()] *)
Definition count {A} (rows : list A) : Z := Z.of_nat (List.length rows).

(** [event.holds]: the reverse side of [Hold.event]. *)
Definition Event_holds (d : DB) (e : Event.t) : list Hold.t :=
  filter (fun h => N.eqb (Hold.event h) (Event.id e)) (holds d).

(** [booking__isnull=False] / [hasattr(hold, 'booking')] evaluated on the
    store. *)
Definition booking_of (d : DB) (h : Hold.t) : option Booking.t :=
  find (fun b => N.eqb (Booking.hold b) (Hold.id h)) (bookings d).

Definition has_booking (d : DB) (h : Hold.t) : bool :=
  match booking_of d h with Some _ => true | None => false end.

Definition status_is (s : Hold.Status.t) (h : Hold.t) : bool :=
  Hold.Status.eqb (Hold.status h) s.

(* ================================================================== *)
(** * models.py *)

(** [Event.available_seats] *)
Definition Event_available_seats (d : DB) (self : Event.t) : Z :=
  let held_seats :=
    or_ (Sum Hold.qty (filter (status_is ACTIVE) (Event_holds d self))) 0 in
  let booked_seats :=
    or_ (Sum Hold.qty (filter (has_booking d) (Event_holds d self))) 0 in
  Z.max 0 (Event.total_seats self - held_seats - booked_seats).

(** [Event.held_seats] *)
Definition Event_held_seats (d : DB) (self : Event.t) : Z :=
  or_ (Sum Hold.qty (filter (status_is ACTIVE) (Event_holds d self))) 0.

(** [Event.booked_seats] *)
Definition Event_booked_seats (d : DB) (self : Event.t) : Z :=
  or_ (Sum Hold.qty (filter (has_booking d) (Event_holds d self))) 0.

(** [Hold.is_expired] *)
Definition Hold_is_expired (env : Env) (self : Hold.t) : bool :=
  now env >? Hold.expires_at self.

(** [hold.status = s; hold.save(update_fields=['status', 'updated_at'])]:
    an UPDATE of these two columns on the row with the instance's key. *)
Definition save_status (env : Env) (self : Hold.t) (s : Hold.Status.t)
  : M unit :=
  update (fun d =>
    set_holds
      (map (fun r =>
              if N.eqb (Hold.id r) (Hold.id self)
              then Hold.mk (Hold.id r) (Hold.event r) (Hold.qty r)
                     (Hold.expires_at r) (Hold.payment_token r) s
                     (Hold.created_at r) (now env)
              else r)
           (holds d))
      d).


(** A foreign key followed from a row: [hold.event], [metrics.event]. *)
Definition related_event (event_id : uuid) : M Event.t :=
  lift (fun d =>
    objects_get EventModel (fun e => N.eqb (Event.id e) event_id) (events d)).

(** [Hold.expire]; its log line reads [self.event.id]. *)
Definition Hold_expire (env : Env) (self : Hold.t) : M unit :=
  if status_is ACTIVE self then
    save_status env self EXPIRED ;;
    event <- related_event (Hold.event self) ;;
    logger INFO
  else ret tt.

(** The value the [AutoField] key of a new [Metrics] row takes. *)
Definition next_metrics_id (d : DB) : Z :=
  1 + fold_right Z.max 0 (map Metrics.id (metrics d)).

(** [Metrics.get_or_create_for_event]:
    [cls.objects.get_or_create(event=event)]. *)
Definition Metrics_get_or_create_for_event (env : Env) (event : Event.t)
  : M Metrics.t :=
  try_except
    (lift (fun d =>
       objects_get MetricsModel
         (fun m => N.eqb (Metrics.event m) (Event.id event)) (metrics d)))
    (fun e =>
       match e with
       | DoesNotExist MetricsModel =>
           pk <- query next_metrics_id ;;
           let created :=
             Metrics.mk pk (Event.id event) 0 0 0 0 0 0 (now env) (now env) in
           update (fun d => set_metrics (created :: metrics d) d) ;;
           ret created
       | _ => raise e
       end).

(** [Metrics.update_metrics]: six queries over the event's holds, then
    [self.save(update_fields=[...])]. *)
Definition Metrics_update_metrics (env : Env) (self : Metrics.t)
  : M Metrics.t :=
  event <- related_event (Metrics.event self) ;;
  total_holds <- query (fun d => count (Event_holds d event)) ;;
  total_bookings <-
    query (fun d => count (filter (has_booking d) (Event_holds d event))) ;;
  total_expiries <-
    query (fun d => count (filter (status_is EXPIRED) (Event_holds d event))) ;;
  total_held_seats <-
    query (fun d =>
      or_ (Sum Hold.qty (filter (status_is ACTIVE) (Event_holds d event))) 0) ;;
  total_booked_seats <-
    query (fun d =>
      or_ (Sum Hold.qty (filter (has_booking d) (Event_holds d event))) 0) ;;
  total_expired_seats <-
    query (fun d =>
      or_ (Sum Hold.qty (filter (status_is EXPIRED) (Event_holds d event))) 0) ;;
  update (fun d =>
    set_metrics
      (map (fun r =>
              if Metrics.id r =? Metrics.id self
              then Metrics.mk (Metrics.id r) (Metrics.event r)
                     total_holds total_bookings total_expiries
                     total_held_seats total_booked_seats total_expired_seats
                     (Metrics.created_at r) (now env)
              else r)
           (metrics d))
      d) ;;
  ret (Metrics.mk (Metrics.id self) (Metrics.event self)
         total_holds total_bookings total_expiries
         total_held_seats total_booked_seats total_expired_seats
         (Metrics.created_at self) (now env)).

(** [Hold.objects.create]: an INSERT, refused by the primary key, the
    unique [payment_token], the [hold_qty_positive] check and the foreign
    key to the event. *)
Definition Hold_objects_create (h : Hold.t) : M Hold.t :=
  ok <- query (fun d =>
    negb (existsb (fun r => N.eqb (Hold.id r) (Hold.id h)) (holds d))
    && negb (existsb (fun r =>
               String.eqb (Hold.payment_token r) (Hold.payment_token h))
             (holds d))
    && (0 <? Hold.qty h)
    && existsb (fun e => N.eqb (Event.id e) (Hold.event h)) (events d)) ;;
  if ok : bool then
    update (fun d => set_holds (h :: holds d) d) ;;
    ret h
  else raise IntegrityError.

(** [Booking.objects.create(hold=hold)] with [Booking.save] filling in
    [booking_id]: an INSERT, refused by the primary key, the one-to-one
    [hold], the unique [booking_id] and the foreign key to the hold. *)
Definition Booking_objects_create (env : Env) (hold : Hold.t)
  : M Booking.t :=
  let b := Booking.mk (uuid4_pk env) (Hold.id hold)
             ("BK-" ++ uuid4_hex8 env)%string (now env) in
  ok <- query (fun d =>
    negb (existsb (fun r => N.eqb (Booking.id r) (Booking.id b)) (bookings d))
    && negb (existsb (fun r => N.eqb (Booking.hold r) (Booking.hold b))
               (bookings d))
    && negb (existsb (fun r =>
               String.eqb (Booking.booking_id r) (Booking.booking_id b))
             (bookings d))
    && existsb (fun r => N.eqb (Hold.id r) (Hold.id hold)) (holds d)) ;;
  if ok : bool then
    update (fun d => set_bookings (b :: bookings d) d) ;;
    ret b
  else raise IntegrityError.

(* ================================================================== *)
(** * utils.py *)

Definition redis_command (env : Env) (e : effect) : M unit :=
  if redis_ok env then emit e else raise RedisError.

(** [try: body finally: cleanup] *)
Definition finally {A} (body : M A) (cleanup : M unit) : M A :=
  fun d =>
    let '(r, d1, t1) := body d in
    let '(_, d2, t2) := cleanup d1 in
    (r, d2, t1 ++ t2).

(** [with RedisLock(lock_name, timeout=10): body] *)
Definition with_RedisLock {A} (env : Env) (k : redis_key) (body : M A)
  : M A :=
  if lock_acquired env then
    emit (RedisLockAcquire k) ;;
    finally body (emit (RedisLockRelease k))
  else raise LockNotAcquired.

(** [set_hold_expiry]: Redis refuses [SETEX] with an expiry that is not
    positive, and the client raises its answer. *)
Definition set_hold_expiry (env : Env) (hold_id : uuid) (expiry_seconds : Z)
  : M unit :=
  (if 0 <? expiry_seconds
   then redis_command env
          (RedisSetex (hold_expiry_key hold_id) expiry_seconds)
   else raise RedisError) ;;
  logger INFO.

Definition clear_hold_expiry (env : Env) (hold_id : uuid) : M unit :=
  redis_command env (RedisDelete (hold_expiry_key hold_id)) ;;
  logger INFO.

Definition increment_metric (env : Env) (metric_name : string)
  (event_id : option uuid) : M unit :=
  redis_command env (RedisIncr (metric_key metric_name event_id)) ;;
  redis_command env (RedisExpire (metric_key metric_name event_id) 86400).

(** What a view answers. *)
Module MetricsData.
Record t := mk {
  event_name : string;
  total_holds : Z;
  total_bookings : Z;
  total_expiries : Z;
  total_held_seats : Z;
  total_booked_seats : Z;
  total_expired_seats : Z;
  updated_at : datetime }.
End MetricsData.

Inductive body :=
| HoldResponseData (hold_id : uuid) (expires_at : datetime)
    (payment_token : string)
| BookingResponseData (booking_id : string)
| MetricsResponseData (m : MetricsData.t)
| ErrorData (error : string)
| NotFoundData
| ValidationErrorData (errors : list detail).

Record Response := mkResponse { status_code : Z; data : body }.

Definition HTTP_200_OK := 200.
Definition HTTP_201_CREATED := 201.
Definition HTTP_400_BAD_REQUEST := 400.
Definition HTTP_404_NOT_FOUND := 404.
Definition HTTP_409_CONFLICT := 409.
Definition HTTP_500_INTERNAL_SERVER_ERROR := 500.

(** [custom_exception_handler]: REST framework's own handler answers its
    [ValidationError] and [Http404]; the rest is handled here.  The body
    of the 404 is the framework's ([NotFoundData]): its wording differs
    between versions of the framework and is not fixed by the sources. *)
Definition custom_exception_handler (exc : exn) : M Response :=
  match exc with
  | ValidationError errors =>
      logger ERROR ;;
      ret (mkResponse HTTP_400_BAD_REQUEST (ValidationErrorData errors))
  | Http404 =>
      logger ERROR ;;
      ret (mkResponse HTTP_404_NOT_FOUND NotFoundData)
  | IntegrityError =>
      ret (mkResponse HTTP_400_BAD_REQUEST
             (ErrorData "Database Integrity Error"))
  | _ =>
      logger ERROR ;;
      ret (mkResponse HTTP_500_INTERNAL_SERVER_ERROR
             (ErrorData "Internal Server Error"))
  end.

(** A view as the client sees it: exceptions leaving the view go through
    the exception handler. *)
Definition dispatch (view : M Response) : M Response :=
  try_except view custom_exception_handler.

(* ================================================================== *)
(** * serializers.py *)

(** [settings.HOLD_EXPIRY_MINUTES] and [settings.MAX_HOLD_TTL_MINUTES];
    the settings module is not part of the sources, so both are taken as
    given. *)
Record Settings := mkSettings {
  HOLD_EXPIRY_MINUTES : Z;
  MAX_HOLD_TTL_MINUTES : Z }.

(** The body of a [POST /holds/]. *)
Module HoldRequest.
Record t := mk {
  event_id : uuid;
  qty : Z;
  ttl_minutes : option Z }.
End HoldRequest.

(** [validated_data] of [HoldCreateSerializer]; [event_id] holds the
    [Event] instance [validate_event_id] returned. *)
Module HoldData.
Record t := mk {
  event_id : Event.t;
  qty : Z;
  ttl_minutes : Z }.
End HoldData.

(** [HoldCreateSerializer.validate_event_id] *)
Definition HoldCreateSerializer_validate_event_id (value : uuid)
  : M Event.t :=
  try_except
    (lift (fun d =>
       objects_get EventModel (fun e => N.eqb (Event.id e) value) (events d)))
    (fun e =>
       match e with
       | DoesNotExist EventModel => raise (ValidationError [Event_not_found])
       | _ => raise e
       end).

(** [qty = IntegerField(min_value=1)] *)
Definition qty_errors (qty : Z) : list detail :=
  if qty <? 1 then [Qty_below_min] else [].

(** [ttl_minutes = IntegerField(min_value=1, max_value=..., default=...,
    required=False)] *)
Definition ttl_minutes_errors (cfg : Settings) (ttl : option Z)
  : list detail :=
  match ttl with
  | None => []
  | Some t =>
      (if t >? MAX_HOLD_TTL_MINUTES cfg then [Ttl_above_max] else [])
      ++ (if t <? 1 then [Ttl_below_min] else [])
  end.

(** The declared fields, run one by one with their errors collected. *)
Definition HoldCreateSerializer_fields (cfg : Settings)
  (data : HoldRequest.t) : M HoldData.t :=
  event <-
    try_except
      (e <- HoldCreateSerializer_validate_event_id (HoldRequest.event_id data) ;;
       ret (inl e))
      (fun x =>
         match x with
         | ValidationError errors => ret (inr errors)
         | _ => raise x
         end) ;;
  let errors :=
    match event with inl _ => [] | inr errors => errors end
    ++ qty_errors (HoldRequest.qty data)
    ++ ttl_minutes_errors cfg (HoldRequest.ttl_minutes data) in
  match event, errors with
  | inl e, [] =>
      ret (HoldData.mk e (HoldRequest.qty data)
             (match HoldRequest.ttl_minutes data with
              | Some t => t
              | None => HOLD_EXPIRY_MINUTES cfg
              end))
  | _, _ => raise (ValidationError errors)
  end.

(** [HoldCreateSerializer.validate] *)
Definition HoldCreateSerializer_validate (data : HoldData.t)
  : M HoldData.t :=
  let event := HoldData.event_id data in
  let qty := HoldData.qty data in
  available_seats <- query (fun d => Event_available_seats d event) ;;
  if qty >? available_seats then
    raise (ValidationError [Not_enough_seats qty available_seats])
  else ret data.

(** [serializer.is_valid(raise_exception=True)] *)
Definition HoldCreateSerializer_is_valid (cfg : Settings)
  (data : HoldRequest.t) : M HoldData.t :=
  fields <- HoldCreateSerializer_fields cfg data ;;
  HoldCreateSerializer_validate fields.

(** [HoldCreateSerializer.create] *)
Definition HoldCreateSerializer_create (env : Env)
  (validated_data : HoldData.t) : M Hold.t :=
  let event := HoldData.event_id validated_data in
  let qty := HoldData.qty validated_data in
  let ttl_minutes := HoldData.ttl_minutes validated_data in
  let expires_at := now env + ttl_minutes * 60 in
  let payment_token := uuid4_token env in
  Hold_objects_create
    (Hold.mk (uuid4_pk env) (Event.id event) qty expires_at payment_token
       ACTIVE (now env) (now env)).

(** The body of a [POST /book/] whose [hold_id] reads as a UUID and whose
    [payment_token] is a string; the same record holds the two values as
    the fields hand them on to [validate]. *)
Module BookingRequest.
Record t := mk {
  hold_id : uuid;
  payment_token : string }.
End BookingRequest.

(** Python's [str.isspace] on one character; the characters of a model
    string are the code points below 256. *)
Definition isspace (c : ascii) : bool :=
  let n := N_of_ascii c in
  ((9 <=? n) && (n <=? 13) || (28 <=? n) && (n <=? 32)
   || (n =? 133) || (n =? 160))%N.

Fixpoint lstrip (s : string) : string :=
  match s with
  | EmptyString => EmptyString
  | String c rest => if isspace c then lstrip rest else s
  end.

Fixpoint rstrip (s : string) : string :=
  match s with
  | EmptyString => EmptyString
  | String c rest =>
      match rstrip rest with
      | EmptyString => if isspace c then EmptyString else String c EmptyString
      | kept => String c kept
      end
  end.

(** [str.strip()] *)
Definition strip (s : string) : string := rstrip (lstrip s).

Fixpoint has_null_character (s : string) : bool :=
  match s with
  | EmptyString => false
  | String c rest => (N_of_ascii c =? 0)%N || has_null_character rest
  end.

(** [payment_token = serializers.CharField()] run on a string, with the
    field's defaults: a blank value is refused, surrounding whitespace is
    removed, and the field's validator refuses a null character. *)
Definition payment_token_field (data : string) : string + list detail :=
  if String.eqb (strip data) "" then inr [Payment_token_blank]
  else
    let value := strip data in
    if has_null_character value then inr [Payment_token_null_character]
    else inl value.

(** The declared fields of [BookingCreateSerializer]. *)
Definition BookingCreateSerializer_fields (data : BookingRequest.t)
  : M BookingRequest.t :=
  match payment_token_field (BookingRequest.payment_token data) with
  | inl value => ret (BookingRequest.mk (BookingRequest.hold_id data) value)
  | inr errors => raise (ValidationError errors)
  end.

(** [validated_data] of [BookingCreateSerializer]: [data['hold']] is the
    instance read by [validate], and [booking] is what its reverse
    one-to-one accessor found there and keeps cached on the instance. *)
Module BookingData.
Record t := mk {
  hold : Hold.t;
  booking : option Booking.t }.
End BookingData.

(** [BookingCreateSerializer.validate] *)
Definition BookingCreateSerializer_validate (env : Env)
  (data : BookingRequest.t) : M BookingData.t :=
  let hold_id := BookingRequest.hold_id data in
  let payment_token := BookingRequest.payment_token data in
  hold <-
    try_except
      (lift (fun d =>
         objects_get HoldModel (fun h => N.eqb (Hold.id h) hold_id) (holds d)))
      (fun e =>
         match e with
         | DoesNotExist HoldModel => raise (ValidationError [Hold_not_found])
         | _ => raise e
         end) ;;
  if negb (status_is ACTIVE hold) then
    raise (ValidationError [Hold_is_not_active])
  else if Hold_is_expired env hold then
    raise (ValidationError [Hold_has_expired])
  else if negb (String.eqb (Hold.payment_token hold) payment_token) then
    raise (ValidationError [Invalid_payment_token])
  else
    booking <- query (fun d => booking_of d hold) ;;
    match booking with
    | Some _ => raise (ValidationError [Hold_is_already_booked])
    | None => ret (BookingData.mk hold booking)
    end.

(** [serializer.is_valid(raise_exception=True)] *)
Definition BookingCreateSerializer_is_valid (env : Env)
  (data : BookingRequest.t) : M BookingData.t :=
  fields <- BookingCreateSerializer_fields data ;;
  BookingCreateSerializer_validate env fields.

(** [MetricsSerializer(metrics).data] *)
Definition MetricsSerializer (event : Event.t) (m : Metrics.t)
  : MetricsData.t :=
  MetricsData.mk (Event.name event)
    (Metrics.total_holds m) (Metrics.total_bookings m)
    (Metrics.total_expiries m) (Metrics.total_held_seats m)
    (Metrics.total_booked_seats m) (Metrics.total_expired_seats m)
    (Metrics.updated_at m).

(* ================================================================== *)
(** * tasks.py *)

(** [expire_specific_hold.apply_async(args=[hold_id], eta=eta)] *)
Definition apply_async (env : Env) (hold_id : uuid) (eta : datetime)
  : M unit :=
  if celery_ok env then emit (CeleryApplyAsync hold_id eta)
  else raise CeleryError.

(** [expire_specific_hold] *)
Definition expire_specific_hold (env : Env) (hold_id : uuid) : M unit :=
  logger INFO ;;
  try_except
    (atomic
       (hold <- lift (fun d =>
          objects_get HoldModel
            (fun h => N.eqb (Hold.id h) hold_id && status_is ACTIVE h)
            (holds d)) ;;
        logger INFO ;;
        if Hold_is_expired env hold then
          logger INFO ;;
          save_status env hold EXPIRED ;;
          clear_hold_expiry env hold_id ;;
          event <- related_event (Hold.event hold) ;;
          metrics <- Metrics_get_or_create_for_event env event ;;
          Metrics_update_metrics env metrics ;;
          increment_metric env "holds_expired" None ;;
          increment_metric env "holds_expired_event_" (Some (Event.id event)) ;;
          logger INFO
        else
          logger WARNING))
    (fun e =>
       match e with
       | DoesNotExist HoldModel => logger WARNING
       | _ => logger ERROR
       end) ;;
  logger INFO.

(* ================================================================== *)
(** * views.py *)

(** [HoldView.post] from the lock on: the [try] block with the
    [RedisLock] critical section, and its [except Exception]. *)
Definition HoldView_post_locked (env : Env) (validated_data : HoldData.t)
  : M Response :=
  let event := HoldData.event_id validated_data in
  let qty := HoldData.qty validated_data in
  let ttl_minutes := HoldData.ttl_minutes validated_data in
  try_except
    (with_RedisLock env (lock_key (Event.id event))
       (available_seats <- query (fun d => Event_available_seats d event) ;;
        if qty >? available_seats then
          ret (mkResponse HTTP_409_CONFLICT (ErrorData "Insufficient seats"))
        else
          hold <- HoldCreateSerializer_create env validated_data ;;
          let expiry_seconds := ttl_minutes * 60 in
          set_hold_expiry env (Hold.id hold) expiry_seconds ;;
          try_except
            (apply_async env (Hold.id hold) (Hold.expires_at hold) ;;
             logger INFO)
            (fun _ => logger ERROR) ;;
          increment_metric env "holds_created" None ;;
          increment_metric env "holds_created_event_" (Some (Event.id event)) ;;
          logger INFO ;;
          ret (mkResponse HTTP_201_CREATED
                 (HoldResponseData (Hold.id hold) (Hold.expires_at hold)
                    (Hold.payment_token hold)))))
    (fun _ =>
       logger ERROR ;;
       ret (mkResponse HTTP_500_INTERNAL_SERVER_ERROR
              (ErrorData "Failed to create hold"))).

(** [HoldView.post] *)
Definition HoldView_post (cfg : Settings) (env : Env)
  (request : HoldRequest.t) : M Response :=
  validated_data <- HoldCreateSerializer_is_valid cfg request ;;
  HoldView_post_locked env validated_data.

(** [BookingView.post] from [with transaction.atomic()] on. *)
Definition BookingView_post_atomic (env : Env)
  (validated_data : BookingData.t) : M Response :=
  let hold := BookingData.hold validated_data in
  atomic
    (match BookingData.booking validated_data with
     | Some booking =>
         ret (mkResponse HTTP_200_OK
                (BookingResponseData (Booking.booking_id booking)))
     | None =>
         booking <- Booking_objects_create env hold ;;
         save_status env hold BOOKED ;;
         clear_hold_expiry env (Hold.id hold) ;;
         event <- related_event (Hold.event hold) ;;
         metrics <- Metrics_get_or_create_for_event env event ;;
         Metrics_update_metrics env metrics ;;
         increment_metric env "bookings_created" None ;;
         increment_metric env "bookings_created_event_"
           (Some (Event.id event)) ;;
         logger INFO ;;
         ret (mkResponse HTTP_201_CREATED
                (BookingResponseData (Booking.booking_id booking)))
     end).

(** [BookingView.post] *)
Definition BookingView_post (env : Env) (request : BookingRequest.t)
  : M Response :=
  validated_data <- BookingCreateSerializer_is_valid env request ;;
  BookingView_post_atomic env validated_data.

(** [get_object_or_404(Event, id=event_id)] *)
Definition get_object_or_404_Event (event_id : uuid) : M Event.t :=
  try_except
    (lift (fun d =>
       objects_get EventModel (fun e => N.eqb (Event.id e) event_id)
         (events d)))
    (fun e =>
       match e with
       | DoesNotExist EventModel => raise Http404
       | _ => raise e
       end).

(** [EventMetricsView.get] *)
Definition EventMetricsView_get (env : Env) (event_id : uuid)
  : M Response :=
  event <- get_object_or_404_Event event_id ;;
  metrics <- Metrics_get_or_create_for_event env event ;;
  metrics <- Metrics_update_metrics env metrics ;;
  logger INFO ;;
  ret (mkResponse HTTP_200_OK
         (MetricsResponseData (MetricsSerializer event metrics))).

(** The three operations as a client or the task queue runs them. *)
Definition CreateHold (cfg : Settings) (env : Env) (request : HoldRequest.t)
  : M Response :=
  dispatch (HoldView_post cfg env request).

Definition ConfirmBooking (env : Env) (request : BookingRequest.t)
  : M Response :=
  dispatch (BookingView_post env request).

Definition GetEventMetrics (env : Env) (event_id : uuid) : M Response :=
  dispatch (EventMetricsView_get env event_id).

(* ================================================================== *)
(** * Event details (serializers.py, views.py) *)

(** What [EventDetailSerializer] renders. *)
Module EventDetail.
Record t := mk {
  id : uuid;
  name : string;
  total : Z;
  available : Z;
  held : Z;
  booked : Z;
  created_at : datetime }.
End EventDetail.

(** [EventDetailSerializer(event).data]: the three seat counts are the
    model's properties, each a query. *)
Definition EventDetailSerializer_data (event : Event.t) : M EventDetail.t :=
  available <- query (fun d => Event_available_seats d event) ;;
  held <- query (fun d => Event_held_seats d event) ;;
  booked <- query (fun d => Event_booked_seats d event) ;;
  ret (EventDetail.mk (Event.id event) (Event.name event)
         (Event.total_seats event) available held booked
         (Event.created_at event)).

(** [EventViewSet.retrieve]: the data of its 200 response. *)
Definition EventViewSet_retrieve (pk : uuid) : M EventDetail.t :=
  event <- get_object_or_404_Event pk ;;
  logger INFO ;;
  EventDetailSerializer_data event.

(** The view as the client sees it: the event's details, or the answer of
    the exception handler. *)
Definition GetEventAvailability (pk : uuid) : M (EventDetail.t + Response) :=
  try_except
    (data <- EventViewSet_retrieve pk ;; ret (inl data))
    (fun e => response <- custom_exception_handler e ;; ret (inr response)).

(* ================================================================== *)
(** * middleware.py *)

(** The parts of a request and a response the middleware touches. *)
Module Request.
Record t := mk {
  HTTP_X_CORRELATION_ID : option string;   (* [request.META] entry *)
  correlation_id : option string }.        (* the attribute the views read *)
End Request.

Module Headers.
Record t := mk {
  X_Correlation_ID : option string }.
End Headers.

(** Python's truth value of an optional string. *)
Definition truthy (s : option string) : bool :=
  match s with
  | None => false
  | Some s => negb (String.eqb s "")
  end.

(** [CorrelationIdMiddleware.process_request] *)
Definition process_request (env : Env) (request : Request.t)
  : M Request.t :=
  let correlation_id :=
    if truthy (Request.HTTP_X_CORRELATION_ID request)
    then Request.HTTP_X_CORRELATION_ID request
    else Some (uuid4_token env) in
  logger INFO ;;
  ret (Request.mk correlation_id correlation_id).

(** [CorrelationIdMiddleware.process_response] *)
Definition process_response (request : Request.t) (response : Headers.t)
  : M Headers.t :=
  match Request.correlation_id request with
  | Some correlation_id =>
      logger INFO ;;
      ret (Headers.mk (Some correlation_id))
  | None => ret response
  end.

(* ================================================================== *)
(** * System metrics (utils.py, serializers.py, views.py) *)

From Stdlib Require Import DecimalString.

(** What the process and Redis give a request that reads them: the
    seconds since the process started ([time.time() -
    process.create_time()], whose fraction never reaches the result) and
    the counters stored in Redis. *)
Record Process := mkProcess {
  uptime_seconds : Z;
  redis_get : redis_key -> option Z }.

(** Python's [str] of an integer. *)
Definition str (n : Z) : string := NilZero.string_of_int (Z.to_int n).

(** [get_metric]: [int(value) if value else 0] on what [GET] returns. *)
Definition get_metric (env : Env) (process : Process) (metric_name : string)
  : M Z :=
  if redis_ok env then
    ret (match redis_get process (metric_key metric_name None) with
         | Some value => value
         | None => 0
         end)
  else raise RedisError.

(** The fields of [SystemMetricsSerializer]. *)
Module SystemMetrics.
Record t := mk {
  total_events : Z;
  total_active_holds : Z;
  total_bookings : Z;
  total_expiries : Z;
  total_held_seats : Z;
  total_booked_seats : Z;
  total_expired_seats : Z;
  system_uptime : string }.
End SystemMetrics.

(** [MetricsView.get].  The Redis counters are read and put under
    [redis_metrics], which is not a field of the serializer, so they do
    not reach [serializer.data]; [is_valid] accepts what the view builds,
    seven integers and a string that is never blank. *)
Definition MetricsView_get (env : Env) (process : Process)
  : M SystemMetrics.t :=
  total_events <- query (fun d => count (events d)) ;;
  total_active_holds <-
    query (fun d => count (filter (status_is ACTIVE) (holds d))) ;;
  total_bookings <- query (fun d => count (bookings d)) ;;
  total_expiries <-
    query (fun d => count (filter (status_is EXPIRED) (holds d))) ;;
  total_held_seats <-
    query (fun d => or_ (Sum Hold.qty (filter (status_is ACTIVE) (holds d))) 0) ;;
  total_booked_seats <-
    query (fun d => or_ (Sum Hold.qty (filter (has_booking d) (holds d))) 0) ;;
  total_expired_seats <-
    query (fun d =>
      or_ (Sum Hold.qty (filter (status_is EXPIRED) (holds d))) 0) ;;
  redis_holds_created <- get_metric env process "holds_created" ;;
  redis_bookings_created <- get_metric env process "bookings_created" ;;
  redis_events_created <- get_metric env process "events_created" ;;
  let uptime_hours := uptime_seconds process / 3600 in
  let uptime_minutes := (uptime_seconds process mod 3600) / 60 in
  let system_uptime :=
    (str uptime_hours ++ "h " ++ str uptime_minutes ++ "m")%string in
  logger INFO ;;
  ret (SystemMetrics.mk total_events total_active_holds total_bookings
         total_expiries total_held_seats total_booked_seats
         total_expired_seats system_uptime).

Definition GetSystemMetrics (env : Env) (process : Process)
  : M (SystemMetrics.t + Response) :=
  try_except
    (data <- MetricsView_get env process ;; ret (inl data))
    (fun e => response <- custom_exception_handler e ;; ret (inr response)).

(* ================================================================== *)
(** * A program logic for [M] *)

Definition result_of {A} (x : outcome A * DB * list effect) : outcome A :=
  fst (fst x).
Definition db_of {A} (x : outcome A * DB * list effect) : DB :=
  snd (fst x).
Definition trace_of {A} (x : outcome A * DB * list effect) : list effect :=
  snd x.

(** [post m d Q]: run from store [d], [m] ends in an outcome, a store and
    a trace that satisfy [Q]. *)
Definition post {A} (m : M A) (d : DB)
  (Q : outcome A -> DB -> list effect -> Prop) : Prop :=
  Q (result_of (m d)) (db_of (m d)) (trace_of (m d)).

Definition bind_post {A B} (k : A -> M B)
  (Q : outcome B -> DB -> list effect -> Prop)
  : outcome A -> DB -> list effect -> Prop :=
  fun r d1 t1 =>
    match r with
    | Return a => post (k a) d1 (fun r2 d2 t2 => Q r2 d2 (t1 ++ t2))
    | Raise e => Q (Raise e) d1 t1
    end.

Definition except_post {A} (handler : exn -> M A)
  (Q : outcome A -> DB -> list effect -> Prop)
  : outcome A -> DB -> list effect -> Prop :=
  fun r d1 t1 =>
    match r with
    | Return a => Q (Return a) d1 t1
    | Raise e => post (handler e) d1 (fun r2 d2 t2 => Q r2 d2 (t1 ++ t2))
    end.

Definition atomic_post {A} (d : DB)
  (Q : outcome A -> DB -> list effect -> Prop)
  : outcome A -> DB -> list effect -> Prop :=
  fun r d1 t1 =>
    match r with
    | Return a => Q (Return a) d1 t1
    | Raise e => Q (Raise e) d t1
    end.

(** Computations that leave the store as it is. *)
Definition keeps_db {A} (m : M A) : Prop :=
  forall d, post m d (fun _ d' _ => d' = d).

(** Computations that leave events, holds and bookings as they are. *)
Definition same_core (d d' : DB) : Prop :=
  events d' = events d /\ holds d' = holds d /\ bookings d' = bookings d.

Definition keeps_core {A} (m : M A) : Prop :=
  forall d, post m d (fun _ d' _ => same_core d d').

(* ================================================================== *)
(** * Vocabulary of the properties *)

(** One row after [SET status = s, updated_at = now]. *)
Definition set_status (env : Env) (s : Hold.Status.t) (r : Hold.t) : Hold.t :=
  Hold.mk (Hold.id r) (Hold.event r) (Hold.qty r) (Hold.expires_at r)
    (Hold.payment_token r) s (Hold.created_at r) (now env).

(** The rows of [holds] after [UPDATE holds SET status = s, updated_at =
    now WHERE id = hold_id]. *)
Definition with_status (env : Env) (hold_id : uuid) (s : Hold.Status.t)
  (hs : list Hold.t) : list Hold.t :=
  map (fun r => if N.eqb (Hold.id r) hold_id then set_status env s r else r)
      hs.

Definition total_qty (hs : list Hold.t) : Z :=
  fold_right (fun h acc => Hold.qty h + acc) 0 hs.

(** The seat counts in the words of the inventory accounting:
    [held] sums [qty] over the event's ACTIVE holds, [booked] over its
    holds for which a Booking exists, [booked_holds] over its BOOKED
    holds. *)
Definition held (d : DB) (event : Event.t) : Z :=
  total_qty
    (filter (fun h => N.eqb (Hold.event h) (Event.id event)
                      && status_is ACTIVE h)
            (holds d)).

Definition booked (d : DB) (event : Event.t) : Z :=
  total_qty
    (filter (fun h => N.eqb (Hold.event h) (Event.id event)
                      && existsb (fun b => N.eqb (Booking.hold b) (Hold.id h))
                           (bookings d))
            (holds d)).

Definition available (d : DB) (event : Event.t) : Z :=
  Z.max 0 (Event.total_seats event - held d event - booked d event).

Definition booked_holds (d : DB) (event : Event.t) : Z :=
  total_qty
    (filter (fun h => N.eqb (Hold.event h) (Event.id event)
                      && status_is BOOKED h)
            (holds d)).

(** The steps in which the engine commits to the store.  A request or
    task run from start to end is one step.  Both views validate before
    they write, so when requests and tasks overlap the writing part of a
    request runs on a later store than its validation:
    [CreateHold_locked_op] is the critical section of [HoldView.post] and
    [ConfirmBooking_atomic_op] the transaction of [BookingView.post], each
    for data validated earlier. *)
Inductive operation :=
| CreateHold_op (cfg : Settings) (env : Env) (request : HoldRequest.t)
| CreateHold_locked_op (env : Env) (validated_data : HoldData.t)
| ConfirmBooking_op (env : Env) (request : BookingRequest.t)
| ConfirmBooking_atomic_op (env : Env) (validated_data : BookingData.t)
| expire_op (env : Env) (hold_id : uuid)
| GetEventMetrics_op (env : Env) (event_id : uuid).

Definition run (op : operation) (d : DB) : DB :=
  match op with
  | CreateHold_op cfg env request => db_of (CreateHold cfg env request d)
  | CreateHold_locked_op env validated_data =>
      db_of (HoldView_post_locked env validated_data d)
  | ConfirmBooking_op env request => db_of (ConfirmBooking env request d)
  | ConfirmBooking_atomic_op env validated_data =>
      db_of (dispatch (BookingView_post_atomic env validated_data) d)
  | expire_op env hold_id => db_of (expire_specific_hold env hold_id d)
  | GetEventMetrics_op env event_id => db_of (GetEventMetrics env event_id d)
  end.

(** The transaction of a booking whose validation ran on an earlier
    store. *)
Definition overlapped_booking (op : operation) : bool :=
  match op with
  | ConfirmBooking_atomic_op _ _ => true
  | _ => false
  end.

(** What an instance read earlier shares with the row stored now:
    everything but [status] and [updated_at], the two columns the engine
    rewrites. *)
Definition same_hold (r h : Hold.t) : Prop :=
  Hold.id r = Hold.id h /\ Hold.event r = Hold.event h
  /\ Hold.qty r = Hold.qty h /\ Hold.expires_at r = Hold.expires_at h
  /\ Hold.payment_token r = Hold.payment_token h
  /\ Hold.created_at r = Hold.created_at h.

(** The instance a critical section or a transaction works on was read
    from the store: the event of a hold request is a row of it; the hold
    of a booking request passed validation, so it was ACTIVE with no
    Booking when read, and its row is still there. *)
Definition admissible (d : DB) (op : operation) : Prop :=
  match op with
  | CreateHold_locked_op _ validated_data =>
      In (HoldData.event_id validated_data) (events d)
  | ConfirmBooking_atomic_op _ validated_data =>
      BookingData.booking validated_data = None
      /\ Hold.status (BookingData.hold validated_data) = ACTIVE
      /\ exists r, In r (holds d)
                   /\ same_hold r (BookingData.hold validated_data)
  | _ => True
  end.

(** What the schema guarantees of a store: primary keys, the
    [hold_qty_positive] check, and a Booking row exactly for the BOOKED
    holds. *)
Record consistent (d : DB) : Prop := {
  events_pk : NoDup (map Event.id (events d));
  holds_pk : NoDup (map Hold.id (holds d));
  qty_positive : forall h, In h (holds d) -> 0 < Hold.qty h;
  booking_hold : forall b, In b (bookings d) ->
    exists h, In h (holds d) /\ Hold.id h = Booking.hold b
              /\ Hold.status h = BOOKED;
  booked_booking : forall h, In h (holds d) -> Hold.status h = BOOKED ->
    has_booking d h = true }.

Definition no_oversell (d : DB) : Prop :=
  forall event, In event (events d) ->
    held d event + booked_holds d event <= Event.total_seats event.

(** A store with events and nothing held or booked yet. *)
Definition initial (d : DB) : Prop :=
  NoDup (map Event.id (events d))
  /\ (forall event, In event (events d) -> 0 <= Event.total_seats event)
  /\ holds d = [] /\ bookings d = [].

Inductive reachable : DB -> Prop :=
| reachable_initial d : initial d -> reachable d
| reachable_run d op :
    reachable d -> admissible d op -> reachable (run op d).

(** The stores reached when no booking transaction runs on a later store
    than its validation. *)
Inductive reachable_in_turn : DB -> Prop :=
| in_turn_initial d : initial d -> reachable_in_turn d
| in_turn_run d op :
    reachable_in_turn d -> admissible d op -> overlapped_booking op = false ->
    reachable_in_turn (run op d).

(** Computations that keep a property of the store. *)
Definition keeps {A} (P : DB -> Prop) (m : M A) : Prop :=
  forall d, P d -> post m d (fun _ d' _ => P d').

(** At most one [Metrics] row per event, as [get_or_create] leaves
    them. *)
Definition metrics_unique (d : DB) : Prop :=
  forall event_id,
    (List.length
       (filter (fun m => N.eqb (Metrics.event m) event_id) (metrics d))
     <= 1)%nat.

(** The counters of an event recomputed from the hold and booking rows:
    hold count, booking count, expiry count, and summed [qty] per
    category. *)
Definition fresh_metrics (env : Env) (d : DB) (event : Event.t)
  : MetricsData.t :=
  let of_event (h : Hold.t) := N.eqb (Hold.event h) (Event.id event) in
  let is_booked (h : Hold.t) :=
    existsb (fun b => N.eqb (Booking.hold b) (Hold.id h)) (bookings d) in
  MetricsData.mk (Event.name event)
    (Z.of_nat (List.length (filter of_event (holds d))))
    (Z.of_nat
       (List.length (filter (fun h => of_event h && is_booked h) (holds d))))
    (Z.of_nat
       (List.length
          (filter (fun h => of_event h && status_is EXPIRED h) (holds d))))
    (held d event)
    (booked d event)
    (total_qty (filter (fun h => of_event h && status_is EXPIRED h) (holds d)))
    (now env).

(** The status stored for a hold. *)
Definition stored_status (d : DB) (hold_id : uuid) : option Hold.Status.t :=
  option_map Hold.status
    (find (fun h => N.eqb (Hold.id h) hold_id) (holds d)).

(** One booking request and one expiry task on the same hold.  The
    request reads and validates the hold ([BookingCreateSerializer]) and
    later runs its transaction; the task is one transaction.  A schedule
    says where the task's transaction falls. *)
Inductive schedule := expiry_first | expiry_between | expiry_last.

Definition booking_in_two_steps (env_validate env_atomic : Env)
  (request : BookingRequest.t) (d_validate d_atomic : DB) : DB :=
  match result_of (BookingCreateSerializer_is_valid env_validate request
                     d_validate) with
  | Return validated_data =>
      db_of (dispatch (BookingView_post_atomic env_atomic validated_data)
               d_atomic)
  | Raise _ => d_atomic
  end.

(** The stores committed along a schedule, oldest first. *)
Definition race (s : schedule) (env_validate env_expire env_atomic : Env)
  (request : BookingRequest.t) (d : DB) : list DB :=
  let hold_id := BookingRequest.hold_id request in
  match s with
  | expiry_first =>
      let d1 := db_of (expire_specific_hold env_expire hold_id d) in
      [d; d1; booking_in_two_steps env_validate env_atomic request d1 d1]
  | expiry_between =>
      let d1 := db_of (expire_specific_hold env_expire hold_id d) in
      [d; d1; booking_in_two_steps env_validate env_atomic request d d1]
  | expiry_last =>
      let d1 := booking_in_two_steps env_validate env_atomic request d d in
      [d; d1; db_of (expire_specific_hold env_expire hold_id d1)]
  end.

(** The sentences of the specification that the code does not satisfy,
    as they are written. *)

(** Insufficient inventory is reported as a conflict, with no state
    mutated. *)
Definition insufficient_inventory_is_conflict (cfg : Settings) (env : Env)
  (request : HoldRequest.t) (d : DB) : Prop :=
  forall event,
    objects_get EventModel
      (fun e => N.eqb (Event.id e) (HoldRequest.event_id request)) (events d)
    = Return event ->
    HoldRequest.qty request > available d event ->
    db_of (CreateHold cfg env request d) = d
    /\ exists body,
         result_of (CreateHold cfg env request d)
         = Return (mkResponse HTTP_409_CONFLICT body).

(** A confirmation that does not arrive strictly before [expires_at] of
    an ACTIVE hold fails as expired. *)
Definition deadline_is_exclusive (env : Env) (request : BookingRequest.t)
  (d : DB) : Prop :=
  forall h,
    objects_get HoldModel
      (fun r => N.eqb (Hold.id r) (BookingRequest.hold_id request)) (holds d)
    = Return h ->
    Hold.status h = ACTIVE ->
    ~ now env < Hold.expires_at h ->
    result_of (ConfirmBooking env request d)
    = Return (mkResponse HTTP_400_BAD_REQUEST
                (ValidationErrorData [Hold_has_expired])).

(** A confirmation of a hold that is not ACTIVE fails as invalid
    state. *)
Definition inactive_hold_is_invalid_state (env : Env)
  (request : BookingRequest.t) (d : DB) : Prop :=
  forall h,
    objects_get HoldModel
      (fun r => N.eqb (Hold.id r) (BookingRequest.hold_id request)) (holds d)
    = Return h ->
    Hold.status h <> ACTIVE ->
    result_of (ConfirmBooking env request d)
    = Return (mkResponse HTTP_400_BAD_REQUEST
                (ValidationErrorData [Hold_is_not_active])).

(** A confirmation whose payment token, as sent, differs from the token
    of an ACTIVE hold within its deadline fails as unauthorized. *)
Definition token_must_match_exactly (env : Env) (request : BookingRequest.t)
  (d : DB) : Prop :=
  forall h,
    objects_get HoldModel
      (fun r => N.eqb (Hold.id r) (BookingRequest.hold_id request)) (holds d)
    = Return h ->
    Hold.status h = ACTIVE ->
    now env <= Hold.expires_at h ->
    Hold.payment_token h <> BookingRequest.payment_token request ->
    result_of (ConfirmBooking env request d)
    = Return (mkResponse HTTP_400_BAD_REQUEST
                (ValidationErrorData [Invalid_payment_token])).

(** A store to try things on: one event of ten seats. *)
Module Sample.
Definition cfg : Settings := mkSettings 5 60.
Definition concert : Event.t := Event.mk 1%N "Concert" 10 0 0.
Definition db0 : DB := mkDB [concert] [] [] [].

Definition env (t : datetime) (pk : uuid) (token hex8 : string) : Env :=
  mkEnv t pk token hex8 true true true.

(** [CreateHold(qty=7, ttl=1 minute)] at time 100: expires at 160. *)
Definition hold7 : operation :=
  CreateHold_op cfg (env 100 11%N "token-a" "") (HoldRequest.mk 1%N 7 (Some 1)).
Definition db_held : DB := run hold7 db0.

Definition book7 : BookingRequest.t := BookingRequest.mk 11%N "token-a".
Definition db_booked : DB :=
  run (ConfirmBooking_op (env 130 21%N "" "0A1B2C3D") book7) db_held.

(** [CreateHold(qty=3)] with the default ttl at time 140. *)
Definition hold3 : operation :=
  CreateHold_op cfg (env 140 13%N "token-c" "") (HoldRequest.mk 1%N 3 None).
Definition db_full : DB := run hold3 db_booked.

(** A confirmation of the hold of seven that overlaps with the hold's
    expiry.  Its validation runs at the deadline, time 160, on [db_held]
    and returns the instance as read; the expiry task commits at 161; a
    hold of ten is granted on the seats the expiry freed; the
    confirmation's transaction runs at 162. *)
Definition validated7 : BookingData.t :=
  BookingData.mk (Hold.mk 11%N 1%N 7 160 "token-a" ACTIVE 100 100) None.
Definition db_expired : DB := run (expire_op (env 161 0%N "" "") 11%N) db_held.
Definition hold10 : operation :=
  CreateHold_op cfg (env 161 14%N "token-d" "") (HoldRequest.mk 1%N 10 None).
Definition db_regranted : DB := run hold10 db_expired.
Definition book7_late : operation :=
  ConfirmBooking_atomic_op (env 162 21%N "" "0A1B2C3D") validated7.
Definition db_oversold : DB := run book7_late db_regranted.
End Sample.

(* ================================================================== *)
(** * Vocabulary of further properties *)



(** The hold [HoldCreateSerializer.create] inserts for a request. *)
Definition new_hold (cfg : Settings) (env : Env) (request : HoldRequest.t)
  : Hold.t :=
  Hold.mk (uuid4_pk env) (HoldRequest.event_id request)
    (HoldRequest.qty request)
    (now env
     + match HoldRequest.ttl_minutes request with
       | Some t => t
       | None => HOLD_EXPIRY_MINUTES cfg
       end * 60)
    (uuid4_token env) ACTIVE (now env) (now env).

(** A request the serializer accepts on store [d]: the event exists once,
    [qty] and [ttl_minutes] are within their bounds and [qty] within the
    availability. *)
Definition valid_hold_request (cfg : Settings) (request : HoldRequest.t)
  (d : DB) (event : Event.t) : Prop :=
  objects_get EventModel
    (fun e => N.eqb (Event.id e) (HoldRequest.event_id request)) (events d)
  = Return event
  /\ 1 <= HoldRequest.qty request
  /\ match HoldRequest.ttl_minutes request with
     | Some t => 1 <= t <= MAX_HOLD_TTL_MINUTES cfg
     | None => True
     end
  /\ HoldRequest.qty request <= available d event.

(** The key and the token drawn for a new hold are not in use. *)
Definition fresh_hold_values (env : Env) (d : DB) : Prop :=
  existsb (fun r => N.eqb (Hold.id r) (uuid4_pk env)) (holds d) = false
  /\ existsb (fun r => String.eqb (Hold.payment_token r) (uuid4_token env))
       (holds d) = false.

(** The errors the declared fields of [HoldCreateSerializer] report. *)
Definition hold_field_errors (cfg : Settings) (request : HoldRequest.t)
  (d : DB) : list detail :=
  match filter (fun e => N.eqb (Event.id e) (HoldRequest.event_id request))
          (events d) with
  | [] => [Event_not_found]
  | _ :: _ => []
  end
  ++ qty_errors (HoldRequest.qty request)
  ++ ttl_minutes_errors cfg (HoldRequest.ttl_minutes request).

(** Constraints of the schema beyond [consistent]: the unique
    [payment_token], the one-to-one [Booking.hold], and the foreign key
    from a hold to its event. *)
Definition tokens_unique (d : DB) : Prop :=
  NoDup (map Hold.payment_token (holds d)).

Definition one_booking_per_hold (d : DB) : Prop :=
  NoDup (map Booking.hold (bookings d)).

Definition holds_have_event (d : DB) : Prop :=
  forall h, In h (holds d) ->
    exists event, In event (events d) /\ Event.id event = Hold.event h.

(** Properties that only read events, holds and bookings. *)
Definition core_property (P : DB -> Prop) : Prop :=
  forall d d', same_core d d' -> P d -> P d'.

(** A counter summed over all events of the store. *)
Definition sum_over_events (counter : Event.t -> Z) (d : DB) : Z :=
  fold_right (fun event acc => counter event + acc) 0 (events d).

(* ================================================================== *)
(** * Rules of the program logic *)

Section ProgramLogic.
Context {A : Type}.
Variable Q : outcome A -> DB -> list effect -> Prop.
Variable d : DB.

Lemma post_ret (a : A) : Q (Return a) d [] -> post (ret a) d Q.
Proof. exact (fun H => H). Qed.

Lemma post_raise (e : exn) : Q (Raise e) d [] -> post (raise e) d Q.
Proof. exact (fun H => H). Qed.

Lemma post_query (f : DB -> A) : Q (Return (f d)) d [] -> post (query f) d Q.
Proof. exact (fun H => H). Qed.

Lemma post_lift (f : DB -> outcome A) : Q (f d) d [] -> post (lift f) d Q.
Proof. exact (fun H => H). Qed.

Lemma post_bind {B} (m : M B) (k : B -> M A) :
  post m d (bind_post k Q) -> post (bind m k) d Q.
Proof.
  unfold bind_post, post, bind, result_of, db_of, trace_of.
  destruct (m d) as [[[a | e] d1] t1]; cbn; auto.
  destruct (k a d1) as [[r2 d2] t2]; cbn; auto.
Qed.

Lemma post_try_except (body : M A) (handler : exn -> M A) :
  post body d (except_post handler Q) -> post (try_except body handler) d Q.
Proof.
  unfold except_post, post, try_except, result_of, db_of, trace_of.
  destruct (body d) as [[[a | e] d1] t1]; cbn; auto.
  destruct (handler e d1) as [[r2 d2] t2]; cbn; auto.
Qed.

Lemma post_atomic (body : M A) :
  post body d (atomic_post d Q) -> post (atomic body) d Q.
Proof.
  unfold post, atomic_post, atomic, result_of, db_of, trace_of.
  destruct (body d) as [[[a | e] d1] t1]; cbn; auto.
Qed.

Lemma post_finally (body : M A) (cleanup : M unit) :
  post body d (fun r d1 t1 =>
    post cleanup d1 (fun _ d2 t2 => Q r d2 (t1 ++ t2))) ->
  post (finally body cleanup) d Q.
Proof.
  unfold post, finally, result_of, db_of, trace_of.
  destruct (body d) as [[r d1] t1]; cbn.
  destruct (cleanup d1) as [[r2 d2] t2]; cbn; auto.
Qed.

Lemma post_mono (m : M A) (P : outcome A -> DB -> list effect -> Prop) :
  post m d P -> (forall r d' t, P r d' t -> Q r d' t) -> post m d Q.
Proof. unfold post; auto. Qed.
End ProgramLogic.

Lemma post_update (Q : outcome unit -> DB -> list effect -> Prop) d f :
  Q (Return tt) (f d) [] -> post (update f) d Q.
Proof. exact (fun H => H). Qed.

Lemma post_emit (Q : outcome unit -> DB -> list effect -> Prop) d e :
  Q (Return tt) d [e] -> post (emit e) d Q.
Proof. exact (fun H => H). Qed.

(** Sequencing through a computation known only by what it guarantees. *)
Lemma post_bind_with {A B} (m : M A) (k : A -> M B) d
  (P : outcome A -> DB -> list effect -> Prop)
  (Q : outcome B -> DB -> list effect -> Prop) :
  post m d P ->
  (forall r d1 t1, P r d1 t1 -> bind_post k Q r d1 t1) ->
  post (bind m k) d Q.
Proof. intros Hm Hk. apply post_bind. eapply post_mono; eauto. Qed.

Lemma same_core_refl d : same_core d d.
Proof. repeat split. Qed.

Lemma same_core_trans d1 d2 d3 :
  same_core d1 d2 -> same_core d2 d3 -> same_core d1 d3.
Proof. unfold same_core; intuition congruence. Qed.

Lemma keeps_db_core {A} (m : M A) : keeps_db m -> keeps_core m.
Proof.
  intros H d. eapply post_mono; [apply H |].
  cbn; intros; subst; apply same_core_refl.
Qed.

Lemma keeps_core_bind {A B} (m : M A) (k : A -> M B) :
  keeps_core m -> (forall a, keeps_core (k a)) -> keeps_core (bind m k).
Proof.
  intros Hm Hk d. eapply post_bind_with; [apply Hm |].
  intros [a | e] d1 t1 H1; cbn; auto.
  eapply post_mono; [apply Hk |].
  cbn; intros; eapply same_core_trans; eauto.
Qed.

Lemma keeps_core_try_except {A} (body : M A) handler :
  keeps_core body -> (forall e, keeps_core (handler e)) ->
  keeps_core (try_except body handler).
Proof.
  intros Hb Hh d. apply post_try_except.
  eapply post_mono; [apply Hb |].
  intros [a | e] d1 t1 H1; cbn; auto.
  eapply post_mono; [apply Hh |].
  cbn; intros; eapply same_core_trans; eauto.
Qed.

Lemma keeps_db_bind {A B} (m : M A) (k : A -> M B) :
  keeps_db m -> (forall a, keeps_db (k a)) -> keeps_db (bind m k).
Proof.
  intros Hm Hk d. eapply post_bind_with; [apply Hm |].
  intros [a | e] d1 t1 H1; cbn; auto.
  subst. apply Hk.
Qed.

Lemma keeps_db_try_except {A} (body : M A) handler :
  keeps_db body -> (forall e, keeps_db (handler e)) ->
  keeps_db (try_except body handler).
Proof.
  intros Hb Hh d. apply post_try_except.
  eapply post_mono; [apply Hb |].
  intros [a | e] d1 t1 H1; cbn; auto.
  subst. apply Hh.
Qed.

Lemma keeps_db_ret {A} (a : A) : keeps_db (ret a).
Proof. intro; reflexivity. Qed.
Lemma keeps_db_raise {A} e : keeps_db (@raise A e).
Proof. intro; reflexivity. Qed.
Lemma keeps_db_query {A} (f : DB -> A) : keeps_db (query f).
Proof. intro; reflexivity. Qed.
Lemma keeps_db_lift {A} (f : DB -> outcome A) : keeps_db (lift f).
Proof. intro; reflexivity. Qed.
Lemma keeps_db_emit e : keeps_db (emit e).
Proof. intro; reflexivity. Qed.
Lemma keeps_db_logger l : keeps_db (logger l).
Proof. intro; reflexivity. Qed.

Lemma keeps_db_redis_command env e : keeps_db (redis_command env e).
Proof. unfold redis_command; destruct (redis_ok env); intro; reflexivity. Qed.

Create HintDb store.
#[local] Hint Resolve keeps_db_ret keeps_db_raise keeps_db_query
  keeps_db_lift keeps_db_emit keeps_db_logger keeps_db_redis_command
  keeps_db_bind keeps_db_try_except : store.

Lemma keeps_db_clear_hold_expiry env h : keeps_db (clear_hold_expiry env h).
Proof. unfold clear_hold_expiry; auto with store. Qed.

Lemma keeps_db_set_hold_expiry env h s : keeps_db (set_hold_expiry env h s).
Proof. unfold set_hold_expiry; destruct (0 <? s); auto with store. Qed.

Lemma keeps_db_increment_metric env n e : keeps_db (increment_metric env n e).
Proof. unfold increment_metric; auto with store. Qed.

Lemma keeps_db_apply_async env h eta : keeps_db (apply_async env h eta).
Proof. unfold apply_async; destruct (celery_ok env); auto with store. Qed.

Lemma keeps_db_related_event e : keeps_db (related_event e).
Proof. unfold related_event; auto with store. Qed.

#[local] Hint Resolve keeps_db_clear_hold_expiry keeps_db_set_hold_expiry
  keeps_db_increment_metric keeps_db_apply_async keeps_db_related_event
  : store.

Lemma keeps_core_update_metrics f :
  keeps_core (update (fun d => set_metrics (f d) d)).
Proof. intro d. apply post_update. repeat split. Qed.

#[local] Hint Resolve keeps_db_core keeps_core_bind keeps_core_try_except
  keeps_core_update_metrics : store.

Lemma keeps_core_get_or_create env event :
  keeps_core (Metrics_get_or_create_for_event env event).
Proof.
  unfold Metrics_get_or_create_for_event.
  apply keeps_core_try_except; [auto with store |].
  intros [[] | | | | | | |]; auto 10 with store.
Qed.

Lemma keeps_core_update env self :
  keeps_core (Metrics_update_metrics env self).
Proof.
  unfold Metrics_update_metrics.
  repeat (apply keeps_core_bind; [auto with store | intro]).
  auto with store.
Qed.

#[local] Hint Resolve keeps_core_get_or_create keeps_core_update : store.

(* ================================================================== *)
(** * What each operation does to the store *)

Ltac wp_known :=
  lazymatch goal with
  | |- post (bind _ _) _ _ => apply post_bind
  | |- post (logger _) _ _ => apply post_emit
  | |- post (emit _) _ _ => apply post_emit
  | |- post (query _) _ _ => apply post_query
  | |- post (lift _) _ _ => apply post_lift
  | |- post (update _) _ _ => apply post_update
  | |- post (save_status _ _ _) _ _ => apply post_update
  | |- post (related_event _) _ _ => apply post_lift
  | |- post (ret _) _ _ => apply post_ret
  | |- post (raise _) _ _ => apply post_raise
  | |- post (try_except _ _) _ _ => apply post_try_except
  | |- post (atomic _) _ _ => apply post_atomic
  | |- post (finally _ _) _ _ => apply post_finally
  end.

Ltac wp :=
  cbn [bind_post except_post atomic_post];
  repeat (wp_known; cbn [bind_post except_post atomic_post]).

(** Step over a call known by a lemma [H] about what it does to the
    store. *)
Ltac wp_call H :=
  eapply post_mono; [apply H |];
  let r := fresh "r" in
  let d1 := fresh "d" in
  let E := fresh "E" in
  cbv beta; intros r d1 ? E; destruct r;
  cbn [bind_post except_post atomic_post].

Lemma objects_get_Return {A} m (p : A -> bool) rows r :
  objects_get m p rows = Return r ->
  In r rows /\ p r = true /\ filter p rows = [r].
Proof.
  unfold objects_get. destruct (filter p rows) as [| x [| y l]] eqn:E;
    try discriminate.
  intros [= ->].
  assert (H : In r (filter p rows)) by (rewrite E; left; reflexivity).
  apply filter_In in H. tauto.
Qed.

Lemma objects_get_Raise {A} m (p : A -> bool) rows e :
  objects_get m p rows = Raise e ->
  e = DoesNotExist m /\ filter p rows = []
  \/ e = MultipleObjectsReturned m.
Proof.
  unfold objects_get. destruct (filter p rows) as [| x [| y l]];
    intros [= <-]; auto.
Qed.

Ltac destruct_exn e := destruct e as [[] | [] | | | | | |].

(** Finish a branch in which an exception reaches the handlers. *)
Ltac wp_raised :=
  cbn [bind_post except_post atomic_post];
  match goal with
  | |- context [match ?e with DoesNotExist _ => _ | _ => _ end] =>
      destruct_exn e
  | _ => idtac
  end; wp.

Lemma status_is_eq s h : status_is s h = true <-> Hold.status h = s.
Proof. unfold status_is. destruct (Hold.status h), s; cbn; intuition congruence. Qed.

Lemma expire_shape env hid d :
  post (expire_specific_hold env hid) d (fun r d' _ =>
    r = Return tt /\ events d' = events d /\ bookings d' = bookings d /\
    (d' = d \/
     exists h, In h (holds d) /\ Hold.id h = hid /\ Hold.status h = ACTIVE
               /\ Hold_is_expired env h = true
               /\ holds d' = with_status env hid EXPIRED (holds d))).
Proof.
  unfold expire_specific_hold. wp.
  destruct (objects_get _ _ _) as [h | e] eqn:Eget; [| wp_raised; auto 10].
  apply objects_get_Return in Eget. destruct Eget as (Hin & Hp & _).
  apply andb_prop in Hp. destruct Hp as [Hid Hact].
  apply N.eqb_eq in Hid. apply status_is_eq in Hact.
  wp. destruct (Hold_is_expired env h) eqn:Hexp; [| wp; auto 10].
  wp. wp_call keeps_db_clear_hold_expiry; [| wp_raised; auto 10].
  subst d0. wp.
  destruct (objects_get _ _ _) as [ev | e]; [| wp_raised; auto 10].
  wp. wp_call keeps_core_get_or_create; [| wp_raised; auto 10].
  wp. wp_call keeps_core_update; [| wp_raised; auto 10].
  wp. wp_call keeps_db_increment_metric; [| wp_raised; auto 10].
  wp. wp_call keeps_db_increment_metric; [| wp_raised; auto 10].
  wp. subst.
  destruct E as (E1 & E2 & E3), E0 as (F1 & F2 & F3).
  cbn [events holds bookings set_holds] in E1, E2, E3.
  repeat split; try congruence.
  right. exists h. repeat split; auto. unfold with_status, set_status. congruence.
Qed.

Lemma booking_validate_shape env request d :
  post (BookingCreateSerializer_validate env request) d (fun r d' _ =>
    d' = d /\
    match r with
    | Return data =>
        let h := BookingData.hold data in
        In h (holds d) /\ Hold.id h = BookingRequest.hold_id request
        /\ filter (fun r => N.eqb (Hold.id r) (Hold.id h)) (holds d) = [h]
        /\ Hold.status h = ACTIVE /\ now env <= Hold.expires_at h
        /\ Hold.payment_token h = BookingRequest.payment_token request
        /\ has_booking d h = false /\ BookingData.booking data = None
    | Raise e => (exists errors, e = ValidationError errors)
                 \/ e = MultipleObjectsReturned HoldModel
    end).
Proof.
  unfold BookingCreateSerializer_validate. wp.
  destruct (objects_get _ _ _) as [h | e] eqn:Eget.
  2: { apply objects_get_Raise in Eget.
       destruct Eget as [[-> _] | ->]; wp; split; eauto. }
  apply objects_get_Return in Eget. destruct Eget as (Hin & Hid & Hf).
  apply N.eqb_eq in Hid.
  wp. destruct (status_is ACTIVE h) eqn:Hact; cbn [negb]; [| wp; eauto].
  apply status_is_eq in Hact.
  unfold Hold_is_expired.
  destruct (now env >? Hold.expires_at h) eqn:Hexp; [wp; eauto |].
  destruct (String.eqb _ _) eqn:Htok; cbn [negb]; [| wp; eauto].
  apply String.eqb_eq in Htok.
  wp. unfold has_booking.
  destruct (booking_of d h) eqn:Hb; wp; [eauto |].
  cbn. rewrite Hb. rewrite <- Hid in Hf.
  repeat split; auto. lia.
Qed.

Lemma booking_is_valid_shape env request d :
  post (BookingCreateSerializer_is_valid env request) d (fun r d' _ =>
    d' = d /\
    match r with
    | Return data =>
        let h := BookingData.hold data in
        In h (holds d) /\ Hold.id h = BookingRequest.hold_id request
        /\ filter (fun r => N.eqb (Hold.id r) (Hold.id h)) (holds d) = [h]
        /\ Hold.status h = ACTIVE /\ now env <= Hold.expires_at h
        /\ payment_token_field (BookingRequest.payment_token request)
           = inl (Hold.payment_token h)
        /\ has_booking d h = false /\ BookingData.booking data = None
    | Raise e => (exists errors, e = ValidationError errors)
                 \/ e = MultipleObjectsReturned HoldModel
    end).
Proof.
  unfold BookingCreateSerializer_is_valid, BookingCreateSerializer_fields.
  wp.
  destruct (payment_token_field (BookingRequest.payment_token request))
    as [value | errors] eqn:Hfield; [| wp; eauto].
  wp.
  eapply post_mono; [apply booking_validate_shape |].
  cbv beta. intros [data | e] d' _ [-> H]; cbn [bind_post]; [| auto].
  cbv zeta in H. cbn [BookingRequest.hold_id BookingRequest.payment_token] in H.
  destruct H as (? & ? & ? & ? & ? & Htok & ? & ?).
  split; [reflexivity |]. cbv zeta. rewrite Htok. auto 10.
Qed.

Lemma booking_atomic_shape env data d :
  post (BookingView_post_atomic env data) d (fun r d' _ =>
    events d' = events d /\
    (d' = d /\ (BookingData.booking data <> None \/ exists e, r = Raise e) \/
     exists b,
       BookingData.booking data = None
       /\ Booking.hold b = Hold.id (BookingData.hold data)
       /\ existsb (fun r => N.eqb (Booking.hold r)
                              (Hold.id (BookingData.hold data)))
            (bookings d) = false
       /\ existsb (fun r => N.eqb (Hold.id r)
                              (Hold.id (BookingData.hold data)))
            (holds d) = true
       /\ bookings d' = b :: bookings d
       /\ holds d' =
            with_status env (Hold.id (BookingData.hold data)) BOOKED (holds d)
       /\ r = Return (mkResponse HTTP_201_CREATED
                        (BookingResponseData (Booking.booking_id b))))).
Proof.
  unfold BookingView_post_atomic. wp.
  destruct (BookingData.booking data) as [b0 |] eqn:Hcache;
    [wp; split; auto; left; split; auto; left; discriminate |].
  unfold Booking_objects_create. wp.
  match goal with |- context [if ?c then _ else _] => destruct c eqn:Hok end;
    [| wp; eauto 6].
  apply andb_prop in Hok. destruct Hok as [Hok Hfk].
  apply andb_prop in Hok. destruct Hok as [Hok _].
  apply andb_prop in Hok. destruct Hok as [_ Hone].
  apply negb_true_iff in Hone. cbn [Booking.hold] in Hone.
  wp. wp_call keeps_db_clear_hold_expiry; [| wp_raised; eauto 6].
  subst d0. wp.
  destruct (objects_get _ _ _) as [ev | e]; [| wp_raised; eauto 6].
  wp. wp_call keeps_core_get_or_create; [| wp_raised; eauto 6].
  wp. wp_call keeps_core_update; [| wp_raised; eauto 6].
  wp. wp_call keeps_db_increment_metric; [| wp_raised; eauto 6].
  wp. wp_call keeps_db_increment_metric; [| wp_raised; eauto 6].
  wp. subst.
  destruct E as (E1 & E2 & E3), E0 as (F1 & F2 & F3).
  cbn [events holds bookings set_holds set_bookings] in E1, E2, E3.
  split; [congruence |]. right.
  exists (Booking.mk (uuid4_pk env) (Hold.id (BookingData.hold data))
            ("BK-" ++ uuid4_hex8 env)%string (now env)).
  split; [reflexivity |]. split; [reflexivity |]. split; [exact Hone |].
  split; [exact Hfk |]. split; [congruence |].
  split; [unfold with_status, set_status; congruence | reflexivity].
Qed.

Lemma booking_shape env request d :
  post (BookingView_post env request) d (fun r d' _ =>
    events d' = events d /\
    (d' = d /\ (exists e, r = Raise e) \/
     exists h b,
       In h (holds d) /\ Hold.id h = BookingRequest.hold_id request
       /\ filter (fun r => N.eqb (Hold.id r) (Hold.id h)) (holds d) = [h]
       /\ Hold.status h = ACTIVE /\ now env <= Hold.expires_at h
       /\ payment_token_field (BookingRequest.payment_token request)
          = inl (Hold.payment_token h)
       /\ has_booking d h = false
       /\ Booking.hold b = Hold.id h
       /\ existsb (fun r => N.eqb (Booking.hold r) (Hold.id h)) (bookings d)
          = false
       /\ bookings d' = b :: bookings d
       /\ holds d' = with_status env (Hold.id h) BOOKED (holds d)
       /\ r = Return (mkResponse HTTP_201_CREATED
                        (BookingResponseData (Booking.booking_id b))))).
Proof.
  unfold BookingView_post. wp.
  wp_call booking_is_valid_shape; destruct E as [-> E]; [| eauto].
  cbv zeta in E.
  destruct E as (Hin & Hid & Hf & Hact & Hexp & Htok & Hnb & Hcache).
  eapply post_mono; [apply booking_atomic_shape |].
  cbv beta.
  intros r d' _ [Hev [[-> [Hc | He]]
                     | (b & _ & Hb1 & Hb2 & _ & Hb3 & Hb4 & ->)]];
    split; auto.
  - contradiction.
  - right. exists (BookingData.hold a), b. repeat split; auto.
Qed.

Lemma hold_locked_shape env v d :
  post (HoldView_post_locked env v) d (fun r d' _ =>
    events d' = events d /\ bookings d' = bookings d
    /\ metrics d' = metrics d /\
    (d' = d \/
     exists h,
       holds d' = h :: holds d
       /\ h = Hold.mk (uuid4_pk env) (Event.id (HoldData.event_id v))
                (HoldData.qty v) (now env + HoldData.ttl_minutes v * 60)
                (uuid4_token env) ACTIVE (now env) (now env)
       /\ HoldData.qty v <= Event_available_seats d (HoldData.event_id v)
       /\ 0 < HoldData.qty v
       /\ existsb (fun r => N.eqb (Hold.id r) (uuid4_pk env)) (holds d)
          = false
       /\ existsb (fun e => N.eqb (Event.id e)
                              (Event.id (HoldData.event_id v))) (events d)
          = true)).
Proof.
  unfold HoldView_post_locked, with_RedisLock. wp.
  destruct (lock_acquired env); [| wp; auto 10].
  wp.
  destruct (HoldData.qty v >? Event_available_seats d (HoldData.event_id v))
    eqn:Hav; [wp; auto 10 |].
  unfold HoldCreateSerializer_create, Hold_objects_create. wp.
  match goal with |- context [if ?c then _ else _] => destruct c eqn:Hok end;
    [| wp; auto 10].
  apply andb_prop in Hok. destruct Hok as [Hok Hfk].
  apply andb_prop in Hok. destruct Hok as [Hok Hqty].
  apply andb_prop in Hok. destruct Hok as [Hpk _].
  apply negb_true_iff in Hpk. cbn [Hold.id Hold.qty Hold.event] in *.
  assert (Hshape : forall d1, d1 = set_holds
     (Hold.mk (uuid4_pk env) (Event.id (HoldData.event_id v))
        (HoldData.qty v) (now env + HoldData.ttl_minutes v * 60)
        (uuid4_token env) ACTIVE (now env) (now env) :: holds d) d ->
     events d1 = events d /\ bookings d1 = bookings d
     /\ metrics d1 = metrics d /\
     (d1 = d \/
      exists h,
        holds d1 = h :: holds d
        /\ h = Hold.mk (uuid4_pk env) (Event.id (HoldData.event_id v))
                 (HoldData.qty v) (now env + HoldData.ttl_minutes v * 60)
                 (uuid4_token env) ACTIVE (now env) (now env)
        /\ HoldData.qty v <= Event_available_seats d (HoldData.event_id v)
        /\ 0 < HoldData.qty v
        /\ existsb (fun r => N.eqb (Hold.id r) (uuid4_pk env)) (holds d)
           = false
        /\ existsb (fun e => N.eqb (Event.id e)
                               (Event.id (HoldData.event_id v))) (events d)
           = true)).
  { intros d1 ->. cbn. repeat split. right. eexists. repeat split; auto; lia. }
  wp. wp_call keeps_db_set_hold_expiry; subst; [| wp; auto].
  wp. wp_call keeps_db_apply_async; subst; wp.
  - wp_call keeps_db_increment_metric; subst; [| wp; auto].
    wp. wp_call keeps_db_increment_metric; subst; wp; auto.
  - wp_call keeps_db_increment_metric; subst; [| wp; auto].
    wp. wp_call keeps_db_increment_metric; subst; wp; auto.
Qed.

Lemma hold_is_valid_shape cfg request d :
  post (HoldCreateSerializer_is_valid cfg request) d (fun r d' _ =>
    d' = d /\
    match r with
    | Return v =>
        In (HoldData.event_id v) (events d)
        /\ Event.id (HoldData.event_id v) = HoldRequest.event_id request
        /\ HoldData.qty v = HoldRequest.qty request
        /\ HoldData.qty v <= Event_available_seats d (HoldData.event_id v)
    | Raise e => (exists errors, e = ValidationError errors)
                 \/ e = MultipleObjectsReturned EventModel
    end).
Proof.
  unfold HoldCreateSerializer_is_valid, HoldCreateSerializer_fields,
    HoldCreateSerializer_validate_event_id, HoldCreateSerializer_validate.
  wp.
  destruct (objects_get _ _ _) as [ev | e] eqn:Eget.
  - apply objects_get_Return in Eget. destruct Eget as (Hin & Hid & _).
    apply N.eqb_eq in Hid.
    wp. cbn [app].
    destruct (qty_errors _ ++ ttl_minutes_errors _ _); wp; [| eauto].
    cbn [HoldData.qty HoldData.event_id].
    destruct (_ >? _) eqn:Hav; wp; [eauto |].
    cbn. repeat split; auto. lia.
  - apply objects_get_Raise in Eget.
    destruct Eget as [[-> _] | ->]; wp; eauto.
Qed.

Lemma hold_shape cfg env request d :
  post (HoldView_post cfg env request) d (fun r d' _ =>
    events d' = events d /\ bookings d' = bookings d
    /\ metrics d' = metrics d /\
    (d' = d \/
     exists v h,
       In (HoldData.event_id v) (events d)
       /\ holds d' = h :: holds d
       /\ h = Hold.mk (uuid4_pk env) (Event.id (HoldData.event_id v))
                (HoldData.qty v) (now env + HoldData.ttl_minutes v * 60)
                (uuid4_token env) ACTIVE (now env) (now env)
       /\ HoldData.qty v <= Event_available_seats d (HoldData.event_id v)
       /\ 0 < HoldData.qty v
       /\ existsb (fun r => N.eqb (Hold.id r) (uuid4_pk env)) (holds d)
          = false)).
Proof.
  unfold HoldView_post. wp.
  wp_call hold_is_valid_shape; destruct E as [-> E]; [| auto 10].
  destruct E as (Hin & _).
  eapply post_mono; [apply hold_locked_shape |].
  cbv beta. intros r d' _ (H1 & H2 & H3 & [-> | (h & ? & ? & ? & ? & ? & ?)]);
    repeat split; auto.
  right. exists a, h. auto 10.
Qed.

(** Through the exception handler nothing more happens to the store. *)
Lemma dispatch_db (view : M Response) d :
  db_of (dispatch view d) = db_of (view d).
Proof.
  unfold dispatch, try_except, db_of.
  destruct (view d) as [[[a | e] d1] t1]; [reflexivity |].
  destruct e; reflexivity.
Qed.

Lemma dispatch_result (view : M Response) d :
  result_of (dispatch view d)
  = match result_of (view d) with
    | Return a => Return a
    | Raise e => result_of (custom_exception_handler e (db_of (view d)))
    end.
Proof.
  unfold dispatch, try_except, db_of, result_of.
  destruct (view d) as [[[a | e] d1] t1]; [reflexivity |].
  destruct e; reflexivity.
Qed.

Lemma metrics_view_shape env event_id :
  keeps_core (EventMetricsView_get env event_id).
Proof.
  unfold EventMetricsView_get, get_object_or_404_Event.
  apply keeps_core_bind.
  - apply keeps_db_core, keeps_db_try_except; [auto with store |].
    intros [[] | | | | | | |]; auto with store.
  - intro. repeat (apply keeps_core_bind; [auto with store | intro]).
    auto with store.
Qed.

(* ================================================================== *)
(** * Sums over holds, and rows updated by key *)

Lemma or_Sum (l : list Hold.t) : or_ (Sum Hold.qty l) 0 = total_qty l.
Proof.
  destruct l as [| h l]; [reflexivity |].
  unfold Sum, or_, total_qty.
  destruct (Z.eqb_spec (fold_right (fun r acc => Hold.qty r + acc) 0 (h :: l)) 0);
    congruence.
Qed.

Lemma filter_filter {A} (p q : A -> bool) (l : list A) :
  filter p (filter q l) = filter (fun x => q x && p x) l.
Proof.
  induction l as [| a l IH]; [reflexivity |].
  cbn. destruct (q a); cbn; [destruct (p a) |]; rewrite IH; reflexivity.
Qed.

Lemma has_booking_existsb d h :
  has_booking d h
  = existsb (fun b => N.eqb (Booking.hold b) (Hold.id h)) (bookings d).
Proof.
  unfold has_booking, booking_of.
  induction (bookings d) as [| b l IH]; [reflexivity |].
  cbn. destruct (N.eqb (Booking.hold b) (Hold.id h)); auto.
Qed.

Lemma Event_held_seats_spec d event : Event_held_seats d event = held d event.
Proof.
  unfold Event_held_seats, held, Event_holds.
  rewrite or_Sum, filter_filter. reflexivity.
Qed.

Lemma Event_booked_seats_spec d event :
  Event_booked_seats d event = booked d event.
Proof.
  unfold Event_booked_seats, booked, Event_holds.
  rewrite or_Sum, filter_filter. f_equal.
  apply filter_ext. intro h. rewrite has_booking_existsb. reflexivity.
Qed.

Lemma Event_available_seats_spec d event :
  Event_available_seats d event = available d event.
Proof.
  unfold available. rewrite <- Event_held_seats_spec, <- Event_booked_seats_spec.
  reflexivity.
Qed.

Lemma same_key_same_row {A} (key : A -> uuid) rows (a b : A) :
  NoDup (map key rows) -> In a rows -> In b rows -> key a = key b -> a = b.
Proof.
  induction rows as [| x rows IH]; [contradiction |].
  cbn. intros ND Ha Hb E. inversion ND as [| ? ? Hnot ND']; subst.
  destruct Ha as [-> | Ha], Hb as [-> | Hb]; auto.
  - exfalso. apply Hnot. rewrite E. apply in_map. exact Hb.
  - exfalso. apply Hnot. rewrite <- E. apply in_map. exact Ha.
Qed.

Lemma absent_id hs hid :
  existsb (fun r => N.eqb (Hold.id r) hid) hs = false ->
  ~ In hid (map Hold.id hs).
Proof.
  intros H Hin. apply in_map_iff in Hin. destruct Hin as (r & E & Hr).
  assert (X : existsb (fun r => N.eqb (Hold.id r) hid) hs = true).
  { apply existsb_exists. exists r. split; [exact Hr |]. apply N.eqb_eq, E. }
  congruence.
Qed.

Lemma with_status_ids env hid s hs :
  map Hold.id (with_status env hid s hs) = map Hold.id hs.
Proof.
  unfold with_status. rewrite map_map. apply map_ext.
  intro r. destruct (N.eqb (Hold.id r) hid); reflexivity.
Qed.

Lemma with_status_absent env hid s hs :
  ~ In hid (map Hold.id hs) -> with_status env hid s hs = hs.
Proof.
  induction hs as [| a hs IH]; [reflexivity |].
  cbn. intro H. destruct (N.eqb_spec (Hold.id a) hid) as [E | _].
  - exfalso. auto.
  - f_equal. apply IH. tauto.
Qed.

Lemma In_with_status env hid s hs r' :
  In r' (with_status env hid s hs) <->
  exists r, In r hs
    /\ r' = if N.eqb (Hold.id r) hid then set_status env s r else r.
Proof.
  unfold with_status. rewrite in_map_iff.
  split; intros (r & H1 & H2); exists r; auto.
Qed.

Lemma total_qty_with_status (p : Hold.t -> bool) env s hs h :
  NoDup (map Hold.id hs) -> In h hs ->
  total_qty (filter p (with_status env (Hold.id h) s hs))
  = total_qty (filter p hs)
    - (if p h then Hold.qty h else 0)
    + (if p (set_status env s h) then Hold.qty h else 0).
Proof.
  induction hs as [| a hs IH]; [contradiction |].
  intros ND Hin. inversion ND as [| ? ? Hnot ND']; subst.
  change (with_status env (Hold.id h) s (a :: hs))
    with ((if N.eqb (Hold.id a) (Hold.id h) then set_status env s a else a)
          :: with_status env (Hold.id h) s hs).
  destruct Hin as [-> | Hin].
  - rewrite N.eqb_refl, with_status_absent by exact Hnot.
    cbn [filter]. destruct (p h), (p (set_status env s h));
      cbn [total_qty fold_right set_status Hold.qty]; fold (total_qty (filter p hs)); lia.
  - destruct (N.eqb_spec (Hold.id a) (Hold.id h)) as [E | _].
    + exfalso. apply Hnot. rewrite E. apply in_map. exact Hin.
    + cbn [filter]. destruct (p a); cbn [total_qty fold_right];
        fold (total_qty (filter p (with_status env (Hold.id h) s hs)));
        fold (total_qty (filter p hs)); rewrite IH by assumption; lia.
Qed.

(* ================================================================== *)
(** * The store invariant is kept by every change the engine makes *)

Lemma has_booking_iff_booked d h :
  consistent d -> In h (holds d) ->
  has_booking d h = status_is BOOKED h.
Proof.
  intros C Hin.
  destruct (status_is BOOKED h) eqn:Hs.
  - apply status_is_eq in Hs. apply (booked_booking C); assumption.
  - destruct (has_booking d h) eqn:Hb; [| reflexivity].
    rewrite has_booking_existsb in Hb. apply existsb_exists in Hb.
    destruct Hb as (b & Hb & E). apply N.eqb_eq in E.
    destruct (booking_hold C b Hb) as (h0 & Hin0 & Hid0 & Hst0).
    assert (h0 = h).
    { apply (same_key_same_row Hold.id (holds d)); auto.
      - apply (holds_pk C).
      - congruence. }
    subst h0. apply status_is_eq in Hst0. congruence.
Qed.

Lemma booked_eq_booked_holds d event :
  consistent d -> booked d event = booked_holds d event.
Proof.
  intro C. unfold booked, booked_holds. f_equal.
  apply filter_ext_in. intros h Hin. f_equal.
  rewrite <- has_booking_existsb. apply has_booking_iff_booked; assumption.
Qed.

Lemma keep_consistent d d' :
  events d' = events d -> holds d' = holds d -> bookings d' = bookings d ->
  consistent d -> consistent d'.
Proof.
  intros E1 E2 E3 C. split.
  - rewrite E1. apply (events_pk C).
  - rewrite E2. apply (holds_pk C).
  - rewrite E2. apply (qty_positive C).
  - rewrite E2, E3. apply (booking_hold C).
  - rewrite E2. intros h Hin Hs.
    rewrite has_booking_existsb, E3, <- has_booking_existsb.
    apply (booked_booking C); assumption.
Qed.

Lemma keep_inv d d' :
  events d' = events d -> holds d' = holds d -> bookings d' = bookings d ->
  consistent d -> no_oversell d -> consistent d' /\ no_oversell d'.
Proof.
  intros E1 E2 E3 C N. split; [eapply keep_consistent; eassumption |].
  intros e He. rewrite E1 in He. specialize (N e He).
  unfold held, booked_holds in *. rewrite E2. exact N.
Qed.

Lemma insert_consistent d d' h :
  consistent d ->
  events d' = events d -> bookings d' = bookings d ->
  holds d' = h :: holds d ->
  Hold.status h = ACTIVE -> 0 < Hold.qty h ->
  existsb (fun r => N.eqb (Hold.id r) (Hold.id h)) (holds d) = false ->
  consistent d'.
Proof.
  intros C E1 E3 E2 Hst Hq Hfresh. split.
  - rewrite E1. apply (events_pk C).
  - rewrite E2. cbn. constructor; [apply absent_id, Hfresh | apply (holds_pk C)].
  - rewrite E2. intros x [<- | Hx]; [exact Hq | apply (qty_positive C), Hx].
  - rewrite E2, E3. intros b Hb.
    destruct (booking_hold C b Hb) as (h0 & ? & ? & ?).
    exists h0. cbn. auto.
  - rewrite E2. intros x [<- | Hx] Hs; [congruence |].
    rewrite has_booking_existsb, E3, <- has_booking_existsb.
    apply (booked_booking C); assumption.
Qed.

Lemma insert_inv d d' ev h :
  consistent d -> no_oversell d ->
  events d' = events d -> bookings d' = bookings d ->
  holds d' = h :: holds d ->
  In ev (events d) -> Hold.event h = Event.id ev ->
  Hold.status h = ACTIVE -> 0 < Hold.qty h ->
  Hold.qty h <= Event_available_seats d ev ->
  existsb (fun r => N.eqb (Hold.id r) (Hold.id h)) (holds d) = false ->
  consistent d' /\ no_oversell d'.
Proof.
  intros C N E1 E3 E2 Hev Hfk Hst Hq Hav Hfresh.
  split; [eapply insert_consistent; eassumption |].
  intros e He. rewrite E1 in He. specialize (N e He).
  unfold held, booked_holds in *. rewrite E2. cbn [filter].
  assert (Ha : status_is ACTIVE h = true) by (apply status_is_eq, Hst).
  assert (Hb : status_is BOOKED h = false).
  { unfold status_is. rewrite Hst. reflexivity. }
  rewrite Ha, Hb, andb_false_r, andb_true_r.
  destruct (N.eqb_spec (Hold.event h) (Event.id e)) as [E | _]; [| exact N].
  assert (e = ev).
  { apply (same_key_same_row Event.id (events d)); auto.
    - apply (events_pk C).
    - congruence. }
  subst e. rewrite Event_available_seats_spec in Hav.
  unfold available in Hav. rewrite booked_eq_booked_holds in Hav by exact C.
  unfold held, booked_holds in Hav.
  cbn [total_qty fold_right].
  fold (total_qty (filter (fun h0 => N.eqb (Hold.event h0) (Event.id ev)
                                     && status_is ACTIVE h0) (holds d))).
  lia.
Qed.

(** A Booking row added for a hold whose row is set to BOOKED, whatever
    the status of that row was. *)
Lemma booking_consistent d d' env h b :
  consistent d ->
  events d' = events d ->
  In h (holds d) ->
  holds d' = with_status env (Hold.id h) BOOKED (holds d) ->
  bookings d' = b :: bookings d -> Booking.hold b = Hold.id h ->
  consistent d'.
Proof.
  intros C E1 Hin E2 E3 Hb. split.
  - rewrite E1. apply (events_pk C).
  - rewrite E2, with_status_ids. apply (holds_pk C).
  - rewrite E2. intros x Hx. apply In_with_status in Hx.
    destruct Hx as (r & Hr & ->).
    destruct (N.eqb (Hold.id r) (Hold.id h)); cbn; apply (qty_positive C), Hr.
  - rewrite E2, E3. intros b' [<- | Hb'].
    + exists (set_status env BOOKED h). repeat split; auto.
      apply In_with_status. exists h. rewrite N.eqb_refl. auto.
    + destruct (booking_hold C b' Hb') as (h0 & Hin0 & Hid0 & Hst0).
      exists (if N.eqb (Hold.id h0) (Hold.id h)
              then set_status env BOOKED h0 else h0).
      split; [apply In_with_status; eauto |].
      destruct (N.eqb (Hold.id h0) (Hold.id h)); cbn; auto.
  - rewrite E2. intros x Hx Hs. apply In_with_status in Hx.
    destruct Hx as (r & Hr & ->).
    rewrite has_booking_existsb, E3. cbn [existsb]. apply orb_true_iff.
    destruct (N.eqb_spec (Hold.id r) (Hold.id h)) as [E | _].
    + left. cbn. apply N.eqb_eq. congruence.
    + right. rewrite <- has_booking_existsb.
      apply (booked_booking C); assumption.
Qed.

Lemma booking_inv d d' env h b :
  consistent d -> no_oversell d ->
  events d' = events d ->
  In h (holds d) -> Hold.status h = ACTIVE ->
  holds d' = with_status env (Hold.id h) BOOKED (holds d) ->
  bookings d' = b :: bookings d -> Booking.hold b = Hold.id h ->
  consistent d' /\ no_oversell d'.
Proof.
  intros C N E1 Hin Hst E2 E3 Hb.
  split; [eapply booking_consistent; eassumption |].
  intros e He. rewrite E1 in He. specialize (N e He).
  unfold held, booked_holds in *. rewrite E2.
  rewrite !total_qty_with_status by (auto; apply (holds_pk C)).
  unfold status_is in *. cbn [set_status Hold.status Hold.event Hold.qty].
  rewrite Hst. cbn [Hold.Status.eqb].
  rewrite andb_false_r, andb_true_r.
  destruct (N.eqb (Hold.event h) (Event.id e)); lia.
Qed.

Lemma expire_consistent d d' env h :
  consistent d ->
  events d' = events d -> bookings d' = bookings d ->
  In h (holds d) -> Hold.status h = ACTIVE ->
  holds d' = with_status env (Hold.id h) EXPIRED (holds d) ->
  consistent d'.
Proof.
  intros C E1 E3 Hin Hst E2.
  assert (Hother : forall r, In r (holds d) -> Hold.status r = BOOKED ->
            N.eqb (Hold.id r) (Hold.id h) = false).
  { intros r Hr Hs. apply N.eqb_neq. intro E.
    assert (r = h) by (apply (same_key_same_row Hold.id (holds d)); auto;
                       apply (holds_pk C)).
    congruence. }
  split.
  - rewrite E1. apply (events_pk C).
  - rewrite E2, with_status_ids. apply (holds_pk C).
  - rewrite E2. intros x Hx. apply In_with_status in Hx.
    destruct Hx as (r & Hr & ->).
    destruct (N.eqb (Hold.id r) (Hold.id h)); cbn; apply (qty_positive C), Hr.
  - rewrite E2, E3. intros b Hb.
    destruct (booking_hold C b Hb) as (h0 & Hin0 & Hid0 & Hst0).
    exists h0. repeat split; auto.
    apply In_with_status. exists h0. rewrite Hother by assumption. auto.
  - rewrite E2. intros x Hx Hs. apply In_with_status in Hx.
    destruct Hx as (r & Hr & ->).
    destruct (N.eqb (Hold.id r) (Hold.id h)); [discriminate |].
    rewrite has_booking_existsb, E3, <- has_booking_existsb.
    apply (booked_booking C); assumption.
Qed.

Lemma expire_inv d d' env h :
  consistent d -> no_oversell d ->
  events d' = events d -> bookings d' = bookings d ->
  In h (holds d) -> Hold.status h = ACTIVE ->
  holds d' = with_status env (Hold.id h) EXPIRED (holds d) ->
  consistent d' /\ no_oversell d'.
Proof.
  intros C N E1 E3 Hin Hst E2.
  split; [eapply expire_consistent; eassumption |].
  intros e He. rewrite E1 in He. specialize (N e He).
  unfold held, booked_holds in *. rewrite E2.
  rewrite !total_qty_with_status by (auto; apply (holds_pk C)).
  unfold status_is in *. cbn [set_status Hold.status Hold.event Hold.qty].
  rewrite Hst. cbn [Hold.Status.eqb].
  rewrite andb_false_r, andb_true_r.
  pose proof (qty_positive C h Hin).
  destruct (N.eqb (Hold.event h) (Event.id e)); lia.
Qed.

(** The row a booking transaction works on: the insert of the Booking
    checks that it exists. *)
Lemma stored_row d hold_id :
  existsb (fun r => N.eqb (Hold.id r) hold_id) (holds d) = true ->
  exists h, In h (holds d) /\ Hold.id h = hold_id.
Proof.
  intro H. apply existsb_exists in H. destruct H as (h & Hin & Hid).
  exists h. split; [exact Hin | apply N.eqb_eq, Hid].
Qed.

(** The schema's constraints are kept by every step, the transaction of
    an overlapped booking included. *)
Lemma run_consistent op d : consistent d -> consistent (run op d).
Proof.
  intro C.
  destruct op as [cfg env rq | env v | env rq | env v | env hid | env eid];
    cbn [run]; unfold CreateHold, ConfirmBooking, GetEventMetrics;
    rewrite ?dispatch_db.
  - destruct (hold_shape cfg env rq d)
      as (E1 & E3 & _ & [-> | (v & h & Hev & E2 & -> & Hav & Hq & Hfresh)]);
      [auto |].
    eapply insert_consistent; eauto.
  - destruct (hold_locked_shape env v d)
      as (E1 & E3 & _ & [-> | (h & E2 & -> & Hav & Hq & Hfresh & _)]);
      [auto |].
    eapply insert_consistent; eauto.
  - destruct (booking_shape env rq d)
      as (E1 & [[-> _] | (h & b & Hin & _ & _ & Hst & _ & _ & _ & Hb & _ & E3 & E2 & _)]);
      [auto |].
    eapply booking_consistent; eauto.
  - destruct (booking_atomic_shape env v d)
      as (E1 & [[-> _] | (b & _ & Hb & _ & Hfk & E3 & E2 & _)]); [auto |].
    destruct (stored_row _ _ Hfk) as (h & Hin & Hid).
    rewrite <- Hid in E2, Hb.
    eapply booking_consistent; eauto.
  - destruct (expire_shape env hid d)
      as (_ & E1 & E3 & [-> | (h & Hin & <- & Hst & _ & E2)]); [auto |].
    eapply expire_consistent; eauto.
  - destruct (metrics_view_shape env eid d) as (E1 & E2 & E3).
    eapply keep_consistent; eassumption.
Qed.

(** The seat bound is kept by every step but that one. *)
Lemma run_inv op d :
  admissible d op -> overlapped_booking op = false ->
  consistent d -> no_oversell d ->
  consistent (run op d) /\ no_oversell (run op d).
Proof.
  intros Hadm Hturn C N.
  destruct op as [cfg env rq | env v | env rq | env v | env hid | env eid];
    cbn [run admissible overlapped_booking] in *;
    unfold CreateHold, ConfirmBooking, GetEventMetrics;
    rewrite ?dispatch_db.
  - destruct (hold_shape cfg env rq d)
      as (E1 & E3 & _ & [-> | (v & h & Hev & E2 & -> & Hav & Hq & Hfresh)]);
      [auto |].
    eapply insert_inv; eauto.
  - destruct (hold_locked_shape env v d)
      as (E1 & E3 & _ & [-> | (h & E2 & -> & Hav & Hq & Hfresh & _)]);
      [auto |].
    eapply insert_inv; eauto.
  - destruct (booking_shape env rq d)
      as (E1 & [[-> _] | (h & b & Hin & _ & _ & Hst & _ & _ & _ & Hb & _ & E3 & E2 & _)]);
      [auto |].
    eapply booking_inv; eauto.
  - discriminate Hturn.
  - destruct (expire_shape env hid d)
      as (_ & E1 & E3 & [-> | (h & Hin & <- & Hst & _ & E2)]); [auto |].
    eapply expire_inv; eauto.
  - destruct (metrics_view_shape env eid d) as (E1 & E2 & E3).
    apply (@keep_inv d _ E1 E2 E3); assumption.
Qed.

Lemma initial_inv d : initial d -> consistent d /\ no_oversell d.
Proof.
  intros (Hpk & Hseats & Hh & Hb). split.
  - split; rewrite ?Hh, ?Hb; try (intros ? []); auto. constructor.
  - intros e He. unfold held, booked_holds. rewrite Hh. cbn.
    specialize (Hseats e He). lia.
Qed.

Lemma reachable_consistent d : reachable d -> consistent d.
Proof.
  induction 1 as [d Hi | d op _ C _].
  - apply initial_inv, Hi.
  - apply run_consistent, C.
Qed.

Lemma in_turn_reachable d : reachable_in_turn d -> reachable d.
Proof.
  induction 1 as [d Hi | d op _ R Hadm _].
  - apply reachable_initial, Hi.
  - apply reachable_run; assumption.
Qed.

(** As long as no booking transaction runs on a later store than its
    validation, no event is oversold. *)
Lemma in_turn_inv d : reachable_in_turn d -> consistent d /\ no_oversell d.
Proof.
  induction 1 as [d Hi | d op _ [C N] Hadm Hturn].
  - apply initial_inv, Hi.
  - apply run_inv; assumption.
Qed.

(* ================================================================== *)
(** * Calls that succeed *)

Lemma post_of_eq {A} (m : M A) d r d' t
  (Q : outcome A -> DB -> list effect -> Prop) :
  m d = (r, d', t) -> Q r d' t -> post m d Q.
Proof. unfold post. intros ->. exact (fun H => H). Qed.

Lemma eq_of_post {A} (m : M A) d r d' t :
  post m d (fun r0 d0 t0 => r0 = r /\ d0 = d' /\ t0 = t) -> m d = (r, d', t).
Proof.
  unfold post, result_of, db_of, trace_of.
  destruct (m d) as [[r0 d0] t0]. cbn. intros (-> & -> & ->). reflexivity.
Qed.

Lemma clear_hold_expiry_ok env h d :
  redis_ok env = true ->
  clear_hold_expiry env h d
  = (Return tt, d, [RedisDelete (hold_expiry_key h); Log INFO]).
Proof.
  intro H. unfold clear_hold_expiry, redis_command, bind. rewrite H.
  reflexivity.
Qed.

Lemma set_hold_expiry_ok env h s d :
  redis_ok env = true -> 0 < s ->
  set_hold_expiry env h s d
  = (Return tt, d, [RedisSetex (hold_expiry_key h) s; Log INFO]).
Proof.
  intros H Hs. unfold set_hold_expiry, redis_command, bind. rewrite H.
  replace (0 <? s) with true by (symmetry; lia). reflexivity.
Qed.

Lemma set_hold_expiry_refused env h s d :
  redis_ok env = false \/ s <= 0 ->
  set_hold_expiry env h s d = (Raise RedisError, d, []).
Proof.
  intro H. unfold set_hold_expiry, redis_command, bind.
  destruct (Z.ltb_spec 0 s); [| reflexivity].
  destruct H as [-> | H]; [reflexivity | lia].
Qed.

Lemma increment_metric_ok env n e d :
  redis_ok env = true ->
  increment_metric env n e d
  = (Return tt, d,
     [RedisIncr (metric_key n e); RedisExpire (metric_key n e) 86400]).
Proof.
  intro H. unfold increment_metric, redis_command, bind. rewrite H.
  reflexivity.
Qed.

Lemma get_or_create_ok env event d :
  (List.length
     (filter (fun m => N.eqb (Metrics.event m) (Event.id event)) (metrics d))
   <= 1)%nat ->
  exists m d1,
    Metrics_get_or_create_for_event env event d = (Return m, d1, [])
    /\ same_core d d1 /\ Metrics.event m = Event.id event.
Proof.
  intro Hlen.
  unfold Metrics_get_or_create_for_event, try_except, lift, objects_get.
  destruct (filter _ (metrics d)) as [| x [| y l]] eqn:E.
  - cbn. do 2 eexists. split; [reflexivity |]. split; [| reflexivity].
    repeat split.
  - do 2 eexists. split; [reflexivity |]. split; [apply same_core_refl |].
    assert (H : In x (filter (fun m => N.eqb (Metrics.event m) (Event.id event))
                        (metrics d))) by (rewrite E; left; reflexivity).
    apply filter_In in H. apply N.eqb_eq. tauto.
  - cbn in Hlen. lia.
Qed.

Lemma update_metrics_ok env self d event :
  objects_get EventModel (fun e => N.eqb (Event.id e) (Metrics.event self))
    (events d) = Return event ->
  exists m d1,
    Metrics_update_metrics env self d = (Return m, d1, [])
    /\ same_core d d1
    /\ MetricsSerializer event m = fresh_metrics env d event.
Proof.
  intro Hget.
  unfold Metrics_update_metrics, related_event, bind, lift, query, update, ret.
  rewrite Hget. cbn [app].
  do 2 eexists. split; [reflexivity |]. split; [repeat split |].
  unfold MetricsSerializer, fresh_metrics, held, booked, Event_holds.
  cbn [Metrics.total_holds Metrics.total_bookings Metrics.total_expiries
       Metrics.total_held_seats Metrics.total_booked_seats
       Metrics.total_expired_seats Metrics.updated_at].
  rewrite !or_Sum, !filter_filter. unfold count.
  assert (Hb : forall l,
    filter (fun h => N.eqb (Hold.event h) (Event.id event) && has_booking d h) l
    = filter (fun h => N.eqb (Hold.event h) (Event.id event)
                && existsb (fun b => N.eqb (Booking.hold b) (Hold.id h))
                     (bookings d)) l).
  { intro l. apply filter_ext. intro h. rewrite has_booking_existsb.
    reflexivity. }
  rewrite !Hb. reflexivity.
Qed.

Lemma fresh_metrics_core env d d' event :
  same_core d d' -> fresh_metrics env d' event = fresh_metrics env d event.
Proof.
  intros (_ & E2 & E3). unfold fresh_metrics, held, booked.
  rewrite E2, E3. reflexivity.
Qed.

Lemma objects_get_ext {A} m (p q : A -> bool) rows :
  (forall x, p x = q x) -> objects_get m p rows = objects_get m q rows.
Proof.
  intro H. unfold objects_get. rewrite (filter_ext p q H). reflexivity.
Qed.

(** The expiry task on a due ACTIVE hold, with Redis answering and the
    hold's event and metrics row in place. *)
Lemma expire_due env hold_id d h event :
  objects_get HoldModel
    (fun r => N.eqb (Hold.id r) hold_id && status_is ACTIVE r) (holds d)
  = Return h ->
  Hold.expires_at h < now env ->
  redis_ok env = true ->
  objects_get EventModel (fun e => N.eqb (Event.id e) (Hold.event h))
    (events d) = Return event ->
  (List.length
     (filter (fun m => N.eqb (Metrics.event m) (Event.id event)) (metrics d))
   <= 1)%nat ->
  holds (db_of (expire_specific_hold env hold_id d))
  = with_status env hold_id EXPIRED (holds d).
Proof.
  intros Hget Hdue Hredis Hev Hlen.
  pose proof (objects_get_Return _ _ _ Hget) as (_ & Hp & _).
  apply andb_prop in Hp. destruct Hp as [Hid _]. apply N.eqb_eq in Hid.
  pose proof (objects_get_Return _ _ _ Hev) as (_ & Heid & _).
  apply N.eqb_eq in Heid.
  change (post (expire_specific_hold env hold_id) d (fun _ d' _ =>
            holds d' = with_status env hold_id EXPIRED (holds d))).
  unfold expire_specific_hold. wp. rewrite Hget. wp.
  unfold Hold_is_expired.
  replace (now env >? Hold.expires_at h) with true by (symmetry; lia).
  wp. eapply post_of_eq; [apply clear_hold_expiry_ok, Hredis |]. wp.
  cbn [events set_holds]. rewrite Hev. wp.
  match goal with
  | |- post (Metrics_get_or_create_for_event _ _) ?d1 _ =>
      destruct (get_or_create_ok env event d1 Hlen)
        as (m & d2 & E1 & C1 & Hm)
  end.
  eapply post_of_eq; [exact E1 |]. wp.
  destruct (@update_metrics_ok env m d2 event) as (m' & d3 & E2 & C2 & _).
  { destruct C1 as (-> & _). cbn [events set_holds]. rewrite <- Hev.
    apply objects_get_ext. intro x. rewrite Hm, Heid. reflexivity. }
  eapply post_of_eq; [exact E2 |]. wp.
  eapply post_of_eq; [apply increment_metric_ok, Hredis |]. wp.
  eapply post_of_eq; [apply increment_metric_ok, Hredis |]. wp.
  destruct C1 as (_ & C1 & _), C2 as (_ & C2 & _).
  rewrite C2, C1. cbn [holds set_holds]. rewrite Hid. reflexivity.
Qed.

(* ================================================================== *)
(** * One metrics row per event *)

Lemma keeps_bind {A B} P (m : M A) (k : A -> M B) :
  keeps P m -> (forall a, keeps P (k a)) -> keeps P (bind m k).
Proof.
  intros Hm Hk d HP. eapply post_bind_with; [apply Hm, HP |].
  intros [a | e] d1 t1 H1; cbn; auto. apply Hk, H1.
Qed.

Lemma keeps_try_except {A} P (body : M A) handler :
  keeps P body -> (forall e, keeps P (handler e)) ->
  keeps P (try_except body handler).
Proof.
  intros Hb Hh d HP. apply post_try_except.
  eapply post_mono; [apply Hb, HP |].
  intros [a | e] d1 t1 H1; cbn; auto. apply Hh, H1.
Qed.

Lemma keeps_atomic {A} P (body : M A) : keeps P body -> keeps P (atomic body).
Proof.
  intros Hb d HP. apply post_atomic.
  eapply post_mono; [apply Hb, HP |].
  intros [a | e] d1 t1 H1; cbn; auto.
Qed.

Lemma keeps_finally {A} P (body : M A) cleanup :
  keeps P body -> keeps P cleanup -> keeps P (finally body cleanup).
Proof.
  intros Hb Hc d HP. apply post_finally.
  eapply post_mono; [apply Hb, HP |].
  cbv beta. intros r d1 t1 H1. apply Hc, H1.
Qed.

Lemma keeps_db_keeps {A} P (m : M A) : keeps_db m -> keeps P m.
Proof.
  intros H d HP. eapply post_mono; [apply H |].
  cbv beta. intros; subst; assumption.
Qed.

Lemma keeps_db_of {A} (P : DB -> Prop) (m : M A) d :
  keeps P m -> P d -> P (db_of (m d)).
Proof. intros H HP. exact (H d HP). Qed.

Lemma keeps_update P f :
  (forall d, P d -> P (f d)) -> keeps P (update f).
Proof. intros H d HP. apply post_update. auto. Qed.

Lemma length_filter_map {A} (p : A -> bool) (f : A -> A) l :
  (forall x, p (f x) = p x) ->
  List.length (filter p (map f l)) = List.length (filter p l).
Proof.
  intro H. induction l as [| a l IH]; [reflexivity |].
  cbn. rewrite H. destruct (p a); cbn; rewrite IH; reflexivity.
Qed.

Lemma metrics_unique_get_or_create env event :
  keeps metrics_unique (Metrics_get_or_create_for_event env event).
Proof.
  intros d HP. unfold Metrics_get_or_create_for_event. wp.
  destruct (objects_get _ _ _) as [m | e] eqn:Eget; [wp; exact HP |].
  apply objects_get_Raise in Eget.
  destruct Eget as [[-> Hnone] | ->]; wp; [| exact HP].
  intro event_id. cbn [metrics set_metrics filter Metrics.event].
  destruct (N.eqb_spec (Event.id event) event_id) as [<- | _].
  - rewrite Hnone. cbn. lia.
  - apply HP.
Qed.

Lemma metrics_unique_update env self :
  keeps metrics_unique (Metrics_update_metrics env self).
Proof.
  intros d HP. unfold Metrics_update_metrics. wp.
  destruct (objects_get _ _ _) as [ev | e]; wp; [| exact HP].
  intro event_id. cbn [metrics set_metrics].
  rewrite length_filter_map; [apply HP |].
  intro x. destruct (Metrics.id x =? Metrics.id self); reflexivity.
Qed.

Ltac keeps_step :=
  lazymatch goal with
  | |- keeps _ (bind _ _) => apply keeps_bind; [| intro]
  | |- keeps _ (try_except _ _) => apply keeps_try_except; [| intro]
  | |- keeps _ (atomic _) => apply keeps_atomic
  | |- keeps _ (finally _ _) => apply keeps_finally
  | |- keeps _ (Metrics_get_or_create_for_event _ _) =>
      apply metrics_unique_get_or_create
  | |- keeps _ (Metrics_update_metrics _ _) => apply metrics_unique_update
  | |- keeps _ (save_status _ _ _) =>
      apply keeps_update; intros ? H; exact H
  | |- keeps _ (update _) => apply keeps_update; intros ? H; exact H
  | |- keeps _ (if ?b then _ else _) => destruct b
  | |- keeps _ (match ?x with _ => _ end) => destruct x
  | |- keeps _ _ => apply keeps_db_keeps; solve [auto with store]
  end.

Lemma run_metrics_unique op d :
  metrics_unique d -> metrics_unique (run op d).
Proof.
  intro HP.
  destruct op as [cfg env rq | env v | env rq | env v | env hid | env eid];
    cbn [run]; unfold CreateHold, ConfirmBooking, GetEventMetrics;
    rewrite ?dispatch_db.
  - apply keeps_db_of; [| exact HP].
    unfold HoldView_post, HoldCreateSerializer_is_valid,
      HoldCreateSerializer_fields, HoldCreateSerializer_validate_event_id,
      HoldCreateSerializer_validate, HoldView_post_locked, with_RedisLock,
      HoldCreateSerializer_create, Hold_objects_create.
    repeat keeps_step.
  - apply keeps_db_of; [| exact HP].
    unfold HoldView_post_locked, with_RedisLock,
      HoldCreateSerializer_create, Hold_objects_create.
    repeat keeps_step.
  - apply keeps_db_of; [| exact HP].
    unfold BookingView_post, BookingCreateSerializer_is_valid,
      BookingCreateSerializer_fields, BookingCreateSerializer_validate,
      BookingView_post_atomic, Booking_objects_create.
    repeat keeps_step.
  - apply keeps_db_of; [| exact HP].
    unfold BookingView_post_atomic, Booking_objects_create.
    repeat keeps_step.
  - apply keeps_db_of; [| exact HP].
    unfold expire_specific_hold.
    repeat keeps_step.
  - apply keeps_db_of; [| exact HP].
    unfold EventMetricsView_get, get_object_or_404_Event.
    repeat keeps_step.
Qed.

(** Every store the engine reaches from one without metrics rows has at
    most one metrics row per event. *)
Lemma reachable_metrics_unique d0 ops :
  metrics d0 = [] ->
  metrics_unique (fold_left (fun d op => run op d) ops d0).
Proof.
  intro H0.
  assert (H : metrics_unique d0).
  { intro e. rewrite H0. cbn. lia. }
  clear H0. revert d0 H.
  induction ops as [| op ops IH]; intros d0 H; [exact H |].
  cbn. apply IH, run_metrics_unique, H.
Qed.

(* ================================================================== *)
(** * Inventory accounting *)

(** C5: for every event, the availability the code computes is
    [max(0, total_seats - held - booked)], where [held] is the sum of
    [qty] over the event's ACTIVE holds and [booked] the sum of [qty] over
    its holds for which a Booking row exists; the two properties
    [held_seats] and [booked_seats] are these sums. *)
Theorem C5_available_seats d event :
  Event_available_seats d event
  = Z.max 0 (Event.total_seats event - held d event - booked d event)
  /\ Event_held_seats d event = held d event
  /\ Event_booked_seats d event = booked d event.
Proof.
  split; [| split].
  - apply Event_available_seats_spec.
  - apply Event_held_seats_spec.
  - apply Event_booked_seats_spec.
Qed.

(* ================================================================== *)
(** * Status transitions *)

(** How one step changes the rows of [holds]. *)
Lemma run_holds op d :
  holds (run op d) = holds d
  \/ (exists h, holds (run op d) = h :: holds d
        /\ existsb (fun r => N.eqb (Hold.id r) (Hold.id h)) (holds d) = false)
  \/ (exists env h, In h (holds d) /\ Hold.status h = ACTIVE
        /\ holds (run op d) = with_status env (Hold.id h) EXPIRED (holds d)
        /\ exists e hold_id, op = expire_op e hold_id)
  \/ (exists env h, In h (holds d) /\ Hold.status h = ACTIVE
        /\ holds (run op d) = with_status env (Hold.id h) BOOKED (holds d)
        /\ exists e request, op = ConfirmBooking_op e request)
  \/ (exists env h, In h (holds d)
        /\ holds (run op d) = with_status env (Hold.id h) BOOKED (holds d)
        /\ overlapped_booking op = true).
Proof.
  destruct op as [cfg env rq | env v | env rq | env v | env hid | env eid];
    cbn [run]; unfold CreateHold, ConfirmBooking, GetEventMetrics;
    rewrite ?dispatch_db.
  - destruct (hold_shape cfg env rq d)
      as (_ & _ & _ & [-> | (v & h & _ & E2 & -> & _ & _ & Hfresh)]); auto.
    right. left. eexists. split; [exact E2 | exact Hfresh].
  - destruct (hold_locked_shape env v d)
      as (_ & _ & _ & [-> | (h & E2 & -> & _ & _ & Hfresh & _)]); auto.
    right. left. eexists. split; [exact E2 | exact Hfresh].
  - destruct (booking_shape env rq d)
      as (_ & [[-> _] | (h & b & Hin & _ & _ & Hst & _ & _ & _ & _ & _ & _ & E2 & _)]);
      auto.
    do 3 right. left. exists env, h. eauto 10.
  - destruct (booking_atomic_shape env v d)
      as (_ & [[-> _] | (b & _ & _ & _ & Hfk & _ & E2 & _)]); auto.
    destruct (stored_row _ _ Hfk) as (h & Hin & Hid).
    do 4 right. exists env, h. rewrite Hid. auto.
  - destruct (expire_shape env hid d)
      as (_ & _ & _ & [-> | (h & Hin & <- & Hst & _ & E2)]); auto.
    right. right. left. exists env, h. eauto 10.
  - destruct (metrics_view_shape env eid d) as (_ & E2 & _). auto.
Qed.

Lemma Hold_expire_guard env h d :
  Hold.status h <> ACTIVE -> db_of (Hold_expire env h d) = d.
Proof.
  intro H. unfold Hold_expire.
  destruct (status_is ACTIVE h) eqn:E; [| reflexivity].
  apply status_is_eq in E. contradiction.
Qed.

(** What the code does keep of the monotonic status: every step other
    than the transaction of an overlapped booking leaves an EXPIRED or
    BOOKED row as it is, and changes the status of a row only from
    ACTIVE, to EXPIRED in the expiry task and to BOOKED in a booking
    confirmation. *)
Lemma status_monotonic_in_turn op d h :
  overlapped_booking op = false ->
  NoDup (map Hold.id (holds d)) -> In h (holds d) ->
  (Hold.status h <> ACTIVE -> In h (holds (run op d)))
  /\ (forall h', In h' (holds (run op d)) -> Hold.id h' = Hold.id h ->
        Hold.status h' <> Hold.status h ->
        Hold.status h = ACTIVE
        /\ (Hold.status h' = EXPIRED
              /\ (exists env hold_id, op = expire_op env hold_id)
            \/ Hold.status h' = BOOKED
              /\ (exists env request, op = ConfirmBooking_op env request))).
Proof.
  intros Hturn ND Hin.
  assert (Hsame : forall s env h0, In h0 (holds d) -> Hold.status h0 = ACTIVE ->
            forall h', In h' (with_status env (Hold.id h0) s (holds d)) ->
            Hold.id h' = Hold.id h -> Hold.status h' <> Hold.status h ->
            Hold.status h = ACTIVE /\ Hold.status h' = s).
  { intros s env h0 Hin0 Hst0 h' Hin' Hid Hne.
    apply In_with_status in Hin'. destruct Hin' as (r & Hr & ->).
    destruct (N.eqb_spec (Hold.id r) (Hold.id h0)) as [E | _].
    - assert (r = h0) by (apply (same_key_same_row Hold.id (holds d)); auto).
      subst r. cbn in Hid.
      assert (h0 = h) by (apply (same_key_same_row Hold.id (holds d)); auto).
      subst h0. auto.
    - assert (r = h) by (apply (same_key_same_row Hold.id (holds d)); auto).
      subst r. contradiction. }
  assert (Hstay : forall s env h0, In h0 (holds d) -> Hold.status h0 = ACTIVE ->
            Hold.status h <> ACTIVE ->
            In h (with_status env (Hold.id h0) s (holds d))).
  { intros s env h0 Hin0 Hst0 Hne. apply In_with_status. exists h.
    split; [exact Hin |].
    destruct (N.eqb_spec (Hold.id h) (Hold.id h0)) as [E | _]; [| reflexivity].
    assert (h = h0) by (apply (same_key_same_row Hold.id (holds d)); auto).
    congruence. }
  split.
  - intro Hne.
    destruct (run_holds op d)
      as [E | [(h0 & E & _) | [(env & h0 & Hin0 & Hst0 & E & _)
                              | [(env & h0 & Hin0 & Hst0 & E & _)
                                | (_ & _ & _ & _ & Hover)]]]];
      [rewrite E; cbn; auto .. | congruence].
  - intros h' Hin' Hid Hne.
    destruct (run_holds op d)
      as [E | [(h0 & E & Hfresh) | [(env & h0 & Hin0 & Hst0 & E & Hop)
                                   | [(env & h0 & Hin0 & Hst0 & E & Hop)
                                     | (_ & _ & _ & _ & Hover)]]]];
      [rewrite E in Hin' .. | congruence].
    + assert (h' = h) by (apply (same_key_same_row Hold.id (holds d)); auto).
      subst h'. contradiction.
    + destruct Hin' as [<- | Hin'].
      * exfalso. apply (absent_id _ _ Hfresh). rewrite Hid.
        apply in_map. exact Hin.
      * assert (h' = h) by (apply (same_key_same_row Hold.id (holds d)); auto).
        subst h'. contradiction.
    + destruct (Hsame _ _ _ Hin0 Hst0 _ Hin' Hid Hne). auto.
    + destruct (Hsame _ _ _ Hin0 Hst0 _ Hin' Hid Hne). auto.
Qed.

(** C2 at a concrete input: the status of a hold does not stay terminal.
    A booking request validates the ACTIVE hold at its deadline; the
    expiry task then sets the stored row to EXPIRED; the transaction of
    the request, which neither locks nor reads the row again, then sets
    the EXPIRED row to BOOKED. *)
Theorem C2_expired_hold_is_booked :
  BookingCreateSerializer_is_valid (Sample.env 160 21%N "" "0A1B2C3D")
    Sample.book7 Sample.db_held
  = (Return Sample.validated7, Sample.db_held, [])
  /\ stored_status Sample.db_held 11%N = Some ACTIVE
  /\ stored_status Sample.db_expired 11%N = Some EXPIRED
  /\ admissible Sample.db_expired Sample.book7_late
  /\ stored_status (run Sample.book7_late Sample.db_expired) 11%N
     = Some BOOKED.
Proof.
  split; [vm_compute; reflexivity |].
  split; [vm_compute; reflexivity |].
  split; [vm_compute; reflexivity |].
  split; [| vm_compute; reflexivity].
  split; [reflexivity |]. split; [reflexivity |].
  eexists. split; [left; reflexivity |]. vm_compute. repeat split.
Qed.

(* ================================================================== *)
(** * No oversell *)

Lemma sample_db_held_in_turn : reachable_in_turn Sample.db_held.
Proof.
  unfold Sample.db_held.
  apply in_turn_run; [| exact I | reflexivity].
  apply in_turn_initial. repeat split.
  - cbn. repeat constructor. intros [].
  - intros event [<- | []]. cbn. lia.
Qed.

Lemma sample_db_full_in_turn : reachable_in_turn Sample.db_full.
Proof.
  unfold Sample.db_full, Sample.db_booked.
  do 2 (apply in_turn_run; [| exact I | reflexivity]).
  apply sample_db_held_in_turn.
Qed.

Lemma sample_db_regranted_in_turn : reachable_in_turn Sample.db_regranted.
Proof.
  unfold Sample.db_regranted, Sample.db_expired.
  do 2 (apply in_turn_run; [| exact I | reflexivity]).
  apply sample_db_held_in_turn.
Qed.

Lemma sample_db_oversold_reachable : reachable Sample.db_oversold.
Proof.
  unfold Sample.db_oversold.
  apply reachable_run; [apply in_turn_reachable, sample_db_regranted_in_turn |].
  split; [reflexivity |]. split; [reflexivity |].
  eexists. split; [right; left; reflexivity |]. vm_compute. repeat split.
Qed.

(** What the code does keep of the seat bound: in every store reached
    from a store with events and no holds while no booking transaction
    runs on a later store than its validation, every event has
    [sum(qty of ACTIVE holds) + sum(qty of BOOKED holds) <= total_seats];
    overlapping CreateHold requests are among these steps. *)
Lemma no_oversell_in_turn d event :
  reachable_in_turn d -> In event (events d) ->
  held d event + booked_holds d event <= Event.total_seats event.
Proof.
  intros R Hin. destruct (in_turn_inv R) as [_ N]. apply N, Hin.
Qed.

(** C3 at a concrete input: a committed state with more seats held and
    booked than the event has.  Seven of the ten seats are held; a
    booking request validates the hold at its deadline; the expiry task
    frees the seven seats; a hold of ten is granted on the free seats;
    the transaction of the booking request then books the seven.  The
    store holds ten ACTIVE and seven BOOKED seats of ten. *)
Theorem C3_oversold_store_is_reached :
  BookingCreateSerializer_is_valid (Sample.env 160 21%N "" "0A1B2C3D")
    Sample.book7 Sample.db_held
  = (Return Sample.validated7, Sample.db_held, [])
  /\ reachable Sample.db_oversold
  /\ held Sample.db_regranted Sample.concert
     + booked_holds Sample.db_regranted Sample.concert = 10
  /\ held Sample.db_oversold Sample.concert
     + booked_holds Sample.db_oversold Sample.concert = 17
  /\ Event.total_seats Sample.concert = 10
  /\ ~ no_oversell Sample.db_oversold.
Proof.
  split; [vm_compute; reflexivity |].
  split; [apply sample_db_oversold_reachable |].
  split; [vm_compute; reflexivity |].
  split; [vm_compute; reflexivity |].
  split; [reflexivity |].
  intro N. specialize (N Sample.concert (or_introl eq_refl)).
  vm_compute in N. apply N. reflexivity.
Qed.

(* ================================================================== *)
(** * Metrics *)

(** C10: for every event that exists (with at most one metrics row, as
    [get_or_create] leaves it), GetEventMetrics answers 200 with the
    counters recomputed from the hold and booking rows of the store it is
    run on (hold count, booking count, expiry count, and summed [qty] per
    category), whatever the stored metrics row held before; holds,
    bookings and events are not touched. *)
Theorem C10_metrics_recomputed env event_id d event :
  objects_get EventModel (fun e => N.eqb (Event.id e) event_id) (events d)
  = Return event ->
  (List.length
     (filter (fun m => N.eqb (Metrics.event m) (Event.id event)) (metrics d))
   <= 1)%nat ->
  result_of (GetEventMetrics env event_id d)
  = Return (mkResponse HTTP_200_OK
              (MetricsResponseData (fresh_metrics env d event)))
  /\ same_core d (db_of (GetEventMetrics env event_id d)).
Proof.
  intros Hget Hlen.
  assert (P : post (EventMetricsView_get env event_id) d (fun r d' _ =>
            r = Return (mkResponse HTTP_200_OK
                          (MetricsResponseData (fresh_metrics env d event)))
            /\ same_core d d')).
  { unfold EventMetricsView_get, get_object_or_404_Event. wp.
    rewrite Hget. wp.
    destruct (get_or_create_ok env event d Hlen) as (m & d1 & E1 & C1 & Hm).
    eapply post_of_eq; [exact E1 |]. wp.
    destruct (@update_metrics_ok env m d1 event) as (m' & d2 & E2 & C2 & Hs).
    { destruct C1 as (-> & _). rewrite <- Hget.
      apply objects_get_ext. intro x. rewrite Hm.
      apply objects_get_Return in Hget. destruct Hget as (_ & Hid & _).
      apply N.eqb_eq in Hid. rewrite Hid. reflexivity. }
    eapply post_of_eq; [exact E2 |]. wp.
    rewrite Hs, (fresh_metrics_core env _ C1).
    split; [reflexivity | eapply same_core_trans; eauto]. }
  unfold GetEventMetrics. rewrite dispatch_db, dispatch_result.
  destruct P as [-> P]. auto.
Qed.

(** At a concrete store: the ten-seat event after a booking of seven and
    a hold of three. *)
Lemma C10_metrics_recomputed_witness :
  result_of (GetEventMetrics (Sample.env 150 0%N "" "") 1%N Sample.db_full)
  = Return (mkResponse HTTP_200_OK
              (MetricsResponseData
                 (fresh_metrics (Sample.env 150 0%N "" "") Sample.db_full
                    Sample.concert)))
  /\ same_core Sample.db_full
       (db_of (GetEventMetrics (Sample.env 150 0%N "" "") 1%N Sample.db_full)).
Proof.
  apply (@C10_metrics_recomputed (Sample.env 150 0%N "" "") 1%N
           Sample.db_full Sample.concert).
  - reflexivity.
  - vm_compute. apply le_n.
Defined.

(* ================================================================== *)
(** * Expiry processing *)

Lemma expire_not_active env hold_id d :
  (forall h, In h (holds d) -> Hold.id h = hold_id ->
             Hold.status h <> ACTIVE) ->
  db_of (expire_specific_hold env hold_id d) = d.
Proof.
  intro H.
  destruct (expire_shape env hold_id d)
    as (_ & _ & _ & [E | (h & Hin & Hid & Hst & _)]); [exact E |].
  exfalso. exact (H h Hin Hid Hst).
Qed.

Lemma expired_not_active env hold_id hs h :
  In h (with_status env hold_id EXPIRED hs) -> Hold.id h = hold_id ->
  Hold.status h <> ACTIVE.
Proof.
  intros Hin Hid. apply In_with_status in Hin. destruct Hin as (r & _ & ->).
  destruct (N.eqb_spec (Hold.id r) hold_id); [discriminate | contradiction].
Qed.

(** C8: the expiry task never raises.  On a hold that is EXPIRED, BOOKED
    or absent it leaves the store as it is; so it does when the ACTIVE
    hold's [expires_at] is still in the future.  Of two deliveries for the
    same hold at most one changes the store; and when the first finds the
    ACTIVE hold due (with Redis answering and the hold's event and metrics
    row in place) it sets exactly that hold's row to EXPIRED and the
    second, whenever it runs, changes nothing and raises nothing. *)
Theorem C8_expiry_idempotent env hold_id d :
  result_of (expire_specific_hold env hold_id d) = Return tt
  /\ ((forall h, In h (holds d) -> Hold.id h = hold_id ->
                Hold.status h <> ACTIVE) ->
      db_of (expire_specific_hold env hold_id d) = d)
  /\ ((forall h, In h (holds d) -> Hold.id h = hold_id ->
                now env < Hold.expires_at h) ->
      db_of (expire_specific_hold env hold_id d) = d)
  /\ (forall env2,
        db_of (expire_specific_hold env hold_id d) = d
        \/ db_of (expire_specific_hold env2 hold_id
                    (db_of (expire_specific_hold env hold_id d)))
           = db_of (expire_specific_hold env hold_id d))
  /\ (forall h event env2,
        objects_get HoldModel
          (fun r => N.eqb (Hold.id r) hold_id && status_is ACTIVE r) (holds d)
        = Return h ->
        Hold.expires_at h < now env ->
        redis_ok env = true ->
        objects_get EventModel (fun e => N.eqb (Event.id e) (Hold.event h))
          (events d) = Return event ->
        (List.length
           (filter (fun m => N.eqb (Metrics.event m) (Event.id event))
              (metrics d)) <= 1)%nat ->
        let d1 := db_of (expire_specific_hold env hold_id d) in
        holds d1 = with_status env hold_id EXPIRED (holds d)
        /\ In (set_status env EXPIRED h) (holds d1)
        /\ expire_specific_hold env2 hold_id d1
           = (Return tt, d1, [Log INFO; Log WARNING; Log INFO])).
Proof.
  assert (Hsecond : forall env2,
    holds (db_of (expire_specific_hold env hold_id d))
    = with_status env hold_id EXPIRED (holds d) ->
    expire_specific_hold env2 hold_id
      (db_of (expire_specific_hold env hold_id d))
    = (Return tt, db_of (expire_specific_hold env hold_id d),
       [Log INFO; Log WARNING; Log INFO])).
  { intros env2 E. apply eq_of_post. unfold expire_specific_hold at 1. wp.
    unfold objects_get. rewrite E.
    replace (filter _ (with_status env hold_id EXPIRED (holds d)))
      with (@nil Hold.t); [wp; auto |].
    symmetry. destruct (filter _ _) as [| x l] eqn:F; [reflexivity |].
    assert (Hx : In x (filter (fun h => N.eqb (Hold.id h) hold_id
                                 && status_is ACTIVE h)
                    (with_status env hold_id EXPIRED (holds d))))
      by (rewrite F; left; reflexivity).
    apply filter_In in Hx. destruct Hx as [Hx Hp].
    apply andb_prop in Hp. destruct Hp as [Hid Hst].
    apply N.eqb_eq in Hid. apply status_is_eq in Hst.
    exfalso. eapply expired_not_active; eauto. }
  split; [| split; [| split; [| split]]].
  - destruct (expire_shape env hold_id d) as (E & _). exact E.
  - apply expire_not_active.
  - intro H.
    destruct (expire_shape env hold_id d)
      as (_ & _ & _ & [E | (h & Hin & Hid & _ & Hexp & _)]); [exact E |].
    specialize (H h Hin Hid). unfold Hold_is_expired in Hexp. lia.
  - intro env2.
    destruct (expire_shape env hold_id d)
      as (_ & _ & _ & [E | (h & _ & _ & _ & _ & E)]); [left; exact E |].
    right. rewrite (Hsecond env2 E). reflexivity.
  - intros h event env2 Hget Hdue Hredis Hev Hlen d1.
    pose proof (expire_due env hold_id d Hget Hdue Hredis Hev Hlen) as E.
    split; [exact E | split; [| apply Hsecond, E]].
    subst d1. rewrite E. apply In_with_status. exists h.
    apply objects_get_Return in Hget. destruct Hget as (Hin & Hp & _).
    apply andb_prop in Hp. destruct Hp as [Hid _]. rewrite Hid. auto.
Qed.

(** At concrete stores: a BOOKED hold; an ACTIVE hold before its
    deadline; an ACTIVE hold past its deadline, delivered twice. *)
Lemma C8_expiry_idempotent_witness :
  db_of (expire_specific_hold (Sample.env 1000 0%N "" "") 11%N
           Sample.db_booked) = Sample.db_booked
  /\ db_of (expire_specific_hold (Sample.env 120 0%N "" "") 11%N
              Sample.db_held) = Sample.db_held
  /\ (let d1 := db_of (expire_specific_hold (Sample.env 161 0%N "" "") 11%N
                         Sample.db_held) in
      holds d1
      = with_status (Sample.env 161 0%N "" "") 11%N EXPIRED
          (holds Sample.db_held)
      /\ In (set_status (Sample.env 161 0%N "" "") EXPIRED
               (Hold.mk 11%N 1%N 7 160 "token-a" ACTIVE 100 100))
            (holds d1)
      /\ expire_specific_hold (Sample.env 170 0%N "" "") 11%N d1
         = (Return tt, d1, [Log INFO; Log WARNING; Log INFO])).
Proof.
  split; [| split].
  - apply (proj1 (proj2 (C8_expiry_idempotent (Sample.env 1000 0%N "" "")
                           11%N Sample.db_booked))).
    vm_compute. intros h [<- | []] _ H. discriminate H.
  - apply (proj1 (proj2 (proj2 (C8_expiry_idempotent
                                  (Sample.env 120 0%N "" "") 11%N
                                  Sample.db_held)))).
    vm_compute. intros h [<- | []] _. reflexivity.
  - apply (proj2 (proj2 (proj2 (proj2 (C8_expiry_idempotent
                                         (Sample.env 161 0%N "" "") 11%N
                                         Sample.db_held))))
             (Hold.mk 11%N 1%N 7 160 "token-a" ACTIVE 100 100)
             Sample.concert (Sample.env 170 0%N "" "")).
    + reflexivity.
    + reflexivity.
    + reflexivity.
    + reflexivity.
    + vm_compute. apply le_0_n.
Defined.

(* ================================================================== *)
(** * Hold creation *)

Lemma event_exists d event_id event :
  objects_get EventModel (fun e => N.eqb (Event.id e) event_id) (events d)
  = Return event ->
  Event.id event = event_id
  /\ existsb (fun e => N.eqb (Event.id e) event_id) (events d) = true.
Proof.
  intro H. apply objects_get_Return in H. destruct H as (Hin & Hid & _).
  split; [apply N.eqb_eq, Hid |].
  apply existsb_exists. eauto.
Qed.

(** C9: a CreateHold request for an existing event, with [qty >= 1], a
    ttl within bounds (the configured default, when the request gives
    none, being at least one minute) and [qty] within the availability,
    that gets the lock, reaches Redis and draws a fresh key and token,
    creates the ACTIVE hold and answers 201 also when scheduling the
    expiry task fails: the failure shows only as an error line in the log,
    and no task is scheduled. *)
Theorem C9_schedule_failure cfg env request d event :
  objects_get EventModel
    (fun e => N.eqb (Event.id e) (HoldRequest.event_id request)) (events d)
  = Return event ->
  1 <= HoldRequest.qty request ->
  match HoldRequest.ttl_minutes request with
  | Some t => 1 <= t <= MAX_HOLD_TTL_MINUTES cfg
  | None => 1 <= HOLD_EXPIRY_MINUTES cfg
  end ->
  HoldRequest.qty request <= available d event ->
  lock_acquired env = true ->
  redis_ok env = true ->
  existsb (fun r => N.eqb (Hold.id r) (uuid4_pk env)) (holds d) = false ->
  existsb (fun r => String.eqb (Hold.payment_token r) (uuid4_token env))
    (holds d) = false ->
  celery_ok env = false ->
  let ttl_minutes :=
    match HoldRequest.ttl_minutes request with
    | Some t => t
    | None => HOLD_EXPIRY_MINUTES cfg
    end in
  let hold :=
    Hold.mk (uuid4_pk env) (Event.id event) (HoldRequest.qty request)
      (now env + ttl_minutes * 60) (uuid4_token env) ACTIVE
      (now env) (now env) in
  CreateHold cfg env request d
  = (Return (mkResponse HTTP_201_CREATED
               (HoldResponseData (Hold.id hold) (Hold.expires_at hold)
                  (Hold.payment_token hold))),
     set_holds (hold :: holds d) d,
     [RedisLockAcquire (lock_key (Event.id event));
      RedisSetex (hold_expiry_key (Hold.id hold)) (ttl_minutes * 60);
      Log INFO;
      Log ERROR;
      RedisIncr (metric_key "holds_created" None);
      RedisExpire (metric_key "holds_created" None) 86400;
      RedisIncr (metric_key "holds_created_event_" (Some (Event.id event)));
      RedisExpire (metric_key "holds_created_event_" (Some (Event.id event)))
        86400;
      Log INFO;
      RedisLockRelease (lock_key (Event.id event))]).
Proof.
  intros Hget Hqty Httl Hav Hlock Hredis Hpk Htok Hcelery ttl_minutes hold.
  destruct (event_exists _ _ Hget) as [Hid Hex].
  assert (Eq : qty_errors (HoldRequest.qty request) = []).
  { unfold qty_errors. destruct (Z.ltb_spec (HoldRequest.qty request) 1);
      [lia | reflexivity]. }
  assert (Et : ttl_minutes_errors cfg (HoldRequest.ttl_minutes request) = []).
  { unfold ttl_minutes_errors.
    destruct (HoldRequest.ttl_minutes request) as [t |]; [| reflexivity].
    destruct (Z.gtb_spec t (MAX_HOLD_TTL_MINUTES cfg)); [lia |].
    destruct (Z.ltb_spec t 1); [lia | reflexivity]. }
  assert (Ea : (HoldRequest.qty request >? Event_available_seats d event)
               = false).
  { rewrite Event_available_seats_spec. lia. }
  apply eq_of_post.
  unfold CreateHold, dispatch, HoldView_post, HoldCreateSerializer_is_valid,
    HoldCreateSerializer_fields, HoldCreateSerializer_validate_event_id,
    HoldCreateSerializer_validate.
  wp. rewrite Hget. wp. rewrite Eq, Et. cbn [app]. wp.
  cbn [HoldData.qty HoldData.event_id]. rewrite Ea. wp.
  unfold HoldView_post_locked, with_RedisLock. wp.
  cbn [HoldData.qty HoldData.event_id HoldData.ttl_minutes].
  rewrite Hlock. wp. rewrite Ea.
  unfold HoldCreateSerializer_create, Hold_objects_create. wp.
  cbn [HoldData.qty HoldData.event_id HoldData.ttl_minutes Hold.id Hold.qty
       Hold.payment_token Hold.event].
  rewrite Hpk, Htok, Hid, Hex.
  replace (0 <? HoldRequest.qty request) with true by (symmetry; lia).
  cbn [negb andb]. wp.
  eapply post_of_eq;
    [apply set_hold_expiry_ok;
       [exact Hredis
       | destruct (HoldRequest.ttl_minutes request); cbn [HoldData.ttl_minutes];
           lia]
    |].
  wp.
  unfold apply_async. rewrite Hcelery. wp.
  eapply post_of_eq; [apply increment_metric_ok, Hredis |]. wp.
  eapply post_of_eq; [apply increment_metric_ok, Hredis |]. wp.
  cbn [app Hold.id Hold.expires_at Hold.payment_token].
  subst hold ttl_minutes. cbn [Hold.id Hold.expires_at Hold.payment_token].
  rewrite Hid. repeat split.
Qed.

(** At a concrete store: seven of ten seats, Celery down. *)
Lemma C9_schedule_failure_witness :
  CreateHold Sample.cfg (mkEnv 100 11%N "token-a" "" true true false)
    (HoldRequest.mk 1%N 7 (Some 1)) Sample.db0
  = (Return (mkResponse HTTP_201_CREATED
               (HoldResponseData 11%N 160 "token-a")),
     set_holds [Hold.mk 11%N 1%N 7 160 "token-a" ACTIVE 100 100] Sample.db0,
     [RedisLockAcquire (lock_key 1%N);
      RedisSetex (hold_expiry_key 11%N) 60;
      Log INFO;
      Log ERROR;
      RedisIncr (metric_key "holds_created" None);
      RedisExpire (metric_key "holds_created" None) 86400;
      RedisIncr (metric_key "holds_created_event_" (Some 1%N));
      RedisExpire (metric_key "holds_created_event_" (Some 1%N)) 86400;
      Log INFO;
      RedisLockRelease (lock_key 1%N)]).
Proof.
  apply (@C9_schedule_failure Sample.cfg
           (mkEnv 100 11%N "token-a" "" true true false)
           (HoldRequest.mk 1%N 7 (Some 1)) Sample.db0 Sample.concert).
  - reflexivity.
  - cbn. lia.
  - cbn. lia.
  - vm_compute. intro H. discriminate H.
  - reflexivity.
  - reflexivity.
  - reflexivity.
  - reflexivity.
  - reflexivity.
Defined.

(** C6, as the specification has it, fails: with seven of ten seats held,
    a request for five is turned down by the serializer's own check, as a
    validation error (400), not as a conflict (409). *)
Lemma C6_counterexample :
  ~ insufficient_inventory_is_conflict Sample.cfg
      (Sample.env 110 12%N "token-b" "")
      (HoldRequest.mk 1%N 5 None) Sample.db_held.
Proof.
  intro H. destruct (H Sample.concert) as (_ & body & E).
  - reflexivity.
  - reflexivity.
  - vm_compute in E. discriminate E.
Qed.

(** C6, amended: a CreateHold request for more seats than the event's
    current availability fails and leaves the store as it is.  Run from
    the start it is turned down by the serializer's availability check, as
    a validation error (400).  Only a request that passed validation
    earlier and finds [qty] above the availability when its critical
    section re-checks under the lock is answered with a conflict (409),
    again with nothing written. *)
Theorem C6_insufficient_inventory cfg env request d event :
  objects_get EventModel
    (fun e => N.eqb (Event.id e) (HoldRequest.event_id request)) (events d)
  = Return event ->
  HoldRequest.qty request > available d event ->
  (exists errors,
     CreateHold cfg env request d
     = (Return (mkResponse HTTP_400_BAD_REQUEST (ValidationErrorData errors)),
        d, [Log ERROR]))
  /\ (forall validated_data,
        HoldData.event_id validated_data = event ->
        HoldData.qty validated_data = HoldRequest.qty request ->
        lock_acquired env = true ->
        HoldView_post_locked env validated_data d
        = (Return (mkResponse HTTP_409_CONFLICT
                     (ErrorData "Insufficient seats")),
           d,
           [RedisLockAcquire (lock_key (Event.id event));
            RedisLockRelease (lock_key (Event.id event))])).
Proof.
  intros Hget Hav.
  assert (Ea : (HoldRequest.qty request >? Event_available_seats d event)
               = true).
  { rewrite Event_available_seats_spec. lia. }
  split.
  - assert (P : post (CreateHold cfg env request) d (fun r d' t =>
              exists errors,
                r = Return (mkResponse HTTP_400_BAD_REQUEST
                              (ValidationErrorData errors))
                /\ d' = d /\ t = [Log ERROR])).
    { unfold CreateHold, dispatch, HoldView_post,
        HoldCreateSerializer_is_valid, HoldCreateSerializer_fields,
        HoldCreateSerializer_validate_event_id,
        HoldCreateSerializer_validate.
      wp. rewrite Hget. wp. cbn [app].
      destruct (qty_errors _ ++ ttl_minutes_errors _ _) as [| x l].
      - wp. cbn [HoldData.qty HoldData.event_id]. rewrite Ea.
        unfold custom_exception_handler. wp. eauto.
      - unfold custom_exception_handler. wp. eauto. }
    destruct P as (errors & P). exists errors. apply eq_of_post. exact P.
  - intros v Hev Hq Hlock. apply eq_of_post.
    unfold HoldView_post_locked, with_RedisLock. wp.
    rewrite Hlock. wp. rewrite Hev, Hq, Ea. wp. auto.
Qed.

(** At the store of the counterexample. *)
Lemma C6_insufficient_inventory_witness :
  (exists errors,
     CreateHold Sample.cfg (Sample.env 110 12%N "token-b" "")
       (HoldRequest.mk 1%N 5 None) Sample.db_held
     = (Return (mkResponse HTTP_400_BAD_REQUEST (ValidationErrorData errors)),
        Sample.db_held, [Log ERROR]))
  /\ HoldView_post_locked (Sample.env 110 12%N "token-b" "")
       (HoldData.mk Sample.concert 5 5) Sample.db_held
     = (Return (mkResponse HTTP_409_CONFLICT (ErrorData "Insufficient seats")),
        Sample.db_held,
        [RedisLockAcquire (lock_key 1%N); RedisLockRelease (lock_key 1%N)]).
Proof.
  destruct (@C6_insufficient_inventory Sample.cfg
              (Sample.env 110 12%N "token-b" "")
              (HoldRequest.mk 1%N 5 None) Sample.db_held Sample.concert)
    as [H1 H2].
  - reflexivity.
  - reflexivity.
  - split; [exact H1 |]. apply H2; reflexivity.
Defined.

(* ================================================================== *)
(** * Booking confirmation *)

(** Step through the field and the lookup of a confirmation whose token
    the field accepts ([Hfield]) and whose hold is found ([Hget]). *)
Ltac confirm_prefix Hfield Hget :=
  unfold ConfirmBooking, dispatch, BookingView_post,
    BookingCreateSerializer_is_valid, BookingCreateSerializer_fields,
    BookingCreateSerializer_validate;
  wp; rewrite Hfield; wp;
  cbn [BookingRequest.hold_id BookingRequest.payment_token];
  rewrite Hget; wp.

Lemma confirm_field_errors env request d errors :
  payment_token_field (BookingRequest.payment_token request) = inr errors ->
  ConfirmBooking env request d
  = (Return (mkResponse HTTP_400_BAD_REQUEST (ValidationErrorData errors)),
     d, [Log ERROR]).
Proof.
  intro Hfield. apply eq_of_post.
  unfold ConfirmBooking, dispatch, BookingView_post,
    BookingCreateSerializer_is_valid, BookingCreateSerializer_fields.
  wp. rewrite Hfield. unfold custom_exception_handler. wp. auto.
Qed.

Lemma confirm_not_active env request d h token :
  payment_token_field (BookingRequest.payment_token request) = inl token ->
  objects_get HoldModel
    (fun r => N.eqb (Hold.id r) (BookingRequest.hold_id request)) (holds d)
  = Return h ->
  Hold.status h <> ACTIVE ->
  ConfirmBooking env request d
  = (Return (mkResponse HTTP_400_BAD_REQUEST
               (ValidationErrorData [Hold_is_not_active])),
     d, [Log ERROR]).
Proof.
  intros Hfield Hget Hne. apply eq_of_post.
  confirm_prefix Hfield Hget.
  replace (status_is ACTIVE h) with false.
  - cbn [negb]. unfold custom_exception_handler. wp. auto.
  - symmetry. destruct (status_is ACTIVE h) eqn:E; [| reflexivity].
    apply status_is_eq in E. contradiction.
Qed.

Lemma filter_id_with_status env hold_id s hs :
  filter (fun r => N.eqb (Hold.id r) hold_id) (with_status env hold_id s hs)
  = map (set_status env s) (filter (fun r => N.eqb (Hold.id r) hold_id) hs).
Proof.
  induction hs as [| a hs IH]; [reflexivity |].
  change (with_status env hold_id s (a :: hs))
    with ((if N.eqb (Hold.id a) hold_id then set_status env s a else a)
          :: with_status env hold_id s hs).
  cbn [filter]. destruct (N.eqb (Hold.id a) hold_id) eqn:E.
  - cbn [set_status Hold.id]. rewrite E. cbn [map]. rewrite IH. reflexivity.
  - rewrite E, IH. reflexivity.
Qed.

(** Whatever the store and the request: once a confirmation has answered
    201, the same request sent again is turned down as "Hold is not
    active" and changes nothing. *)
Lemma retry_after_booking env1 env2 request d ref :
  result_of (ConfirmBooking env1 request d)
  = Return (mkResponse HTTP_201_CREATED (BookingResponseData ref)) ->
  ConfirmBooking env2 request (db_of (ConfirmBooking env1 request d))
  = (Return (mkResponse HTTP_400_BAD_REQUEST
               (ValidationErrorData [Hold_is_not_active])),
     db_of (ConfirmBooking env1 request d), [Log ERROR]).
Proof.
  intro H.
  pose proof (booking_shape env1 request d) as S. unfold post in S.
  unfold ConfirmBooking in H. rewrite dispatch_result in H.
  destruct S as (_ & [[_ (e & He)]
                     | (h & b & _ & Hid & Hf & _ & _ & Htok & _ & _ & _ & _ & E2 & _)]).
  - rewrite He in H. destruct e; vm_compute in H; discriminate H.
  - apply (@confirm_not_active env2 request _ (set_status env1 BOOKED h)
             (Hold.payment_token h) Htok);
      [| discriminate].
    unfold ConfirmBooking. rewrite dispatch_db.
    unfold objects_get. rewrite E2, <- Hid, filter_id_with_status, Hf.
    reflexivity.
Qed.

(** C7, as the specification has it, fails at three inputs.  A
    confirmation arriving at [expires_at] itself, neither before nor
    after, is accepted; so is one whose payment token differs from the
    hold's by a leading blank, which the field removes; and a confirmation
    of a BOOKED hold with a blank token is turned down by the token field,
    not as invalid state. *)
Lemma C7_counterexample :
  ~ deadline_is_exclusive (Sample.env 160 21%N "" "0A1B2C3D") Sample.book7
      Sample.db_held
  /\ ~ token_must_match_exactly (Sample.env 150 21%N "" "0A1B2C3D")
        (BookingRequest.mk 11%N " token-a") Sample.db_held
  /\ ~ inactive_hold_is_invalid_state (Sample.env 150 22%N "" "")
        (BookingRequest.mk 11%N "") Sample.db_booked.
Proof.
  split; [| split]; intro H.
  - specialize (H (Hold.mk 11%N 1%N 7 160 "token-a" ACTIVE 100 100)
                  eq_refl eq_refl).
    assert (E : ~ now (Sample.env 160 21%N "" "0A1B2C3D")
                  < Hold.expires_at
                      (Hold.mk 11%N 1%N 7 160 "token-a" ACTIVE 100 100))
      by (cbn; lia).
    specialize (H E). vm_compute in H. discriminate H.
  - specialize (H (Hold.mk 11%N 1%N 7 160 "token-a" ACTIVE 100 100)
                  eq_refl eq_refl).
    assert (E : now (Sample.env 150 21%N "" "0A1B2C3D")
                <= Hold.expires_at
                     (Hold.mk 11%N 1%N 7 160 "token-a" ACTIVE 100 100))
      by (cbn; lia).
    specialize (H E). vm_compute in H.
    assert (N : "token-a"%string <> " token-a"%string) by discriminate.
    specialize (H N). discriminate H.
  - specialize (H (Hold.mk 11%N 1%N 7 160 "token-a" BOOKED 100 130) eq_refl).
    assert (N : Hold.status (Hold.mk 11%N 1%N 7 160 "token-a" BOOKED 100 130)
                <> ACTIVE) by discriminate.
    specialize (H N). vm_compute in H. discriminate H.
Qed.

(** C7, amended: ConfirmBooking validates before any mutation.  A payment
    token the field refuses (blank, or holding a null character) is
    answered with the field's error.  Otherwise, for the hold the request
    names and the token with surrounding whitespace removed, the request
    fails, with the store untouched, as invalid state when the status is
    not ACTIVE, else as expired when [now] is strictly after [expires_at]
    (a request at [expires_at] itself is still in time), else as
    unauthorized when that token differs from the hold's; and a request
    that passes the three checks on a hold without a Booking passes
    validation. *)
Theorem C7_booking_preconditions env request d h :
  objects_get HoldModel
    (fun r => N.eqb (Hold.id r) (BookingRequest.hold_id request)) (holds d)
  = Return h ->
  let rejected errors :=
    ConfirmBooking env request d
    = (Return (mkResponse HTTP_400_BAD_REQUEST (ValidationErrorData errors)),
       d, [Log ERROR]) in
  (forall errors,
     payment_token_field (BookingRequest.payment_token request) = inr errors ->
     rejected errors)
  /\ (forall token,
        payment_token_field (BookingRequest.payment_token request)
        = inl token ->
        (Hold.status h <> ACTIVE -> rejected [Hold_is_not_active])
        /\ (Hold.status h = ACTIVE -> Hold.expires_at h < now env ->
            rejected [Hold_has_expired])
        /\ (Hold.status h = ACTIVE -> now env <= Hold.expires_at h ->
            Hold.payment_token h <> token ->
            rejected [Invalid_payment_token])
        /\ (Hold.status h = ACTIVE -> now env <= Hold.expires_at h ->
            Hold.payment_token h = token ->
            has_booking d h = false ->
            BookingCreateSerializer_is_valid env request d
            = (Return (BookingData.mk h None), d, []))).
Proof.
  intros Hget rejected. subst rejected. cbv beta.
  assert (Ha : Hold.status h = ACTIVE -> status_is ACTIVE h = true)
    by apply status_is_eq.
  split; [intros errors Hfield; apply confirm_field_errors, Hfield |].
  intros token Hfield.
  split; [| split; [| split]].
  - intro Hne. apply (confirm_not_active env request d Hfield Hget Hne).
  - intros Hst Hdue. apply eq_of_post.
    confirm_prefix Hfield Hget. rewrite (Ha Hst). cbn [negb].
    unfold Hold_is_expired.
    replace (now env >? Hold.expires_at h) with true by (symmetry; lia).
    unfold custom_exception_handler. wp. auto.
  - intros Hst Hdue Htok. apply eq_of_post.
    confirm_prefix Hfield Hget. rewrite (Ha Hst). cbn [negb].
    unfold Hold_is_expired.
    replace (now env >? Hold.expires_at h) with false by (symmetry; lia).
    destruct (String.eqb_spec (Hold.payment_token h) token); [contradiction |].
    cbn [negb]. unfold custom_exception_handler. wp. auto.
  - intros Hst Hdue Htok Hnb. apply eq_of_post.
    unfold BookingCreateSerializer_is_valid, BookingCreateSerializer_fields,
      BookingCreateSerializer_validate.
    wp. rewrite Hfield. wp.
    cbn [BookingRequest.hold_id BookingRequest.payment_token].
    rewrite Hget. wp. rewrite (Ha Hst). cbn [negb].
    unfold Hold_is_expired.
    replace (now env >? Hold.expires_at h) with false by (symmetry; lia).
    rewrite Htok, String.eqb_refl. cbn [negb]. wp.
    unfold has_booking in Hnb.
    destruct (booking_of d h); [discriminate |]. wp. auto.
Qed.

(** At concrete stores: a blank token; a BOOKED hold; an ACTIVE hold
    after its deadline; a wrong token; and, at the deadline itself, the
    right token sent with blanks around it. *)
Lemma C7_booking_preconditions_witness :
  ConfirmBooking (Sample.env 150 22%N "" "")
    (BookingRequest.mk 11%N "  ") Sample.db_held
  = (Return (mkResponse HTTP_400_BAD_REQUEST
               (ValidationErrorData [Payment_token_blank])),
     Sample.db_held, [Log ERROR])
  /\ ConfirmBooking (Sample.env 150 22%N "" "") Sample.book7 Sample.db_booked
     = (Return (mkResponse HTTP_400_BAD_REQUEST
                  (ValidationErrorData [Hold_is_not_active])),
        Sample.db_booked, [Log ERROR])
  /\ ConfirmBooking (Sample.env 161 22%N "" "") Sample.book7 Sample.db_held
     = (Return (mkResponse HTTP_400_BAD_REQUEST
                  (ValidationErrorData [Hold_has_expired])),
        Sample.db_held, [Log ERROR])
  /\ ConfirmBooking (Sample.env 150 22%N "" "")
       (BookingRequest.mk 11%N "token-b") Sample.db_held
     = (Return (mkResponse HTTP_400_BAD_REQUEST
                  (ValidationErrorData [Invalid_payment_token])),
        Sample.db_held, [Log ERROR])
  /\ BookingCreateSerializer_is_valid (Sample.env 160 22%N "" "")
       (BookingRequest.mk 11%N " token-a ") Sample.db_held
     = (Return (BookingData.mk
                  (Hold.mk 11%N 1%N 7 160 "token-a" ACTIVE 100 100) None),
        Sample.db_held, []).
Proof.
  split; [| split; [| split; [| split]]].
  - apply (proj1 (@C7_booking_preconditions (Sample.env 150 22%N "" "")
                    (BookingRequest.mk 11%N "  ") Sample.db_held
                    (Hold.mk 11%N 1%N 7 160 "token-a" ACTIVE 100 100)
                    eq_refl)).
    reflexivity.
  - apply (proj1 (proj2 (@C7_booking_preconditions
                           (Sample.env 150 22%N "" "") Sample.book7
                           Sample.db_booked
                           (Hold.mk 11%N 1%N 7 160 "token-a" BOOKED 100 130)
                           eq_refl) "token-a"%string eq_refl)).
    discriminate.
  - apply (proj1 (proj2 (proj2 (@C7_booking_preconditions
                                  (Sample.env 161 22%N "" "") Sample.book7
                                  Sample.db_held
                                  (Hold.mk 11%N 1%N 7 160 "token-a" ACTIVE
                                     100 100)
                                  eq_refl) "token-a"%string eq_refl)));
      reflexivity.
  - apply (proj1 (proj2 (proj2 (proj2 (@C7_booking_preconditions
                                  (Sample.env 150 22%N "" "")
                                  (BookingRequest.mk 11%N "token-b")
                                  Sample.db_held
                                  (Hold.mk 11%N 1%N 7 160 "token-a" ACTIVE
                                     100 100)
                                  eq_refl) "token-b"%string eq_refl)))).
    + reflexivity.
    + cbn. lia.
    + discriminate.
  - apply (proj2 (proj2 (proj2 (proj2 (@C7_booking_preconditions
                                  (Sample.env 160 22%N "" "")
                                  (BookingRequest.mk 11%N " token-a ")
                                  Sample.db_held
                                  (Hold.mk 11%N 1%N 7 160 "token-a" ACTIVE
                                     100 100)
                                  eq_refl) "token-a"%string eq_refl)))).
    + reflexivity.
    + cbn. lia.
    + reflexivity.
    + reflexivity.
Defined.

(** C4 at a concrete input: the first confirmation of a hold answers 201
    with the booking reference; the same request sent again is answered
    400, "Hold is not active", not with that reference.  The store keeps
    its one Booking row. *)
Theorem C4_retry_is_rejected :
  let first :=
    ConfirmBooking (Sample.env 130 21%N "" "0A1B2C3D") Sample.book7
      Sample.db_held in
  let second :=
    ConfirmBooking (Sample.env 131 22%N "" "4E5F6A7B") Sample.book7
      (db_of first) in
  result_of first
  = Return (mkResponse HTTP_201_CREATED (BookingResponseData "BK-0A1B2C3D"))
  /\ result_of second
     = Return (mkResponse HTTP_400_BAD_REQUEST
                 (ValidationErrorData [Hold_is_not_active]))
  /\ db_of second = db_of first
  /\ List.length (bookings (db_of second)) = 1%nat.
Proof. vm_compute. repeat split. Qed.

(** C1 at a concrete input: a booking request validates an ACTIVE hold at
    its deadline, the expiry task then commits EXPIRED, and the request's
    transaction then commits BOOKED and a Booking row: both terminal
    statuses are reached by the same hold.  Run one after the other, in
    either order, the two reach one terminal status only. *)
Theorem C1_both_terminal_statuses_reached :
  let statuses s :=
    map (fun d => stored_status d 11%N)
      (race s (Sample.env 160 21%N "" "0A1B2C3D") (Sample.env 161 0%N "" "")
         (Sample.env 162 21%N "" "0A1B2C3D") Sample.book7 Sample.db_held) in
  statuses expiry_between = [Some ACTIVE; Some EXPIRED; Some BOOKED]
  /\ statuses expiry_first = [Some ACTIVE; Some EXPIRED; Some EXPIRED]
  /\ statuses expiry_last = [Some ACTIVE; Some BOOKED; Some BOOKED]
  /\ map Booking.hold
       (bookings
          (last (race expiry_between (Sample.env 160 21%N "" "0A1B2C3D")
                   (Sample.env 161 0%N "" "")
                   (Sample.env 162 21%N "" "0A1B2C3D") Sample.book7
                   Sample.db_held) Sample.db0))
     = [11%N].
Proof. vm_compute. repeat split. Qed.

(** What the overlap of C1 costs: after the expiry frees the seven seats a
    hold of ten is granted, and the booking transaction then books the
    seven as well, seventeen seats of ten. *)
Lemma overlap_oversells :
  let d1 := run (expire_op (Sample.env 161 0%N "" "") 11%N) Sample.db_held in
  let d2 := run (CreateHold_op Sample.cfg (Sample.env 161 14%N "token-d" "")
                   (HoldRequest.mk 1%N 10 None)) d1 in
  let d3 := booking_in_two_steps (Sample.env 160 21%N "" "0A1B2C3D")
              (Sample.env 162 21%N "" "0A1B2C3D") Sample.book7
              Sample.db_held d2 in
  held d3 Sample.concert + booked_holds d3 Sample.concert = 17
  /\ Event.total_seats Sample.concert = 10.
Proof. vm_compute. split; reflexivity. Qed.

(* ================================================================== *)
(** * The lock of the hold coordinator *)








(* ================================================================== *)
(** * Hold creation, path by path *)

Ltac valid_hold_prefix cfg request d event Hget Hqty Httl Hav Hlock Hpk Htok :=
  let Hid := fresh "Hid" in
  let Hex := fresh "Hex" in
  let Eq := fresh "Eq" in
  let Et := fresh "Et" in
  let Ea := fresh "Ea" in
  destruct (event_exists _ _ Hget) as [Hid Hex];
  assert (Eq : qty_errors (HoldRequest.qty request) = [])
    by (unfold qty_errors; destruct (Z.ltb_spec (HoldRequest.qty request) 1);
        [lia | reflexivity]);
  assert (Et : ttl_minutes_errors cfg (HoldRequest.ttl_minutes request) = [])
    by (unfold ttl_minutes_errors;
        destruct (HoldRequest.ttl_minutes request) as [t |]; [| reflexivity];
        destruct (Z.gtb_spec t (MAX_HOLD_TTL_MINUTES cfg)); [lia |];
        destruct (Z.ltb_spec t 1); [lia | reflexivity]);
  assert (Ea : (HoldRequest.qty request >? Event_available_seats d event)
               = false)
    by (rewrite Event_available_seats_spec; lia);
  apply eq_of_post;
  unfold CreateHold, dispatch, HoldView_post, HoldCreateSerializer_is_valid,
    HoldCreateSerializer_fields, HoldCreateSerializer_validate_event_id,
    HoldCreateSerializer_validate;
  wp; rewrite Hget; wp; rewrite Eq, Et; cbn [app]; wp;
  cbn [HoldData.qty HoldData.event_id]; rewrite Ea; wp;
  unfold HoldView_post_locked, with_RedisLock; wp;
  cbn [HoldData.qty HoldData.event_id HoldData.ttl_minutes];
  rewrite Hlock; wp; rewrite Ea;
  unfold HoldCreateSerializer_create, Hold_objects_create; wp;
  cbn [HoldData.qty HoldData.event_id HoldData.ttl_minutes Hold.id Hold.qty
       Hold.payment_token Hold.event];
  rewrite Hpk, Htok, Hid, Hex;
  replace (0 <? HoldRequest.qty request) with true by (symmetry; lia);
  cbn [negb andb]; wp.

(** X2: a valid CreateHold request that gets the lock, reaches Redis and
    Celery and draws a fresh key and token answers 201 with the hold's
    key, deadline and token, inserts exactly that ACTIVE hold with
    [expires_at = now + ttl_minutes * 60], sets the Redis marker with the
    same number of seconds and schedules the expiry task at the hold's
    [expires_at].  A request that gives no ttl gets the configured
    default, which is not validated: the statement needs it to be at
    least one minute, as Redis refuses a marker that does not expire in
    the future. *)
Theorem create_hold_success cfg env request d event :
  valid_hold_request cfg request d event ->
  (HoldRequest.ttl_minutes request = None -> 1 <= HOLD_EXPIRY_MINUTES cfg) ->
  fresh_hold_values env d ->
  lock_acquired env = true -> redis_ok env = true -> celery_ok env = true ->
  let hold := new_hold cfg env request in
  CreateHold cfg env request d
  = (Return (mkResponse HTTP_201_CREATED
               (HoldResponseData (Hold.id hold) (Hold.expires_at hold)
                  (Hold.payment_token hold))),
     set_holds (hold :: holds d) d,
     [RedisLockAcquire (lock_key (Event.id event));
      RedisSetex (hold_expiry_key (Hold.id hold))
        (Hold.expires_at hold - now env);
      Log INFO;
      CeleryApplyAsync (Hold.id hold) (Hold.expires_at hold);
      Log INFO;
      RedisIncr (metric_key "holds_created" None);
      RedisExpire (metric_key "holds_created" None) 86400;
      RedisIncr (metric_key "holds_created_event_" (Some (Event.id event)));
      RedisExpire (metric_key "holds_created_event_" (Some (Event.id event)))
        86400;
      Log INFO;
      RedisLockRelease (lock_key (Event.id event))]).
Proof.
  intros (Hget & Hqty & Httl & Hav) Hdefault (Hpk & Htok) Hlock Hredis
    Hcelery hold.
  valid_hold_prefix cfg request d event Hget Hqty Httl Hav Hlock Hpk Htok.
  eapply post_of_eq;
    [apply set_hold_expiry_ok;
       [exact Hredis
       | destruct (HoldRequest.ttl_minutes request);
           [lia | specialize (Hdefault eq_refl); lia]]
    |].
  wp.
  unfold apply_async. rewrite Hcelery. wp.
  eapply post_of_eq; [apply increment_metric_ok, Hredis |]. wp.
  eapply post_of_eq; [apply increment_metric_ok, Hredis |]. wp.
  subst hold. unfold new_hold.
  cbn [app Hold.id Hold.expires_at Hold.payment_token].
  replace (now env + _ * 60 - now env)
    with (match HoldRequest.ttl_minutes request with
          | Some t => t
          | None => HOLD_EXPIRY_MINUTES cfg
          end * 60) by lia.
  repeat split.
Qed.

(** X3: [HoldView.post] writes outside any transaction.  When Redis stops
    answering after the hold was inserted, the request answers 500 and
    "Failed to create hold", yet the ACTIVE hold stays in the store; the
    lock is released, and neither a marker nor an expiry task exists for
    the hold. *)
Theorem create_hold_redis_failure_keeps_hold cfg env request d event :
  valid_hold_request cfg request d event ->
  fresh_hold_values env d ->
  lock_acquired env = true -> redis_ok env = false ->
  CreateHold cfg env request d
  = (Return (mkResponse HTTP_500_INTERNAL_SERVER_ERROR
               (ErrorData "Failed to create hold")),
     set_holds (new_hold cfg env request :: holds d) d,
     [RedisLockAcquire (lock_key (Event.id event));
      RedisLockRelease (lock_key (Event.id event));
      Log ERROR]).
Proof.
  intros (Hget & Hqty & Httl & Hav) (Hpk & Htok) Hlock Hredis.
  valid_hold_prefix cfg request d event Hget Hqty Httl Hav Hlock Hpk Htok.
  eapply post_of_eq; [apply set_hold_expiry_refused; left; exact Hredis |].
  wp. unfold new_hold. repeat split.
Qed.

(** At the empty ten-seat event: a hold of seven for one minute. *)
Lemma create_hold_success_witness :
  CreateHold Sample.cfg (Sample.env 100 11%N "token-a" "")
    (HoldRequest.mk 1%N 7 (Some 1)) Sample.db0
  = (Return (mkResponse HTTP_201_CREATED
               (HoldResponseData 11%N 160 "token-a")),
     set_holds [Hold.mk 11%N 1%N 7 160 "token-a" ACTIVE 100 100] Sample.db0,
     [RedisLockAcquire (lock_key 1%N);
      RedisSetex (hold_expiry_key 11%N) 60;
      Log INFO;
      CeleryApplyAsync 11%N 160;
      Log INFO;
      RedisIncr (metric_key "holds_created" None);
      RedisExpire (metric_key "holds_created" None) 86400;
      RedisIncr (metric_key "holds_created_event_" (Some 1%N));
      RedisExpire (metric_key "holds_created_event_" (Some 1%N)) 86400;
      Log INFO;
      RedisLockRelease (lock_key 1%N)]).
Proof.
  apply (@create_hold_success Sample.cfg (Sample.env 100 11%N "token-a" "")
           (HoldRequest.mk 1%N 7 (Some 1)) Sample.db0 Sample.concert).
  - repeat split; try reflexivity; cbn; lia.
  - discriminate.
  - split; reflexivity.
  - reflexivity.
  - reflexivity.
  - reflexivity.
Defined.

Lemma create_hold_redis_failure_keeps_hold_witness :
  CreateHold Sample.cfg (mkEnv 100 11%N "token-a" "" true false true)
    (HoldRequest.mk 1%N 7 (Some 1)) Sample.db0
  = (Return (mkResponse HTTP_500_INTERNAL_SERVER_ERROR
               (ErrorData "Failed to create hold")),
     set_holds [Hold.mk 11%N 1%N 7 160 "token-a" ACTIVE 100 100] Sample.db0,
     [RedisLockAcquire (lock_key 1%N); RedisLockRelease (lock_key 1%N);
      Log ERROR]).
Proof.
  apply (@create_hold_redis_failure_keeps_hold Sample.cfg
           (mkEnv 100 11%N "token-a" "" true false true)
           (HoldRequest.mk 1%N 7 (Some 1)) Sample.db0 Sample.concert).
  - repeat split; try reflexivity; cbn; lia.
  - split; reflexivity.
  - reflexivity.
  - reflexivity.
Defined.

(** X4: a CreateHold request with a field out of bounds ([qty] below 1,
    [ttl_minutes] below 1 or above the configured maximum) or naming an
    event that does not exist is answered 400 with all field errors
    together; nothing is written and the lock is never asked for. *)
Theorem create_hold_field_errors cfg env request d :
  (List.length
     (filter (fun e => N.eqb (Event.id e) (HoldRequest.event_id request))
        (events d)) <= 1)%nat ->
  hold_field_errors cfg request d <> [] ->
  CreateHold cfg env request d
  = (Return (mkResponse HTTP_400_BAD_REQUEST
               (ValidationErrorData (hold_field_errors cfg request d))),
     d, [Log ERROR]).
Proof.
  intros Hlen Herr. apply eq_of_post.
  unfold CreateHold, dispatch, HoldView_post, HoldCreateSerializer_is_valid,
    HoldCreateSerializer_fields, HoldCreateSerializer_validate_event_id,
    HoldCreateSerializer_validate.
  unfold hold_field_errors in *. wp. unfold objects_get.
  destruct (filter _ (events d)) as [| e [| e' l]].
  - wp. cbn [app]. unfold custom_exception_handler. wp. auto.
  - wp. cbn [app] in *.
    destruct (qty_errors _ ++ ttl_minutes_errors _ _) as [| x l];
      [contradiction |].
    unfold custom_exception_handler. wp. auto.
  - cbn in Hlen. lia.
Qed.

Lemma create_hold_field_errors_witness :
  CreateHold Sample.cfg (Sample.env 100 11%N "token-a" "")
    (HoldRequest.mk 2%N 0 (Some 61)) Sample.db0
  = (Return (mkResponse HTTP_400_BAD_REQUEST
               (ValidationErrorData
                  [Event_not_found; Qty_below_min; Ttl_above_max])),
     Sample.db0, [Log ERROR]).
Proof.
  apply (@create_hold_field_errors Sample.cfg
           (Sample.env 100 11%N "token-a" "")
           (HoldRequest.mk 2%N 0 (Some 61)) Sample.db0).
  - vm_compute. apply le_0_n.
  - discriminate.
Defined.

Lemma hold_is_valid_exact cfg request d :
  post (HoldCreateSerializer_is_valid cfg request) d (fun r d' _ =>
    d' = d /\
    match r with
    | Return v =>
        exists event,
          objects_get EventModel
            (fun e => N.eqb (Event.id e) (HoldRequest.event_id request))
            (events d) = Return event
          /\ v = HoldData.mk event (HoldRequest.qty request)
                  (match HoldRequest.ttl_minutes request with
                   | Some t => t
                   | None => HOLD_EXPIRY_MINUTES cfg
                   end)
          /\ hold_field_errors cfg request d = []
          /\ HoldRequest.qty request <= Event_available_seats d event
    | Raise e => (exists errors, e = ValidationError errors)
                 \/ e = MultipleObjectsReturned EventModel
    end).
Proof.
  unfold HoldCreateSerializer_is_valid, HoldCreateSerializer_fields,
    HoldCreateSerializer_validate_event_id, HoldCreateSerializer_validate,
    hold_field_errors.
  wp.
  destruct (objects_get _ _ _) as [ev | e] eqn:Eget.
  - pose proof (objects_get_Return _ _ _ Eget) as (_ & _ & Hf).
    rewrite Hf.
    wp. cbn [app].
    destruct (qty_errors _ ++ ttl_minutes_errors _ _); wp; [| eauto].
    cbn [HoldData.qty HoldData.event_id].
    destruct (_ >? _) eqn:Hav; wp; [eauto |].
    split; [reflexivity |]. exists ev. repeat split. lia.
  - apply objects_get_Raise in Eget.
    destruct Eget as [[-> _] | ->]; wp; eauto.
Qed.

Lemma hold_view_outcome cfg env request d :
  post (HoldView_post cfg env request) d (fun r d' _ =>
    match r with
    | Return resp =>
        status_code resp = HTTP_201_CREATED
        /\ d' = set_holds (new_hold cfg env request :: holds d) d
        /\ data resp
           = HoldResponseData (uuid4_pk env)
               (Hold.expires_at (new_hold cfg env request)) (uuid4_token env)
        \/ status_code resp = HTTP_409_CONFLICT /\ d' = d
        \/ status_code resp = HTTP_500_INTERNAL_SERVER_ERROR
           /\ (d' = d
               \/ d' = set_holds (new_hold cfg env request :: holds d) d)
    | Raise e =>
        d' = d /\ ((exists errors, e = ValidationError errors)
                   \/ e = MultipleObjectsReturned EventModel)
    end).
Proof.
  unfold HoldView_post. wp.
  wp_call hold_is_valid_exact; destruct E as [-> E]; [| auto].
  destruct E as (ev & Hget & -> & _ & _).
  destruct (event_exists _ _ Hget) as [Hid _].
  unfold HoldView_post_locked, with_RedisLock. wp.
  cbn [HoldData.qty HoldData.event_id HoldData.ttl_minutes].
  destruct (lock_acquired env); [| wp; auto 10].
  wp.
  destruct (HoldRequest.qty request >? Event_available_seats d ev);
    [wp; auto 10 |].
  unfold HoldCreateSerializer_create, Hold_objects_create. wp.
  cbn [HoldData.qty HoldData.event_id HoldData.ttl_minutes].
  match goal with |- context [if ?c then _ else _] => destruct c end;
    [| wp; auto 10].
  rewrite Hid. fold (new_hold cfg env request).
  wp. wp_call keeps_db_set_hold_expiry; subst; [| wp; auto 10].
  wp. wp_call keeps_db_apply_async; subst; wp.
  - wp_call keeps_db_increment_metric; subst; [| wp; auto 10].
    wp. wp_call keeps_db_increment_metric; subst; wp; auto 10.
  - wp_call keeps_db_increment_metric; subst; [| wp; auto 10].
    wp. wp_call keeps_db_increment_metric; subst; wp; auto 10.
Qed.

(** X5: whatever the request, the store and the state of Redis and
    Celery, CreateHold answers with one of 201, 400, 409 and 500.  A 201
    means exactly one hold was inserted, the ACTIVE hold the response
    describes, and nothing else changed; a 400 or 409 means the store is
    as it was; after a 500 the store is as it was or holds that one new
    hold. *)
Theorem create_hold_response_and_store cfg env request d :
  exists resp,
    result_of (CreateHold cfg env request d) = Return resp
    /\ (status_code resp = 201
        /\ db_of (CreateHold cfg env request d)
           = set_holds (new_hold cfg env request :: holds d) d
        /\ data resp
           = HoldResponseData (uuid4_pk env)
               (Hold.expires_at (new_hold cfg env request)) (uuid4_token env)
        \/ (status_code resp = 400 \/ status_code resp = 409)
           /\ db_of (CreateHold cfg env request d) = d
        \/ status_code resp = 500
           /\ (db_of (CreateHold cfg env request d) = d
               \/ db_of (CreateHold cfg env request d)
                  = set_holds (new_hold cfg env request :: holds d) d)).
Proof.
  pose proof (hold_view_outcome cfg env request d) as H. unfold post in H.
  unfold CreateHold. rewrite dispatch_db, dispatch_result.
  destruct (result_of (HoldView_post cfg env request d)) as [resp | e].
  - exists resp. split; [reflexivity |].
    destruct H as [(? & ? & ?) | [(? & ?) | (? & ?)]]; auto 10.
  - destruct H as (-> & [(errors & ->) | ->]); eexists;
      (split; [reflexivity |]); cbn; auto 10.
Qed.

(* ================================================================== *)
(** * Seat counts *)

Lemma total_qty_nonneg l :
  (forall h, In h l -> 0 < Hold.qty h) -> 0 <= total_qty l.
Proof.
  induction l as [| a l IH]; intro H; [cbn; lia |].
  cbn [total_qty fold_right]. fold (total_qty l).
  assert (0 < Hold.qty a) by (apply H; left; reflexivity).
  assert (0 <= total_qty l) by (apply IH; intros; apply H; right; assumption).
  lia.
Qed.

Lemma total_qty_filter_nonneg d (p : Hold.t -> bool) :
  consistent d -> 0 <= total_qty (filter p (holds d)).
Proof.
  intro C. apply total_qty_nonneg. intros h Hin.
  apply filter_In in Hin. apply (qty_positive C). tauto.
Qed.

Lemma counts_nonneg d event :
  consistent d -> 0 <= held d event /\ 0 <= booked d event.
Proof.
  intro C. split; apply total_qty_filter_nonneg, C.
Qed.

(** X6: on every store that satisfies the schema, the details of an
    existing event answer with counts none of which is negative, [total]
    being the event's capacity, and with
    [available + held + booked = max(total, held + booked)]: the three
    add up to [total] exactly when the event is not oversold, and exceed
    it by the oversold seats otherwise.  Reading them writes nothing. *)
Theorem event_details_add_up pk d event :
  consistent d ->
  objects_get EventModel (fun e => N.eqb (Event.id e) pk) (events d)
  = Return event ->
  exists data,
    GetEventAvailability pk d = (Return (inl data), d, [Log INFO])
    /\ EventDetail.total data = Event.total_seats event
    /\ EventDetail.held data = held d event
    /\ EventDetail.booked data = booked_holds d event
    /\ 0 <= EventDetail.available data
    /\ 0 <= EventDetail.held data
    /\ 0 <= EventDetail.booked data
    /\ EventDetail.available data + EventDetail.held data
       + EventDetail.booked data
       = Z.max (EventDetail.total data)
           (EventDetail.held data + EventDetail.booked data)
    /\ (EventDetail.available data + EventDetail.held data
        + EventDetail.booked data = EventDetail.total data
        <-> held d event + booked_holds d event <= Event.total_seats event).
Proof.
  intros C Hget.
  destruct (counts_nonneg event C) as [Hh Hb].
  pose proof (booked_eq_booked_holds event C) as Hbh.
  eexists. split.
  - apply eq_of_post.
    unfold GetEventAvailability, EventViewSet_retrieve,
      get_object_or_404_Event, EventDetailSerializer_data.
    wp. rewrite Hget. wp. repeat split.
  - cbn [EventDetail.total EventDetail.available EventDetail.held
         EventDetail.booked].
    rewrite Event_available_seats_spec, Event_held_seats_spec,
      Event_booked_seats_spec.
    unfold available. rewrite <- Hbh.
    repeat split; try lia; auto.
Qed.

Lemma sample_db_held_reachable : reachable Sample.db_held.
Proof. apply in_turn_reachable, sample_db_held_in_turn. Qed.

Lemma sample_db_full_reachable : reachable Sample.db_full.
Proof.
  unfold Sample.db_full, Sample.db_booked.
  do 2 (apply reachable_run; [| exact I]).
  apply sample_db_held_reachable.
Qed.

(** On the store where seventeen of ten seats are held or booked. *)
Lemma event_details_add_up_witness :
  exists data,
    GetEventAvailability 1%N Sample.db_oversold
    = (Return (inl data), Sample.db_oversold, [Log INFO])
    /\ EventDetail.total data = Event.total_seats Sample.concert
    /\ EventDetail.held data = held Sample.db_oversold Sample.concert
    /\ EventDetail.booked data
       = booked_holds Sample.db_oversold Sample.concert
    /\ 0 <= EventDetail.available data
    /\ 0 <= EventDetail.held data
    /\ 0 <= EventDetail.booked data
    /\ EventDetail.available data + EventDetail.held data
       + EventDetail.booked data
       = Z.max (EventDetail.total data)
           (EventDetail.held data + EventDetail.booked data)
    /\ (EventDetail.available data + EventDetail.held data
        + EventDetail.booked data = EventDetail.total data
        <-> held Sample.db_oversold Sample.concert
            + booked_holds Sample.db_oversold Sample.concert
            <= Event.total_seats Sample.concert).
Proof.
  apply (@event_details_add_up 1%N Sample.db_oversold Sample.concert).
  - apply reachable_consistent, sample_db_oversold_reachable.
  - reflexivity.
Defined.

(** X7: an event that does not exist is answered 404 by both read views,
    with nothing written; in particular GetEventMetrics creates no metrics
    row for it. *)
Theorem missing_event_is_404 env pk d :
  filter (fun e => N.eqb (Event.id e) pk) (events d) = [] ->
  GetEventAvailability pk d
  = (Return (inr (mkResponse HTTP_404_NOT_FOUND NotFoundData)),
     d, [Log ERROR])
  /\ GetEventMetrics env pk d
     = (Return (mkResponse HTTP_404_NOT_FOUND NotFoundData), d, [Log ERROR]).
Proof.
  intro H. split; apply eq_of_post.
  - unfold GetEventAvailability, EventViewSet_retrieve,
      get_object_or_404_Event.
    wp. unfold objects_get. rewrite H. wp. repeat split.
  - unfold GetEventMetrics, dispatch, EventMetricsView_get,
      get_object_or_404_Event.
    wp. unfold objects_get. rewrite H. wp. repeat split.
Qed.

Lemma missing_event_is_404_witness :
  GetEventAvailability 2%N Sample.db_full
  = (Return (inr (mkResponse HTTP_404_NOT_FOUND NotFoundData)),
     Sample.db_full, [Log ERROR])
  /\ GetEventMetrics (Sample.env 150 0%N "" "") 2%N Sample.db_full
     = (Return (mkResponse HTTP_404_NOT_FOUND NotFoundData),
        Sample.db_full, [Log ERROR]).
Proof.
  apply (@missing_event_is_404 (Sample.env 150 0%N "" "") 2%N Sample.db_full).
  reflexivity.
Defined.

Lemma no_booking_for_fresh_hold d hold_id :
  consistent d ->
  existsb (fun r => N.eqb (Hold.id r) hold_id) (holds d) = false ->
  existsb (fun b => N.eqb (Booking.hold b) hold_id) (bookings d) = false.
Proof.
  intros C Hfresh.
  destruct (existsb _ (bookings d)) eqn:E; [| reflexivity].
  apply existsb_exists in E. destruct E as (b & Hb & Hid).
  apply N.eqb_eq in Hid.
  destruct (booking_hold C b Hb) as (h & Hin & Hh & _).
  exfalso. apply (absent_id _ _ Hfresh). rewrite <- Hid, <- Hh.
  apply in_map. exact Hin.
Qed.

(** X8: on a store that satisfies the schema, a CreateHold answered 201
    takes exactly its seats: the event's held count grows by [qty], its
    booked count stays, and its availability drops by exactly [qty] and
    stays non-negative. *)
Theorem hold_takes_its_seats cfg env request d event resp :
  consistent d ->
  objects_get EventModel
    (fun e => N.eqb (Event.id e) (HoldRequest.event_id request)) (events d)
  = Return event ->
  result_of (CreateHold cfg env request d) = Return resp ->
  status_code resp = 201 ->
  let d' := db_of (CreateHold cfg env request d) in
  held d' event = held d event + HoldRequest.qty request
  /\ booked d' event = booked d event
  /\ available d' event = available d event - HoldRequest.qty request
  /\ 0 <= available d' event.
Proof.
  intros C Hget Hres Hst. cbv zeta.
  destruct (event_exists _ _ Hget) as [Hid _].
  pose proof (objects_get_Return _ _ _ Hget) as (Hin & _ & _).
  pose proof (hold_view_outcome cfg env request d) as Ho.
  pose proof (hold_shape cfg env request d) as Hs.
  unfold post in Ho, Hs. unfold CreateHold in *.
  rewrite dispatch_result in Hres. rewrite dispatch_db.
  set (d' := db_of (HoldView_post cfg env request d)) in *.
  destruct (result_of (HoldView_post cfg env request d)) as [r | e].
  2: { destruct Ho as (_ & [(errors & ->) | ->]);
         cbn in Hres; injection Hres as <-; discriminate Hst. }
  injection Hres as ->.
  destruct Ho as [(_ & Hd & _) | [(H409 & _) | (H500 & _)]];
    [| rewrite Hst in H409; discriminate H409
     | rewrite Hst in H500; discriminate H500].
  destruct Hs as (_ & E3 & _ & [Hsame | (v & h & Hv & E2 & Hh & Hav & Hq & Hfresh)]).
  { exfalso. rewrite Hsame in Hd.
    apply (f_equal (fun x => List.length (holds x))) in Hd. cbn in Hd. lia. }
  assert (Hnew : h = new_hold cfg env request).
  { rewrite Hd in E2. cbn in E2. injection E2 as E2. congruence. }
  assert (Hv_id : Event.id (HoldData.event_id v) = HoldRequest.event_id request).
  { rewrite Hh in Hnew. unfold new_hold in Hnew. injection Hnew. auto. }
  assert (Hv_qty : HoldData.qty v = HoldRequest.qty request).
  { rewrite Hh in Hnew. unfold new_hold in Hnew. injection Hnew. auto. }
  assert (Hv_ev : HoldData.event_id v = event).
  { apply (same_key_same_row Event.id (events d)); auto.
    - apply (events_pk C).
    - congruence. }
  rewrite Hv_ev, Hv_qty, Event_available_seats_spec in Hav.
  rewrite Hv_qty in Hq.
  pose proof (no_booking_for_fresh_hold _ C Hfresh) as Hnb.
  assert (Hheld : held d' event = held d event + HoldRequest.qty request).
  { unfold held. rewrite E2, Hnew. unfold new_hold, status_is.
    cbn [filter Hold.event Hold.status Hold.Status.eqb].
    rewrite <- Hid, N.eqb_refl. cbn [andb]. unfold total_qty.
    cbn [fold_right Hold.qty]. lia. }
  assert (Hbooked : booked d' event = booked d event).
  { unfold booked. rewrite E2, E3, Hnew. unfold new_hold.
    cbn [filter Hold.event Hold.id]. rewrite Hnb, andb_false_r.
    reflexivity. }
  unfold available in *. rewrite Hheld, Hbooked. lia.
Qed.

Lemma hold_takes_its_seats_witness :
  let d' :=
    db_of (CreateHold Sample.cfg (Sample.env 140 13%N "token-c" "")
             (HoldRequest.mk 1%N 3 None) Sample.db_booked) in
  held d' Sample.concert = held Sample.db_booked Sample.concert + 3
  /\ booked d' Sample.concert = booked Sample.db_booked Sample.concert
  /\ available d' Sample.concert
     = available Sample.db_booked Sample.concert - 3
  /\ 0 <= available d' Sample.concert.
Proof.
  apply (@hold_takes_its_seats Sample.cfg (Sample.env 140 13%N "token-c" "")
           (HoldRequest.mk 1%N 3 None) Sample.db_booked Sample.concert
           (mkResponse HTTP_201_CREATED
              (HoldResponseData 13%N 440 "token-c"))).
  - apply reachable_consistent.
    unfold Sample.db_booked.
    apply reachable_run; [apply sample_db_held_reachable | exact I].
  - reflexivity.
  - reflexivity.
  - reflexivity.
Defined.

(* ================================================================== *)
(** * Booking confirmation, path by path *)

Lemma get_or_create_stored env event d :
  (List.length
     (filter (fun m => N.eqb (Metrics.event m) (Event.id event)) (metrics d))
   <= 1)%nat ->
  exists m d1,
    Metrics_get_or_create_for_event env event d = (Return m, d1, [])
    /\ same_core d d1 /\ Metrics.event m = Event.id event
    /\ In m (metrics d1).
Proof.
  intro Hlen.
  unfold Metrics_get_or_create_for_event, try_except, lift, objects_get.
  destruct (filter _ (metrics d)) as [| x [| y l]] eqn:E.
  - cbn. do 2 eexists. split; [reflexivity |].
    split; [repeat split |]. split; [reflexivity |]. left. reflexivity.
  - assert (H : In x (filter (fun m => N.eqb (Metrics.event m) (Event.id event))
                        (metrics d))) by (rewrite E; left; reflexivity).
    apply filter_In in H. destruct H as [Hin Hid].
    do 2 eexists. split; [reflexivity |]. split; [apply same_core_refl |].
    split; [apply N.eqb_eq, Hid | exact Hin].
  - cbn in Hlen. lia.
Qed.

Lemma update_metrics_stored env self d event :
  objects_get EventModel (fun e => N.eqb (Event.id e) (Metrics.event self))
    (events d) = Return event ->
  In self (metrics d) ->
  exists m d1,
    Metrics_update_metrics env self d = (Return m, d1, [])
    /\ same_core d d1
    /\ MetricsSerializer event m = fresh_metrics env d event
    /\ Metrics.event m = Metrics.event self
    /\ In m (metrics d1).
Proof.
  intros Hget Hin.
  destruct (@update_metrics_ok env self d event Hget)
    as (m & d1 & E & C & Hs).
  exists m, d1. split; [exact E |]. split; [exact C |]. split; [exact Hs |].
  revert E.
  unfold Metrics_update_metrics, related_event, bind, lift, query, update, ret.
  rewrite Hget. cbn [app]. intros [= <- <-].
  split; [reflexivity |].
  cbn [metrics set_metrics]. apply in_map_iff. exists self.
  rewrite Z.eqb_refl. split; [reflexivity | exact Hin].
Qed.

(** What the transaction of a booking needs beyond a valid request: key
    and reference not in use, Redis answering, the hold's event and at
    most one metrics row for it. *)
Lemma confirm_success env request d h event :
  objects_get HoldModel
    (fun r => N.eqb (Hold.id r) (BookingRequest.hold_id request)) (holds d)
  = Return h ->
  Hold.status h = ACTIVE -> now env <= Hold.expires_at h ->
  payment_token_field (BookingRequest.payment_token request)
  = inl (Hold.payment_token h) ->
  existsb (fun r => N.eqb (Booking.hold r) (Hold.id h)) (bookings d) = false ->
  existsb (fun r => N.eqb (Booking.id r) (uuid4_pk env)) (bookings d)
  = false ->
  existsb (fun r => String.eqb (Booking.booking_id r)
                      ("BK-" ++ uuid4_hex8 env)) (bookings d) = false ->
  redis_ok env = true ->
  objects_get EventModel (fun e => N.eqb (Event.id e) (Hold.event h))
    (events d) = Return event ->
  (List.length
     (filter (fun m => N.eqb (Metrics.event m) (Event.id event)) (metrics d))
   <= 1)%nat ->
  post (ConfirmBooking env request) d (fun r d' _ =>
    r = Return (mkResponse HTTP_201_CREATED
                  (BookingResponseData ("BK-" ++ uuid4_hex8 env)))
    /\ events d' = events d
    /\ holds d' = with_status env (Hold.id h) BOOKED (holds d)
    /\ bookings d'
       = Booking.mk (uuid4_pk env) (Hold.id h) ("BK-" ++ uuid4_hex8 env)
           (now env) :: bookings d
    /\ exists m, In m (metrics d') /\ Metrics.event m = Event.id event
                 /\ MetricsSerializer event m = fresh_metrics env d' event).
Proof.
  intros Hget Hst Hexp Htok Hnb Hpk Hbid Hredis Hev Hlen.
  pose proof (objects_get_Return _ _ _ Hget) as (Hin & _ & _).
  pose proof (objects_get_Return _ _ _ Hev) as (_ & Heid & _).
  apply N.eqb_eq in Heid.
  assert (Hex : existsb (fun r => N.eqb (Hold.id r) (Hold.id h)) (holds d)
                = true).
  { apply existsb_exists. exists h. split; [exact Hin | apply N.eqb_refl]. }
  assert (Hb : booking_of d h = None).
  { pose proof (has_booking_existsb d h) as E. rewrite Hnb in E.
    unfold has_booking in E. destruct (booking_of d h); congruence. }
  confirm_prefix Htok Hget.
  replace (status_is ACTIVE h) with true
    by (symmetry; apply status_is_eq, Hst).
  cbn [negb]. unfold Hold_is_expired.
  replace (now env >? Hold.expires_at h) with false by (symmetry; lia).
  rewrite String.eqb_refl. cbn [negb]. wp. rewrite Hb. wp.
  unfold BookingView_post_atomic. cbn [BookingData.booking BookingData.hold].
  wp. unfold Booking_objects_create. wp.
  cbn [Booking.id Booking.hold Booking.booking_id].
  rewrite Hpk, Hnb, Hbid, Hex. cbn [negb andb]. wp.
  eapply post_of_eq; [apply clear_hold_expiry_ok, Hredis |]. wp.
  cbn [events set_holds set_bookings]. rewrite Hev. wp.
  match goal with
  | |- post (Metrics_get_or_create_for_event _ _) ?d1 _ =>
      destruct (get_or_create_stored env event d1 Hlen)
        as (m & d2 & E1 & C1 & Hm & Hin1)
  end.
  eapply post_of_eq; [exact E1 |]. wp.
  destruct (@update_metrics_stored env m d2 event)
    as (m' & d3 & E2 & C2 & Hs & Hm' & Hin2).
  { destruct C1 as (-> & _). cbn [events set_holds set_bookings].
    rewrite <- Hev. apply objects_get_ext. intro x. rewrite Hm, Heid.
    reflexivity. }
  { exact Hin1. }
  eapply post_of_eq; [exact E2 |]. wp.
  eapply post_of_eq; [apply increment_metric_ok, Hredis |]. wp.
  eapply post_of_eq; [apply increment_metric_ok, Hredis |]. wp.
  pose proof (same_core_trans C1 C2) as (E3 & E4 & E5).
  cbn [events holds bookings set_holds set_bookings] in E3, E4, E5.
  split; [reflexivity |]. split; [exact E3 |].
  split; [rewrite E4; reflexivity |]. split; [exact E5 |].
  exists m'. split; [exact Hin2 |]. split; [congruence |].
  rewrite Hs. symmetry. apply fresh_metrics_core. exact C2.
Qed.

(** X9: a confirmation that passes validation on the store it runs on
    (an ACTIVE hold within its deadline, without a Booking, whose token is
    what the field makes of the token sent), with a free key and
    reference, Redis answering and the hold's event and metrics row in
    place, answers 201 with the reference ["BK-"] followed by the eight
    hex digits drawn; it sets exactly the hold's row to BOOKED, adds the one
    Booking row for it, and leaves the event's stored metrics row equal to
    a fresh recomputation on the resulting store. *)
Theorem booking_success env request d h event :
  objects_get HoldModel
    (fun r => N.eqb (Hold.id r) (BookingRequest.hold_id request)) (holds d)
  = Return h ->
  Hold.status h = ACTIVE -> now env <= Hold.expires_at h ->
  payment_token_field (BookingRequest.payment_token request)
  = inl (Hold.payment_token h) ->
  existsb (fun r => N.eqb (Booking.hold r) (Hold.id h)) (bookings d) = false ->
  existsb (fun r => N.eqb (Booking.id r) (uuid4_pk env)) (bookings d)
  = false ->
  existsb (fun r => String.eqb (Booking.booking_id r)
                      ("BK-" ++ uuid4_hex8 env)) (bookings d) = false ->
  redis_ok env = true ->
  objects_get EventModel (fun e => N.eqb (Event.id e) (Hold.event h))
    (events d) = Return event ->
  (List.length
     (filter (fun m => N.eqb (Metrics.event m) (Event.id event)) (metrics d))
   <= 1)%nat ->
  let d' := db_of (ConfirmBooking env request d) in
  result_of (ConfirmBooking env request d)
  = Return (mkResponse HTTP_201_CREATED
              (BookingResponseData ("BK-" ++ uuid4_hex8 env)))
  /\ events d' = events d
  /\ holds d' = with_status env (Hold.id h) BOOKED (holds d)
  /\ bookings d'
     = Booking.mk (uuid4_pk env) (Hold.id h) ("BK-" ++ uuid4_hex8 env)
         (now env) :: bookings d
  /\ exists m, In m (metrics d') /\ Metrics.event m = Event.id event
               /\ MetricsSerializer event m = fresh_metrics env d' event.
Proof.
  intros Hget Hst Hexp Htok Hnb Hpk Hbid Hredis Hev Hlen.
  exact (confirm_success env request d Hget Hst Hexp Htok Hnb Hpk Hbid
           Hredis Hev Hlen).
Qed.

Lemma booking_success_witness :
  let d' := db_of (ConfirmBooking (Sample.env 130 21%N "" "0A1B2C3D")
                     Sample.book7 Sample.db_held) in
  result_of (ConfirmBooking (Sample.env 130 21%N "" "0A1B2C3D")
               Sample.book7 Sample.db_held)
  = Return (mkResponse HTTP_201_CREATED (BookingResponseData "BK-0A1B2C3D"))
  /\ events d' = events Sample.db_held
  /\ holds d'
     = with_status (Sample.env 130 21%N "" "0A1B2C3D") 11%N BOOKED
         (holds Sample.db_held)
  /\ bookings d'
     = Booking.mk 21%N 11%N "BK-0A1B2C3D" 130 :: bookings Sample.db_held
  /\ exists m, In m (metrics d') /\ Metrics.event m = 1%N
               /\ MetricsSerializer Sample.concert m
                  = fresh_metrics (Sample.env 130 21%N "" "0A1B2C3D") d'
                      Sample.concert.
Proof.
  apply (@booking_success (Sample.env 130 21%N "" "0A1B2C3D") Sample.book7
           Sample.db_held (Hold.mk 11%N 1%N 7 160 "token-a" ACTIVE 100 100)
           Sample.concert); try reflexivity.
  - cbn. lia.
  - vm_compute. apply le_0_n.
Defined.

(** X10: the booking transaction is rolled back as a whole.  When Redis
    does not answer, a confirmation that passed validation and had already
    inserted its Booking row and set the hold to BOOKED answers 500 and
    leaves the store exactly as it was: the hold stays ACTIVE and no
    Booking exists. *)
Theorem booking_redis_failure_rolls_back env request d h :
  objects_get HoldModel
    (fun r => N.eqb (Hold.id r) (BookingRequest.hold_id request)) (holds d)
  = Return h ->
  Hold.status h = ACTIVE -> now env <= Hold.expires_at h ->
  payment_token_field (BookingRequest.payment_token request)
  = inl (Hold.payment_token h) ->
  existsb (fun r => N.eqb (Booking.hold r) (Hold.id h)) (bookings d) = false ->
  existsb (fun r => N.eqb (Booking.id r) (uuid4_pk env)) (bookings d)
  = false ->
  existsb (fun r => String.eqb (Booking.booking_id r)
                      ("BK-" ++ uuid4_hex8 env)) (bookings d) = false ->
  redis_ok env = false ->
  ConfirmBooking env request d
  = (Return (mkResponse HTTP_500_INTERNAL_SERVER_ERROR
               (ErrorData "Internal Server Error")),
     d, [Log ERROR]).
Proof.
  intros Hget Hst Hexp Htok Hnb Hpk Hbid Hredis.
  pose proof (objects_get_Return _ _ _ Hget) as (Hin & _ & _).
  assert (Hex : existsb (fun r => N.eqb (Hold.id r) (Hold.id h)) (holds d)
                = true).
  { apply existsb_exists. exists h. split; [exact Hin | apply N.eqb_refl]. }
  assert (Hb : booking_of d h = None).
  { pose proof (has_booking_existsb d h) as E. rewrite Hnb in E.
    unfold has_booking in E. destruct (booking_of d h); congruence. }
  apply eq_of_post.
  confirm_prefix Htok Hget.
  replace (status_is ACTIVE h) with true
    by (symmetry; apply status_is_eq, Hst).
  cbn [negb]. unfold Hold_is_expired.
  replace (now env >? Hold.expires_at h) with false by (symmetry; lia).
  rewrite String.eqb_refl. cbn [negb]. wp. rewrite Hb. wp.
  unfold BookingView_post_atomic. cbn [BookingData.booking BookingData.hold].
  wp. unfold Booking_objects_create. wp.
  cbn [Booking.id Booking.hold Booking.booking_id].
  rewrite Hpk, Hnb, Hbid, Hex. cbn [negb andb]. wp.
  unfold clear_hold_expiry, redis_command. rewrite Hredis. wp.
  repeat split.
Qed.

Lemma booking_redis_failure_rolls_back_witness :
  ConfirmBooking (mkEnv 130 21%N "" "0A1B2C3D" true false true) Sample.book7
    Sample.db_held
  = (Return (mkResponse HTTP_500_INTERNAL_SERVER_ERROR
               (ErrorData "Internal Server Error")),
     Sample.db_held, [Log ERROR]).
Proof.
  apply (@booking_redis_failure_rolls_back
           (mkEnv 130 21%N "" "0A1B2C3D" true false true) Sample.book7
           Sample.db_held (Hold.mk 11%N 1%N 7 160 "token-a" ACTIVE 100 100));
    try reflexivity.
  cbn. lia.
Defined.

(** X11: a confirmation naming a hold that does not exist is answered
    400 and nothing is written: with the error of the token field when
    the field refuses the token (a blank one, say), and else with "Hold
    not found", as a validation error of the serializer and not as a
    404. *)
Theorem booking_of_missing_hold env request d :
  filter (fun r => N.eqb (Hold.id r) (BookingRequest.hold_id request))
    (holds d) = [] ->
  ConfirmBooking env request d
  = (Return (mkResponse HTTP_400_BAD_REQUEST
               (ValidationErrorData
                  match payment_token_field
                          (BookingRequest.payment_token request) with
                  | inl _ => [Hold_not_found]
                  | inr errors => errors
                  end)),
     d, [Log ERROR]).
Proof.
  intro H.
  destruct (payment_token_field (BookingRequest.payment_token request))
    as [token | errors] eqn:Hfield;
    [| apply confirm_field_errors, Hfield].
  apply eq_of_post.
  unfold ConfirmBooking, dispatch, BookingView_post,
    BookingCreateSerializer_is_valid, BookingCreateSerializer_fields,
    BookingCreateSerializer_validate.
  wp. rewrite Hfield. wp.
  cbn [BookingRequest.hold_id BookingRequest.payment_token].
  unfold objects_get. rewrite H. wp. repeat split.
Qed.

(** With a well-formed token, and with a blank one. *)
Lemma booking_of_missing_hold_witness :
  ConfirmBooking (Sample.env 130 21%N "" "0A1B2C3D")
    (BookingRequest.mk 99%N "token-a") Sample.db_held
  = (Return (mkResponse HTTP_400_BAD_REQUEST
               (ValidationErrorData [Hold_not_found])),
     Sample.db_held, [Log ERROR])
  /\ ConfirmBooking (Sample.env 130 21%N "" "0A1B2C3D")
       (BookingRequest.mk 99%N "") Sample.db_held
     = (Return (mkResponse HTTP_400_BAD_REQUEST
                  (ValidationErrorData [Payment_token_blank])),
        Sample.db_held, [Log ERROR]).
Proof.
  split.
  - apply (@booking_of_missing_hold (Sample.env 130 21%N "" "0A1B2C3D")
             (BookingRequest.mk 99%N "token-a") Sample.db_held).
    reflexivity.
  - apply (@booking_of_missing_hold (Sample.env 130 21%N "" "0A1B2C3D")
             (BookingRequest.mk 99%N "") Sample.db_held).
    reflexivity.
Defined.

Lemma handled_is_not_created e d :
  exists resp,
    result_of (custom_exception_handler e d) = Return resp
    /\ status_code resp <> 201.
Proof.
  destruct e; (eexists; split; [reflexivity | cbn; discriminate]).
Qed.

(** X12: the transaction of [BookingView.post] is all or nothing, on
    whatever store it runs, for whatever data validation handed it and
    whatever the state of Redis.  Either it answers 201 with the reference
    of the one Booking row it added for the hold, whose stored row it set
    to BOOKED whatever the status of that row was, or it answers with
    another status and the store is exactly as before.  For a request run
    from start to end, validation and transaction on the same store, the
    row of a 201 was ACTIVE. *)
Theorem booking_all_or_nothing env d :
  (forall validated_data,
     let run_it := dispatch (BookingView_post_atomic env validated_data) d in
     exists resp,
       result_of run_it = Return resp
       /\ (status_code resp <> 201 /\ db_of run_it = d
           \/ exists h b,
                In h (holds d)
                /\ Hold.id h = Hold.id (BookingData.hold validated_data)
                /\ Booking.hold b = Hold.id h
                /\ resp = mkResponse HTTP_201_CREATED
                            (BookingResponseData (Booking.booking_id b))
                /\ bookings (db_of run_it) = b :: bookings d
                /\ holds (db_of run_it)
                   = with_status env (Hold.id h) BOOKED (holds d)))
  /\ (forall request,
        exists resp,
          result_of (ConfirmBooking env request d) = Return resp
          /\ (status_code resp <> 201
              /\ db_of (ConfirmBooking env request d) = d
              \/ exists h b,
                   In h (holds d) /\ Hold.status h = ACTIVE
                   /\ Hold.id h = BookingRequest.hold_id request
                   /\ Booking.hold b = Hold.id h
                   /\ resp = mkResponse HTTP_201_CREATED
                               (BookingResponseData (Booking.booking_id b))
                   /\ bookings (db_of (ConfirmBooking env request d))
                      = b :: bookings d
                   /\ holds (db_of (ConfirmBooking env request d))
                      = with_status env (Hold.id h) BOOKED (holds d))).
Proof.
  split.
  - intros v run_it. subst run_it.
    pose proof (booking_atomic_shape env v d) as S. unfold post in S.
    rewrite dispatch_db, dispatch_result.
    destruct S as (_ & [[-> [Hc | (e & ->)]]
                       | (b & _ & Hb & _ & Hfk & E3 & E2 & ->)]).
    + destruct (BookingData.booking v) as [b0 |] eqn:Hcache;
        [| contradiction].
      unfold BookingView_post_atomic, atomic, result_of. rewrite Hcache.
      cbn. eexists. split; [reflexivity |]. left.
      split; [cbn; discriminate | reflexivity].
    + destruct (handled_is_not_created e d) as (resp & -> & Hne).
      exists resp. auto.
    + destruct (stored_row _ _ Hfk) as (h & Hin & Hid).
      eexists. split; [reflexivity |]. right. exists h, b.
      rewrite Hid. auto 10.
  - intro request.
    pose proof (booking_shape env request d) as S. unfold post in S.
    unfold ConfirmBooking. rewrite dispatch_db, dispatch_result.
    destruct S as (_ & [[-> (e & ->)]
                       | (h & b & Hin & Hid & _ & Hst & _ & _ & _ & Hb & _
                          & E3 & E2 & ->)]).
    + destruct (handled_is_not_created e d) as (resp & -> & Hne).
      exists resp. auto.
    + eexists. split; [reflexivity |]. right. exists h, b. auto 10.
Qed.

(* ================================================================== *)
(** * What a transition does to the seat counts *)

Lemma counts_after_status_change env d d' h s event :
  consistent d -> In h (holds d) -> Hold.status h = ACTIVE ->
  holds d' = with_status env (Hold.id h) s (holds d) ->
  let mine := if N.eqb (Hold.event h) (Event.id event)
              then Hold.qty h else 0 in
  held d' event
  = held d event - mine + (if Hold.Status.eqb s ACTIVE then mine else 0)
  /\ booked_holds d' event
     = booked_holds d event + (if Hold.Status.eqb s BOOKED then mine else 0).
Proof.
  intros C Hin Hst E2 mine. subst mine.
  unfold held, booked_holds. rewrite E2.
  rewrite !total_qty_with_status by (auto; apply (holds_pk C)).
  unfold status_is. cbn [set_status Hold.status Hold.event Hold.qty].
  rewrite Hst. cbn [Hold.Status.eqb].
  rewrite andb_false_r, andb_true_r.
  destruct (N.eqb (Hold.event h) (Event.id event)), s; cbn; lia.
Qed.



(* ================================================================== *)
(** * Expiry, path by path *)

(** X14: on a store that satisfies the schema, the expiry task that finds
    an ACTIVE hold past its deadline (Redis answering, the hold's event and
    metrics row in place) takes the hold's [qty] off the event's held
    count and leaves its booked count and every other event's
    availability as they were.  When the event is not oversold, its
    availability grows by exactly the hold's [qty]; in general it becomes
    [max(0, total - held - booked + qty)]. *)
Theorem expiry_frees_seats env hold_id d h event :
  consistent d ->
  objects_get HoldModel
    (fun r => N.eqb (Hold.id r) hold_id && status_is ACTIVE r) (holds d)
  = Return h ->
  Hold.expires_at h < now env ->
  redis_ok env = true ->
  objects_get EventModel (fun e => N.eqb (Event.id e) (Hold.event h))
    (events d) = Return event ->
  (List.length
     (filter (fun m => N.eqb (Metrics.event m) (Event.id event)) (metrics d))
   <= 1)%nat ->
  let d' := db_of (expire_specific_hold env hold_id d) in
  held d' event = held d event - Hold.qty h
  /\ booked d' event = booked d event
  /\ available d' event
     = Z.max 0 (Event.total_seats event - held d event - booked d event
                + Hold.qty h)
  /\ (held d event + booked_holds d event <= Event.total_seats event ->
      available d' event = available d event + Hold.qty h)
  /\ forall other, In other (events d) -> Event.id other <> Event.id event ->
       available d' other = available d other.
Proof.
  intros C Hget Hdue Hredis Hev Hlen. cbv zeta.
  pose proof (expire_due env hold_id d Hget Hdue Hredis Hev Hlen) as E2.
  pose proof (expire_shape env hold_id d) as S. unfold post in S.
  destruct S as (_ & E1 & E3 & _).
  set (d' := db_of (expire_specific_hold env hold_id d)) in *.
  pose proof (objects_get_Return _ _ _ Hget) as (Hin & Hp & _).
  apply andb_prop in Hp. destruct Hp as [Hid Hact].
  apply N.eqb_eq in Hid. apply status_is_eq in Hact.
  rewrite <- Hid in E2.
  pose proof (objects_get_Return _ _ _ Hev) as (Hin_ev & Heid & _).
  apply N.eqb_eq in Heid.
  pose proof (@expire_consistent d d' env h C E1 E3 Hin Hact E2) as C'.
  pose proof (qty_positive C h Hin) as Hq.
  assert (Hcounts : forall e,
    held d' e = held d e
                - (if N.eqb (Hold.event h) (Event.id e) then Hold.qty h else 0)
    /\ booked d' e = booked d e).
  { intro e.
    destruct (@counts_after_status_change env d d' h EXPIRED e
                C Hin Hact E2) as [Hh Hk].
    cbn [Hold.Status.eqb] in Hh, Hk.
    rewrite (booked_eq_booked_holds e C), (booked_eq_booked_holds e C').
    split; lia. }
  destruct (Hcounts event) as (Hh & Hb).
  rewrite <- Heid, N.eqb_refl in Hh.
  split; [exact Hh |]. split; [exact Hb |].
  split; [unfold available; rewrite Hh, Hb; f_equal; lia |].
  split.
  - intro Hroom. rewrite <- (booked_eq_booked_holds event C) in Hroom.
    unfold available. rewrite Hh, Hb. lia.
  - intros other Ho Hne. destruct (Hcounts other) as (Hh' & Hb').
    replace (N.eqb (Hold.event h) (Event.id other)) with false in Hh'
      by (symmetry; apply N.eqb_neq; congruence).
    unfold available. rewrite Hh', Hb'. f_equal. lia.
Qed.

(** On the store with seven seats held, and on the store where seventeen
    of ten seats are held or booked and the hold of ten expires. *)
Lemma expiry_frees_seats_witness :
  (let d' := db_of (expire_specific_hold (Sample.env 161 0%N "" "") 11%N
                      Sample.db_held) in
   held d' Sample.concert = held Sample.db_held Sample.concert - 7
   /\ available d' Sample.concert
      = available Sample.db_held Sample.concert + 7)
  /\ (let d' := db_of (expire_specific_hold (Sample.env 500 0%N "" "") 14%N
                         Sample.db_oversold) in
      held d' Sample.concert = held Sample.db_oversold Sample.concert - 10
      /\ available d' Sample.concert
         = Z.max 0 (Event.total_seats Sample.concert
                    - held Sample.db_oversold Sample.concert
                    - booked Sample.db_oversold Sample.concert + 10)).
Proof.
  split.
  - destruct (@expiry_frees_seats (Sample.env 161 0%N "" "") 11%N
                Sample.db_held
                (Hold.mk 11%N 1%N 7 160 "token-a" ACTIVE 100 100)
                Sample.concert) as (Hh & _ & _ & Ha & _).
    + apply reachable_consistent, sample_db_held_reachable.
    + reflexivity.
    + reflexivity.
    + reflexivity.
    + reflexivity.
    + vm_compute. apply le_0_n.
    + split; [exact Hh |]. apply Ha. vm_compute. discriminate.
  - destruct (@expiry_frees_seats (Sample.env 500 0%N "" "") 14%N
                Sample.db_oversold
                (Hold.mk 14%N 1%N 10 461 "token-d" ACTIVE 161 161)
                Sample.concert) as (Hh & _ & Ha & _).
    + apply reachable_consistent, sample_db_oversold_reachable.
    + reflexivity.
    + reflexivity.
    + reflexivity.
    + reflexivity.
    + vm_compute. apply le_n.
    + split; [exact Hh | exact Ha].
Defined.

(** X15: the expiry task's transaction is rolled back as a whole.  When
    Redis does not answer, the task that had set a due ACTIVE hold to
    EXPIRED leaves the store exactly as it was, the hold still ACTIVE, and
    returns normally with an error line in the log, so a later delivery
    can expire the hold. *)
Theorem expiry_redis_failure_rolls_back env hold_id d h :
  objects_get HoldModel
    (fun r => N.eqb (Hold.id r) hold_id && status_is ACTIVE r) (holds d)
  = Return h ->
  Hold.expires_at h < now env ->
  redis_ok env = false ->
  expire_specific_hold env hold_id d
  = (Return tt, d, [Log INFO; Log INFO; Log INFO; Log ERROR; Log INFO]).
Proof.
  intros Hget Hdue Hredis. apply eq_of_post.
  unfold expire_specific_hold. wp. rewrite Hget. wp.
  unfold Hold_is_expired.
  replace (now env >? Hold.expires_at h) with true by (symmetry; lia).
  wp. unfold clear_hold_expiry, redis_command. rewrite Hredis. wp.
  repeat split.
Qed.

Lemma expiry_redis_failure_rolls_back_witness :
  expire_specific_hold (mkEnv 161 0%N "" "" true false true) 11%N
    Sample.db_held
  = (Return tt, Sample.db_held,
     [Log INFO; Log INFO; Log INFO; Log ERROR; Log INFO]).
Proof.
  apply (@expiry_redis_failure_rolls_back
           (mkEnv 161 0%N "" "" true false true) 11%N Sample.db_held
           (Hold.mk 11%N 1%N 7 160 "token-a" ACTIVE 100 100));
    reflexivity.
Defined.

(* ================================================================== *)
(** * Constraints the engine keeps *)

Lemma keeps_of_core {A} P (m : M A) :
  core_property P -> keeps_core m -> keeps P m.
Proof.
  intros HP Hm d Hd. eapply post_mono; [apply Hm |].
  cbv beta. intros _ d' _ Hc. exact (HP d d' Hc Hd).
Qed.

Ltac keeps_rows Hcore Hhold Hbook Hsave :=
  lazymatch goal with
  | |- keeps _ (bind _ _) => apply keeps_bind; [| intro]
  | |- keeps _ (try_except _ _) => apply keeps_try_except; [| intro]
  | |- keeps _ (atomic _) => apply keeps_atomic
  | |- keeps _ (finally _ _) => apply keeps_finally
  | |- keeps _ (Metrics_get_or_create_for_event _ _) =>
      apply (keeps_of_core Hcore), keeps_core_get_or_create
  | |- keeps _ (Metrics_update_metrics _ _) =>
      apply (keeps_of_core Hcore), keeps_core_update
  | |- keeps _ (Hold_objects_create _) => apply Hhold
  | |- keeps _ (Booking_objects_create _ _) => apply Hbook
  | |- keeps _ (save_status _ _ _) => apply Hsave
  | |- keeps _ (if ?b then _ else _) => destruct b
  | |- keeps _ (match ?x with _ => _ end) => destruct x
  | |- keeps _ _ => apply keeps_db_keeps; solve [auto with store]
  end.

(** A property kept by the three writes to holds and bookings is kept by
    every step. *)
Lemma run_keeps (P : DB -> Prop) :
  core_property P ->
  (forall h, keeps P (Hold_objects_create h)) ->
  (forall env h, keeps P (Booking_objects_create env h)) ->
  (forall env h s, keeps P (save_status env h s)) ->
  forall op d, P d -> P (run op d).
Proof.
  intros Hcore Hhold Hbook Hsave op d HP.
  destruct op as [cfg env rq | env v | env rq | env v | env hid | env eid];
    cbn [run]; unfold CreateHold, ConfirmBooking, GetEventMetrics;
    rewrite ?dispatch_db; (apply keeps_db_of; [| exact HP]).
  - unfold HoldView_post, HoldCreateSerializer_is_valid,
      HoldCreateSerializer_fields, HoldCreateSerializer_validate_event_id,
      HoldCreateSerializer_validate, HoldView_post_locked, with_RedisLock,
      HoldCreateSerializer_create.
    repeat keeps_rows Hcore Hhold Hbook Hsave.
  - unfold HoldView_post_locked, with_RedisLock, HoldCreateSerializer_create.
    repeat keeps_rows Hcore Hhold Hbook Hsave.
  - unfold BookingView_post, BookingCreateSerializer_is_valid,
      BookingCreateSerializer_fields, BookingCreateSerializer_validate,
      BookingView_post_atomic.
    repeat keeps_rows Hcore Hhold Hbook Hsave.
  - unfold BookingView_post_atomic.
    repeat keeps_rows Hcore Hhold Hbook Hsave.
  - unfold expire_specific_hold.
    repeat keeps_rows Hcore Hhold Hbook Hsave.
  - unfold EventMetricsView_get, get_object_or_404_Event.
    repeat keeps_rows Hcore Hhold Hbook Hsave.
Qed.

Lemma reachable_keeps (P : DB -> Prop) :
  (forall d, initial d -> P d) ->
  (forall op d, P d -> P (run op d)) ->
  forall d, reachable d -> P d.
Proof.
  intros Hi Hr d R. induction R as [d H | d op _ IH _]; auto.
Qed.

Lemma absent_token hs token :
  existsb (fun r => String.eqb (Hold.payment_token r) token) hs = false ->
  ~ In token (map Hold.payment_token hs).
Proof.
  intros H Hin. apply in_map_iff in Hin. destruct Hin as (r & E & Hr).
  assert (X : existsb (fun r => String.eqb (Hold.payment_token r) token) hs
              = true).
  { apply existsb_exists. exists r. split; [exact Hr |].
    apply String.eqb_eq, E. }
  congruence.
Qed.

Lemma absent_booking bs hold_id :
  existsb (fun r => N.eqb (Booking.hold r) hold_id) bs = false ->
  ~ In hold_id (map Booking.hold bs).
Proof.
  intros H Hin. apply in_map_iff in Hin. destruct Hin as (r & E & Hr).
  assert (X : existsb (fun r => N.eqb (Booking.hold r) hold_id) bs = true).
  { apply existsb_exists. exists r. split; [exact Hr |]. apply N.eqb_eq, E. }
  congruence.
Qed.

Lemma with_status_tokens env hid s hs :
  map Hold.payment_token (with_status env hid s hs)
  = map Hold.payment_token hs.
Proof.
  unfold with_status. rewrite map_map. apply map_ext.
  intro r. destruct (N.eqb (Hold.id r) hid); reflexivity.
Qed.

Lemma run_tokens_unique op d : tokens_unique d -> tokens_unique (run op d).
Proof.
  apply run_keeps.
  - intros x y (_ & E & _) H. unfold tokens_unique in *. rewrite E. exact H.
  - intros h x Hx. unfold Hold_objects_create. wp.
    match goal with |- context [if ?c then _ else _] => destruct c eqn:Hok end;
      wp; [| exact Hx].
    apply andb_prop in Hok. destruct Hok as [Hok _].
    apply andb_prop in Hok. destruct Hok as [Hok _].
    apply andb_prop in Hok. destruct Hok as [_ Htok].
    apply negb_true_iff in Htok.
    unfold tokens_unique. cbn [holds set_holds map].
    constructor; [apply absent_token, Htok | exact Hx].
  - intros env h x Hx. unfold Booking_objects_create. wp.
    match goal with |- context [if ?c then _ else _] => destruct c end;
      wp; exact Hx.
  - intros env h s x Hx. apply post_update.
    unfold tokens_unique. cbn [holds set_holds].
    change (NoDup (map Hold.payment_token
                     (with_status env (Hold.id h) s (holds x)))).
    rewrite with_status_tokens. exact Hx.
Qed.

Lemma run_one_booking_per_hold op d :
  one_booking_per_hold d -> one_booking_per_hold (run op d).
Proof.
  apply run_keeps.
  - intros x y (_ & _ & E) H. unfold one_booking_per_hold in *.
    rewrite E. exact H.
  - intros h x Hx. unfold Hold_objects_create. wp.
    match goal with |- context [if ?c then _ else _] => destruct c end;
      wp; exact Hx.
  - intros env h x Hx. unfold Booking_objects_create. wp.
    match goal with |- context [if ?c then _ else _] => destruct c eqn:Hok end;
      wp; [| exact Hx].
    apply andb_prop in Hok. destruct Hok as [Hok _].
    apply andb_prop in Hok. destruct Hok as [Hok _].
    apply andb_prop in Hok. destruct Hok as [_ Hone].
    apply negb_true_iff in Hone.
    unfold one_booking_per_hold. cbn [bookings set_bookings map].
    constructor; [apply absent_booking, Hone | exact Hx].
  - intros env h s x Hx. apply post_update. exact Hx.
Qed.

Lemma run_holds_have_event op d :
  holds_have_event d -> holds_have_event (run op d).
Proof.
  apply run_keeps.
  - intros x y (E1 & E2 & _) H. unfold holds_have_event in *.
    rewrite E1, E2. exact H.
  - intros h x Hx. unfold Hold_objects_create. wp.
    match goal with |- context [if ?c then _ else _] => destruct c eqn:Hok end;
      wp; [| exact Hx].
    apply andb_prop in Hok. destruct Hok as [_ Hfk].
    apply existsb_exists in Hfk. destruct Hfk as (e & He & Hid).
    apply N.eqb_eq in Hid.
    intros r [<- | Hr]; [exists e; auto | apply Hx, Hr].
  - intros env h x Hx. unfold Booking_objects_create. wp.
    match goal with |- context [if ?c then _ else _] => destruct c end;
      wp; exact Hx.
  - intros env h s x Hx. apply post_update.
    intros r Hr. cbn [holds set_holds events] in *.
    change (In r (with_status env (Hold.id h) s (holds x))) in Hr.
    apply In_with_status in Hr. destruct Hr as (r0 & Hr0 & ->).
    destruct (Hx r0 Hr0) as (e & He & Hid). exists e.
    destruct (N.eqb (Hold.id r0) (Hold.id h)); auto.
Qed.

(** X16: every store the engine reaches, the transactions of overlapped
    bookings included, satisfies the constraints of the schema that its
    inserts check: hold keys and payment tokens are unique, every quantity
    is positive, every hold belongs to an existing event and every Booking
    to an existing hold. *)
Theorem schema_constraints_kept d :
  reachable d ->
  NoDup (map Hold.id (holds d))
  /\ NoDup (map Hold.payment_token (holds d))
  /\ (forall h, In h (holds d) ->
        0 < Hold.qty h
        /\ exists event, In event (events d) /\ Event.id event = Hold.event h)
  /\ (forall b, In b (bookings d) ->
        exists h, In h (holds d) /\ Hold.id h = Booking.hold b).
Proof.
  intro R.
  assert (T : tokens_unique d).
  { revert d R. apply reachable_keeps.
    - intros d (_ & _ & Hh & _). unfold tokens_unique. rewrite Hh. constructor.
    - apply run_tokens_unique. }
  assert (F : holds_have_event d).
  { clear T. revert d R. apply reachable_keeps.
    - intros d (_ & _ & Hh & _) h Hin. rewrite Hh in Hin. destruct Hin.
    - apply run_holds_have_event. }
  pose proof (reachable_consistent R) as C.
  split; [apply (holds_pk C) |]. split; [exact T |]. split.
  - intros h Hin. split; [apply (qty_positive C), Hin | apply F, Hin].
  - intros b Hb. destruct (booking_hold C b Hb) as (h & ? & ? & _). eauto.
Qed.

Lemma schema_constraints_kept_witness :
  NoDup (map Hold.id (holds Sample.db_full))
  /\ NoDup (map Hold.payment_token (holds Sample.db_full))
  /\ (forall h, In h (holds Sample.db_full) ->
        0 < Hold.qty h
        /\ exists event, In event (events Sample.db_full)
                         /\ Event.id event = Hold.event h)
  /\ (forall b, In b (bookings Sample.db_full) ->
        exists h, In h (holds Sample.db_full) /\ Hold.id h = Booking.hold b).
Proof.
  apply schema_constraints_kept. apply sample_db_full_reachable.
Defined.

(** X17: in every store the engine reaches, the transactions of
    overlapped bookings included, a Booking row exists for a hold exactly
    when the hold's status is BOOKED, and no hold has more than one
    Booking row. *)
Theorem booking_exists_iff_booked d :
  reachable d ->
  (forall h, In h (holds d) ->
     (has_booking d h = true <-> Hold.status h = BOOKED))
  /\ NoDup (map Booking.hold (bookings d)).
Proof.
  intro R. split.
  - intros h Hin. pose proof (reachable_consistent R) as C.
    rewrite (@has_booking_iff_booked d h C Hin). apply status_is_eq.
  - revert d R. apply (@reachable_keeps one_booking_per_hold).
    + intros d (_ & _ & _ & Hb). unfold one_booking_per_hold. rewrite Hb.
      constructor.
    + apply run_one_booking_per_hold.
Qed.

Lemma booking_exists_iff_booked_witness :
  (forall h, In h (holds Sample.db_full) ->
     (has_booking Sample.db_full h = true <-> Hold.status h = BOOKED))
  /\ NoDup (map Booking.hold (bookings Sample.db_full)).
Proof.
  apply booking_exists_iff_booked. apply sample_db_full_reachable.
Defined.

Lemma run_events op d : events (run op d) = events d.
Proof.
  apply (@run_keeps (fun x => events x = events d)); [| | | | reflexivity].
  - intros x y (E & _) H. congruence.
  - intros h x Hx. unfold Hold_objects_create. wp.
    match goal with |- context [if ?c then _ else _] => destruct c end;
      wp; exact Hx.
  - intros env h x Hx. unfold Booking_objects_create. wp.
    match goal with |- context [if ?c then _ else _] => destruct c end;
      wp; exact Hx.
  - intros env h s x Hx. apply post_update. exact Hx.
Qed.

(** X18: no step of the engine deletes a hold, rewrites anything of it
    but its status and [updated_at], or touches an event: after any step,
    the transaction of an overlapped booking included, every hold is still
    there under its key with the same event, [qty], [expires_at], payment
    token and creation time, and the events are as before. *)
Theorem holds_are_kept op d h :
  In h (holds d) ->
  events (run op d) = events d
  /\ exists h',
       In h' (holds (run op d))
       /\ Hold.id h' = Hold.id h /\ Hold.event h' = Hold.event h
       /\ Hold.qty h' = Hold.qty h
       /\ Hold.expires_at h' = Hold.expires_at h
       /\ Hold.payment_token h' = Hold.payment_token h
       /\ Hold.created_at h' = Hold.created_at h.
Proof.
  intro Hin. split; [apply run_events |].
  assert (Hmap : forall env hid s,
    exists h', In h' (with_status env hid s (holds d))
      /\ Hold.id h' = Hold.id h /\ Hold.event h' = Hold.event h
      /\ Hold.qty h' = Hold.qty h
      /\ Hold.expires_at h' = Hold.expires_at h
      /\ Hold.payment_token h' = Hold.payment_token h
      /\ Hold.created_at h' = Hold.created_at h).
  { intros env hid s.
    exists (if N.eqb (Hold.id h) hid then set_status env s h else h).
    split; [apply In_with_status; eauto |].
    destruct (N.eqb (Hold.id h) hid); cbn; auto 10. }
  destruct (run_holds op d)
    as [E | [(h0 & E & _) | [(env & h0 & _ & _ & E & _)
                            | [(env & h0 & _ & _ & E & _)
                              | (env & h0 & _ & E & _)]]]];
    rewrite E; auto.
  - exists h. auto 10.
  - exists h. cbn. auto 10.
Qed.

Lemma holds_are_kept_witness :
  events (run (expire_op (Sample.env 161 0%N "" "") 11%N) Sample.db_held)
  = events Sample.db_held
  /\ exists h',
       In h' (holds (run (expire_op (Sample.env 161 0%N "" "") 11%N)
                       Sample.db_held))
       /\ Hold.id h' = 11%N /\ Hold.event h' = 1%N /\ Hold.qty h' = 7
       /\ Hold.expires_at h' = 160
       /\ Hold.payment_token h' = "token-a"%string
       /\ Hold.created_at h' = 100.
Proof.
  apply (@holds_are_kept (expire_op (Sample.env 161 0%N "" "") 11%N)
           Sample.db_held (Hold.mk 11%N 1%N 7 160 "token-a" ACTIVE 100 100)).
  left. reflexivity.
Defined.

(** X19: the expiry task counts the deadline instant itself as not yet
    expired.  Run on an ACTIVE hold at any time up to and including
    [expires_at] it logs its warning, changes nothing and returns. *)
Theorem expiry_waits_for_the_deadline_to_pass env hold_id d h :
  objects_get HoldModel
    (fun r => N.eqb (Hold.id r) hold_id && status_is ACTIVE r) (holds d)
  = Return h ->
  now env <= Hold.expires_at h ->
  expire_specific_hold env hold_id d
  = (Return tt, d, [Log INFO; Log INFO; Log WARNING; Log INFO]).
Proof.
  intros Hget Hnot. apply eq_of_post.
  unfold expire_specific_hold. wp. rewrite Hget. wp.
  unfold Hold_is_expired.
  replace (now env >? Hold.expires_at h) with false by (symmetry; lia).
  wp. repeat split.
Qed.

Lemma expiry_waits_for_the_deadline_to_pass_witness :
  expire_specific_hold (Sample.env 160 0%N "" "") 11%N Sample.db_held
  = (Return tt, Sample.db_held, [Log INFO; Log INFO; Log WARNING; Log INFO]).
Proof.
  apply (@expiry_waits_for_the_deadline_to_pass (Sample.env 160 0%N "" "")
           11%N Sample.db_held
           (Hold.mk 11%N 1%N 7 160 "token-a" ACTIVE 100 100)).
  - reflexivity.
  - cbn. lia.
Defined.

(** X20: after the expiry task has expired a hold, the stored metrics row
    of the hold's event equals a fresh recomputation on the resulting
    store. *)
Theorem expiry_refreshes_metrics env hold_id d h event :
  objects_get HoldModel
    (fun r => N.eqb (Hold.id r) hold_id && status_is ACTIVE r) (holds d)
  = Return h ->
  Hold.expires_at h < now env ->
  redis_ok env = true ->
  objects_get EventModel (fun e => N.eqb (Event.id e) (Hold.event h))
    (events d) = Return event ->
  (List.length
     (filter (fun m => N.eqb (Metrics.event m) (Event.id event)) (metrics d))
   <= 1)%nat ->
  let d' := db_of (expire_specific_hold env hold_id d) in
  exists m, In m (metrics d') /\ Metrics.event m = Event.id event
            /\ MetricsSerializer event m = fresh_metrics env d' event.
Proof.
  intros Hget Hdue Hredis Hev Hlen. cbv zeta.
  pose proof (objects_get_Return _ _ _ Hev) as (_ & Heid & _).
  apply N.eqb_eq in Heid.
  change (post (expire_specific_hold env hold_id) d (fun _ d' _ =>
            exists m, In m (metrics d') /\ Metrics.event m = Event.id event
                      /\ MetricsSerializer event m
                         = fresh_metrics env d' event)).
  unfold expire_specific_hold. wp. rewrite Hget. wp.
  unfold Hold_is_expired.
  replace (now env >? Hold.expires_at h) with true by (symmetry; lia).
  wp. eapply post_of_eq; [apply clear_hold_expiry_ok, Hredis |]. wp.
  cbn [events set_holds]. rewrite Hev. wp.
  match goal with
  | |- post (Metrics_get_or_create_for_event _ _) ?d1 _ =>
      destruct (get_or_create_stored env event d1 Hlen)
        as (m & d2 & E1 & C1 & Hm & Hin1)
  end.
  eapply post_of_eq; [exact E1 |]. wp.
  destruct (@update_metrics_stored env m d2 event)
    as (m' & d3 & E2 & C2 & Hs & Hm' & Hin2).
  { destruct C1 as (-> & _). cbn [events set_holds]. rewrite <- Hev.
    apply objects_get_ext. intro x. rewrite Hm, Heid. reflexivity. }
  { exact Hin1. }
  eapply post_of_eq; [exact E2 |]. wp.
  eapply post_of_eq; [apply increment_metric_ok, Hredis |]. wp.
  eapply post_of_eq; [apply increment_metric_ok, Hredis |]. wp.
  exists m'. split; [exact Hin2 |]. split; [congruence |].
  rewrite Hs. symmetry. apply fresh_metrics_core. exact C2.
Qed.

Lemma expiry_refreshes_metrics_witness :
  let d' := db_of (expire_specific_hold (Sample.env 161 0%N "" "") 11%N
                     Sample.db_held) in
  exists m, In m (metrics d') /\ Metrics.event m = 1%N
            /\ MetricsSerializer Sample.concert m
               = fresh_metrics (Sample.env 161 0%N "" "") d' Sample.concert.
Proof.
  apply (@expiry_refreshes_metrics (Sample.env 161 0%N "" "") 11%N
           Sample.db_held (Hold.mk 11%N 1%N 7 160 "token-a" ACTIVE 100 100)
           Sample.concert); try reflexivity.
  vm_compute. apply le_0_n.
Defined.

(* ================================================================== *)
(** * Terminal statuses through sequences of operations *)

Lemma run_holds_pk op d :
  NoDup (map Hold.id (holds d)) -> NoDup (map Hold.id (holds (run op d))).
Proof.
  intro ND.
  destruct (run_holds op d)
    as [E | [(h0 & E & Hfresh) | [(env & h0 & _ & _ & E & _)
                                 | [(env & h0 & _ & _ & E & _)
                                   | (env & h0 & _ & E & _)]]]];
    rewrite E; rewrite ?with_status_ids; auto.
  cbn. constructor; [apply absent_id, Hfresh | exact ND].
Qed.

Lemma find_with_status env k s hs hold_id :
  find (fun r => N.eqb (Hold.id r) hold_id) (with_status env k s hs)
  = option_map
      (fun r => if N.eqb (Hold.id r) k then set_status env s r else r)
      (find (fun r => N.eqb (Hold.id r) hold_id) hs).
Proof.
  induction hs as [| a hs IH]; [reflexivity |].
  change (with_status env k s (a :: hs))
    with ((if N.eqb (Hold.id a) k then set_status env s a else a)
          :: with_status env k s hs).
  cbn [find].
  replace (Hold.id (if N.eqb (Hold.id a) k then set_status env s a else a))
    with (Hold.id a) by (destruct (N.eqb (Hold.id a) k); reflexivity).
  destruct (N.eqb (Hold.id a) hold_id); [reflexivity | exact IH].
Qed.

Lemma find_by_key hs h :
  NoDup (map Hold.id hs) -> In h hs ->
  find (fun r => N.eqb (Hold.id r) (Hold.id h)) hs = Some h.
Proof.
  induction hs as [| a hs IH]; [contradiction |].
  intros ND Hin. inversion ND as [| ? ? Hnot ND']; subst. cbn.
  destruct Hin as [-> | Hin].
  - rewrite N.eqb_refl. reflexivity.
  - destruct (N.eqb_spec (Hold.id a) (Hold.id h)) as [E | _].
    + exfalso. apply Hnot. rewrite E. apply in_map. exact Hin.
    + apply IH; assumption.
Qed.

(** One step on a hold whose stored status is terminal. *)
Lemma terminal_status_stays op d hold_id s :
  NoDup (map Hold.id (holds d)) ->
  stored_status d hold_id = Some s -> s <> ACTIVE ->
  (s = EXPIRED -> overlapped_booking op = false) ->
  stored_status (run op d) hold_id = Some s.
Proof.
  intros ND Hs Hne Hturn. unfold stored_status in *.
  destruct (find _ (holds d)) as [h |] eqn:F; [| discriminate].
  cbn in Hs. injection Hs as Hs.
  pose proof (find_some _ _ F) as [Hin Hid]. apply N.eqb_eq in Hid.
  assert (Hkeep : forall env h0 s0,
    In h0 (holds d) -> (Hold.id h0 = Hold.id h -> s0 = s) ->
    option_map Hold.status
      (find (fun r => N.eqb (Hold.id r) hold_id)
         (with_status env (Hold.id h0) s0 (holds d))) = Some s).
  { intros env h0 s0 Hin0 Hsame. rewrite find_with_status, F. cbn.
    destruct (N.eqb_spec (Hold.id h) (Hold.id h0)) as [E | _];
      [| congruence].
    cbn. f_equal. apply Hsame. congruence. }
  assert (Hactive : forall h0, In h0 (holds d) -> Hold.status h0 = ACTIVE ->
            Hold.id h0 <> Hold.id h).
  { intros h0 Hin0 Hst0 E.
    assert (h0 = h) by (apply (same_key_same_row Hold.id (holds d)); auto).
    congruence. }
  destruct (run_holds op d)
    as [E | [(h0 & E & Hfresh) | [(env & h0 & Hin0 & Hst0 & E & _)
                                 | [(env & h0 & Hin0 & Hst0 & E & _)
                                   | (env & h0 & Hin0 & E & Hover)]]]];
    rewrite E.
  - rewrite F. cbn. congruence.
  - cbn [find]. destruct (N.eqb_spec (Hold.id h0) hold_id) as [E0 | _].
    + exfalso. apply (absent_id _ _ Hfresh). rewrite E0, <- Hid.
      apply in_map. exact Hin.
    + rewrite F. cbn. congruence.
  - apply Hkeep; [exact Hin0 |]. intro E0.
    exfalso. exact (Hactive h0 Hin0 Hst0 E0).
  - apply Hkeep; [exact Hin0 |]. intro E0.
    exfalso. exact (Hactive h0 Hin0 Hst0 E0).
  - apply Hkeep; [exact Hin0 |]. intros _.
    destruct s; [contradiction | | reflexivity].
    specialize (Hturn eq_refl). congruence.
Qed.

(** X21: a terminal status is final.  On a store with unique hold keys,
    once the stored status of a hold is BOOKED it is BOOKED after any
    number of steps of the engine, in any order and with any arguments;
    once it is EXPIRED it is EXPIRED after any number of steps each run
    from start to end, that is, as long as no booking transaction runs on
    a later store than its validation. *)
Theorem terminal_status_is_final ops d hold_id s :
  NoDup (map Hold.id (holds d)) ->
  stored_status d hold_id = Some s -> s <> ACTIVE ->
  (s = EXPIRED -> Forall (fun op => overlapped_booking op = false) ops) ->
  stored_status (fold_left (fun x op => run op x) ops d) hold_id = Some s.
Proof.
  revert d.
  induction ops as [| op ops IH]; intros d ND Hs Hne Hturn; [exact Hs |].
  cbn [fold_left]. apply IH; [apply run_holds_pk, ND | | exact Hne |].
  - apply terminal_status_stays; auto.
    intro E. specialize (Hturn E). inversion Hturn. assumption.
  - intro E. specialize (Hturn E). inversion Hturn. assumption.
Qed.

(** A BOOKED hold through an expiry, a repeated confirmation, the
    transaction of an overlapped confirmation and a new hold; an EXPIRED
    hold through an expiry, a confirmation and a new hold. *)
Lemma terminal_status_is_final_witness :
  stored_status
    (fold_left (fun x op => run op x)
       [expire_op (Sample.env 1000 0%N "" "") 11%N;
        ConfirmBooking_op (Sample.env 1001 22%N "" "4E5F6A7B") Sample.book7;
        ConfirmBooking_atomic_op (Sample.env 1002 23%N "" "8C9D0E1F")
          Sample.validated7;
        Sample.hold3]
       Sample.db_booked) 11%N
  = Some BOOKED
  /\ stored_status
       (fold_left (fun x op => run op x)
          [expire_op (Sample.env 1000 0%N "" "") 11%N;
           ConfirmBooking_op (Sample.env 1001 22%N "" "4E5F6A7B")
             Sample.book7;
           Sample.hold10]
          Sample.db_expired) 11%N
     = Some EXPIRED.
Proof.
  split.
  - apply terminal_status_is_final.
    + vm_compute. repeat constructor. intros [].
    + reflexivity.
    + discriminate.
    + discriminate.
  - apply terminal_status_is_final.
    + vm_compute. repeat constructor. intros [].
    + reflexivity.
    + discriminate.
    + intros _. repeat constructor.
Defined.

(* ================================================================== *)
(** * System metrics and event metrics *)

Lemma sum_events_add (f g : Event.t -> Z) es :
  fold_right (fun e acc => (f e + g e) + acc) 0 es
  = fold_right (fun e acc => f e + acc) 0 es
    + fold_right (fun e acc => g e + acc) 0 es.
Proof. induction es as [| e es IH]; cbn; lia. Qed.

Lemma sum_events_ext (f g : Event.t -> Z) es :
  (forall e, f e = g e) ->
  fold_right (fun e acc => f e + acc) 0 es
  = fold_right (fun e acc => g e + acc) 0 es.
Proof. intro H. induction es as [| e es IH]; cbn; rewrite ?H, ?IH; auto. Qed.

Lemma sum_events_zero es :
  fold_right (fun (e : Event.t) acc => 0 + acc) 0 es = 0.
Proof. induction es as [| e es IH]; cbn; auto. Qed.

(** Among events with unique keys, exactly one has a given hold's
    event key. *)
Lemma sum_events_one es x c :
  NoDup (map Event.id es) ->
  (exists e, In e es /\ Event.id e = x) ->
  fold_right (fun e acc => (if N.eqb x (Event.id e) then c else 0) + acc) 0 es
  = c.
Proof.
  induction es as [| a es IH]; intros ND (e & Hin & Hid); [contradiction |].
  inversion ND as [| ? ? Hnot ND']; subst. cbn [fold_right].
  destruct Hin as [-> | Hin].
  - rewrite N.eqb_refl.
    assert (Z0 : fold_right
                   (fun e0 acc =>
                      (if N.eqb (Event.id e) (Event.id e0) then c else 0) + acc)
                   0 es = 0).
    { clear IH ND ND'. induction es as [| b es IH]; [reflexivity |].
      cbn [fold_right].
      destruct (N.eqb_spec (Event.id e) (Event.id b)) as [E | _].
      - exfalso. apply Hnot. rewrite E. left. reflexivity.
      - rewrite IH; [reflexivity |]. intro H. apply Hnot. right. exact H. }
    rewrite Z0. lia.
  - destruct (N.eqb_spec (Event.id e) (Event.id a)) as [E | _].
    + exfalso. apply Hnot. rewrite <- E. apply in_map. exact Hin.
    + rewrite IH; [lia | exact ND' | eauto].
Qed.

(** A weighted count over the holds that satisfy [p]. *)
Lemma split_by_event (w : Hold.t -> Z) (p : Hold.t -> bool) es hs :
  NoDup (map Event.id es) ->
  (forall h, In h hs -> exists e, In e es /\ Event.id e = Hold.event h) ->
  fold_right
    (fun e acc =>
       fold_right (fun h a => w h + a) 0
         (filter (fun h => N.eqb (Hold.event h) (Event.id e) && p h) hs)
       + acc) 0 es
  = fold_right (fun h a => w h + a) 0 (filter p hs).
Proof.
  intros ND Hfk. induction hs as [| a hs IH].
  - cbn. apply sum_events_zero.
  - rewrite (sum_events_ext
               (fun e =>
                  fold_right (fun h x => w h + x) 0
                    (filter (fun h => N.eqb (Hold.event h) (Event.id e) && p h)
                       (a :: hs)))
               (fun e =>
                  (if N.eqb (Hold.event a) (Event.id e)
                   then (if p a then w a else 0) else 0)
                  + fold_right (fun h x => w h + x) 0
                      (filter (fun h => N.eqb (Hold.event h) (Event.id e)
                                        && p h) hs))).
    2: { intro e. cbn [filter].
         destruct (N.eqb (Hold.event a) (Event.id e)), (p a); cbn; lia. }
    rewrite sum_events_add, IH by (intros; apply Hfk; right; assumption).
    rewrite sum_events_one by (auto; apply Hfk; left; reflexivity).
    cbn [filter]. destruct (p a); cbn; lia.
Qed.

Lemma length_as_sum {A} (l : list A) :
  Z.of_nat (List.length l) = fold_right (fun _ a => 1 + a) 0 l.
Proof.
  induction l as [| x l IH]; [reflexivity |].
  cbn [List.length fold_right]. lia.
Qed.

Lemma NoDup_map_filter {A B} (f : A -> B) (p : A -> bool) l :
  NoDup (map f l) -> NoDup (map f (filter p l)).
Proof.
  induction l as [| a l IH]; intro ND; [constructor |].
  inversion ND as [| ? ? Hnot ND']; subst. cbn.
  destruct (p a); [| auto].
  cbn. constructor; [| auto].
  intro H. apply Hnot. apply in_map_iff in H. destruct H as (x & E & Hx).
  apply filter_In in Hx. apply in_map_iff. exists x. tauto.
Qed.

(** One Booking row per hold that has one. *)
Lemma bookings_counted_by_holds d :
  consistent d -> one_booking_per_hold d ->
  List.length (bookings d)
  = List.length
      (filter (fun h => existsb (fun b => N.eqb (Booking.hold b) (Hold.id h))
                          (bookings d)) (holds d)).
Proof.
  intros C One.
  set (booked_p := fun h : Hold.t =>
         existsb (fun b => N.eqb (Booking.hold b) (Hold.id h)) (bookings d)).
  rewrite <- (length_map Booking.hold (bookings d)).
  rewrite <- (length_map Hold.id (filter booked_p (holds d))).
  apply Nat.le_antisymm; apply NoDup_incl_length.
  - exact One.
  - intros x Hx. apply in_map_iff in Hx. destruct Hx as (b & <- & Hb).
    destruct (booking_hold C b Hb) as (h & Hin & Hid & _).
    apply in_map_iff. exists h. split; [exact Hid |].
    apply filter_In. split; [exact Hin |].
    apply existsb_exists. exists b. split; [exact Hb |].
    apply N.eqb_eq. congruence.
  - apply NoDup_map_filter, (holds_pk C).
  - intros x Hx. apply in_map_iff in Hx. destruct Hx as (h & <- & Hh).
    apply filter_In in Hh. destruct Hh as [_ Hp].
    apply existsb_exists in Hp. destruct Hp as (b & Hb & E).
    apply N.eqb_eq in E. apply in_map_iff. exists b. auto.
Qed.

Lemma reachable_holds_have_event d : reachable d -> holds_have_event d.
Proof.
  revert d. apply reachable_keeps.
  - intros d (_ & _ & Hh & _) h Hin. rewrite Hh in Hin. destruct Hin.
  - apply run_holds_have_event.
Qed.

Lemma reachable_one_booking_per_hold d :
  reachable d -> one_booking_per_hold d.
Proof.
  revert d. apply (@reachable_keeps one_booking_per_hold).
  - intros d (_ & _ & _ & Hb). unfold one_booking_per_hold. rewrite Hb.
    constructor.
  - apply run_one_booking_per_hold.
Qed.

Lemma sum_events_le (f g : Event.t -> Z) es :
  (forall e, In e es -> f e <= g e) ->
  fold_right (fun e acc => f e + acc) 0 es
  <= fold_right (fun e acc => g e + acc) 0 es.
Proof.
  induction es as [| e es IH]; intro H; cbn [fold_right]; [lia |].
  assert (f e <= g e) by (apply H; left; reflexivity).
  assert (fold_right (fun e acc => f e + acc) 0 es
          <= fold_right (fun e acc => g e + acc) 0 es)
    by (apply IH; intros; apply H; right; assumption).
  lia.
Qed.

(** Every hold has exactly one of the three statuses. *)
Lemma holds_by_status (hs : list Hold.t) :
  count (filter (status_is ACTIVE) hs) + count (filter (status_is BOOKED) hs)
  + count (filter (status_is EXPIRED) hs) = count hs.
Proof.
  unfold count. induction hs as [| h hs IH]; [reflexivity |].
  assert (E : forall s, status_is s h = Hold.Status.eqb (Hold.status h) s)
    by reflexivity.
  cbn [filter]. rewrite !E.
  destruct (Hold.status h); cbn [Hold.Status.eqb List.length];
    rewrite !Nat2Z.inj_succ; lia.
Qed.

Lemma system_totals d :
  reachable d ->
  total_qty (filter (status_is ACTIVE) (holds d)) = sum_over_events (held d) d
  /\ total_qty (filter (has_booking d) (holds d))
     = sum_over_events (booked d) d
  /\ count (bookings d) = count (filter (status_is BOOKED) (holds d)).
Proof.
  intro R. pose proof (reachable_consistent R) as C.
  pose proof (reachable_holds_have_event R) as F.
  pose proof (reachable_one_booking_per_hold R) as One.
  split; [| split].
  - unfold sum_over_events, held, total_qty.
    rewrite (@split_by_event Hold.qty (status_is ACTIVE) (events d) (holds d)
               (events_pk C) F).
    reflexivity.
  - unfold sum_over_events, booked, total_qty.
    rewrite (@split_by_event Hold.qty
               (fun h => existsb (fun b => N.eqb (Booking.hold b) (Hold.id h))
                           (bookings d))
               (events d) (holds d) (events_pk C) F).
    f_equal. apply filter_ext. intro h. apply has_booking_existsb.
  - unfold count. rewrite (bookings_counted_by_holds C One). do 2 f_equal.
    apply filter_ext_in. intros h Hin.
    rewrite <- has_booking_existsb. apply has_booking_iff_booked; assumption.
Qed.

(** X22: on every store the engine reaches, the transactions of
    overlapped bookings included, the system metrics view answers without
    writing, and its totals agree with the per-event counters: the held
    and booked seats are the sums over all events of what each event
    reports, the number of bookings is the number of BOOKED holds, and
    active holds, bookings and expiries count every hold once.  Held and
    booked seats together stay within the seats of all events when no
    event is oversold. *)
Theorem system_metrics_agree env process d :
  reachable d -> redis_ok env = true ->
  exists data,
    GetSystemMetrics env process d = (Return (inl data), d, [Log INFO])
    /\ SystemMetrics.total_held_seats data = sum_over_events (held d) d
    /\ SystemMetrics.total_booked_seats data = sum_over_events (booked d) d
    /\ SystemMetrics.total_bookings data
       = count (filter (status_is BOOKED) (holds d))
    /\ SystemMetrics.total_active_holds data
       + SystemMetrics.total_bookings data
       + SystemMetrics.total_expiries data = count (holds d)
    /\ (no_oversell d ->
        SystemMetrics.total_held_seats data
        + SystemMetrics.total_booked_seats data
        <= sum_over_events Event.total_seats d).
Proof.
  intros R Hredis. pose proof (reachable_consistent R) as C.
  destruct (system_totals R) as (Hheld & Hbooked & Hcount).
  eexists. split.
  { unfold GetSystemMetrics, MetricsView_get, get_metric. rewrite Hredis.
    reflexivity. }
  cbn [SystemMetrics.total_held_seats SystemMetrics.total_booked_seats
       SystemMetrics.total_bookings SystemMetrics.total_active_holds
       SystemMetrics.total_expiries].
  rewrite !or_Sum, Hheld, Hbooked, Hcount.
  split; [reflexivity |]. split; [reflexivity |]. split; [reflexivity |].
  split; [apply holds_by_status |].
  intro N. unfold sum_over_events. rewrite <- sum_events_add.
  apply sum_events_le. intros e He.
  rewrite (booked_eq_booked_holds e C). apply N, He.
Qed.

(** On the store with seven seats booked and three held, where no event
    is oversold. *)
Lemma system_metrics_agree_witness :
  exists data,
    GetSystemMetrics (Sample.env 150 0%N "" "")
      (mkProcess 4000 (fun _ => None)) Sample.db_full
    = (Return (inl data), Sample.db_full, [Log INFO])
    /\ SystemMetrics.total_held_seats data
       = sum_over_events (held Sample.db_full) Sample.db_full
    /\ SystemMetrics.total_booked_seats data
       = sum_over_events (booked Sample.db_full) Sample.db_full
    /\ SystemMetrics.total_bookings data
       = count (filter (status_is BOOKED) (holds Sample.db_full))
    /\ SystemMetrics.total_active_holds data
       + SystemMetrics.total_bookings data
       + SystemMetrics.total_expiries data = count (holds Sample.db_full)
    /\ SystemMetrics.total_held_seats data
       + SystemMetrics.total_booked_seats data
       <= sum_over_events Event.total_seats Sample.db_full.
Proof.
  destruct (@system_metrics_agree (Sample.env 150 0%N "" "")
              (mkProcess 4000 (fun _ => None)) Sample.db_full
              sample_db_full_reachable eq_refl)
    as (data & H1 & H2 & H3 & H4 & H5 & H6).
  exists data. repeat split; try assumption.
  apply H6. apply in_turn_inv, sample_db_full_in_turn.
Defined.

(** X23: the system metrics view reads three counters from Redis that are
    not part of its answer; when Redis does not answer, the view gives 500
    "Internal Server Error" whatever the store holds, and writes
    nothing. *)
Theorem system_metrics_need_redis env process d :
  redis_ok env = false ->
  GetSystemMetrics env process d
  = (Return (inr (mkResponse HTTP_500_INTERNAL_SERVER_ERROR
                    (ErrorData "Internal Server Error"))),
     d, [Log ERROR]).
Proof.
  intro Hredis.
  unfold GetSystemMetrics, MetricsView_get, get_metric. rewrite Hredis.
  reflexivity.
Qed.

Lemma system_metrics_need_redis_witness :
  GetSystemMetrics (mkEnv 150 0%N "" "" true false true)
    (mkProcess 4000 (fun _ => Some 1)) Sample.db_full
  = (Return (inr (mkResponse HTTP_500_INTERNAL_SERVER_ERROR
                    (ErrorData "Internal Server Error"))),
     Sample.db_full, [Log ERROR]).
Proof.
  apply system_metrics_need_redis. reflexivity.
Defined.

(* ================================================================== *)
(** * Correlation ids *)

(** X24: a request that passed [process_request] always gets an
    X-Correlation-ID header on its response, equal to the id the views
    see: the one the client sent when it sent a non-empty one, and the
    generated one otherwise.  Neither step touches the store. *)
Theorem correlation_id_round_trip env request response d :
  exists request' c,
    process_request env request d = (Return request', d, [Log INFO])
    /\ Request.correlation_id request' = Some c
    /\ Request.HTTP_X_CORRELATION_ID request' = Some c
    /\ process_response request' response d
       = (Return (Headers.mk (Some c)), d, [Log INFO])
    /\ (forall sent, Request.HTTP_X_CORRELATION_ID request = Some sent ->
          sent <> ""%string -> c = sent)
    /\ (truthy (Request.HTTP_X_CORRELATION_ID request) = false ->
        c = uuid4_token env).
Proof.
  unfold process_request, process_response.
  destruct (Request.HTTP_X_CORRELATION_ID request) as [s |] eqn:Hh.
  - destruct (String.eqb_spec s "") as [-> | Hne].
    + cbn [truthy String.eqb negb]. do 2 eexists.
      repeat (split; [reflexivity |]). split; [| reflexivity].
      intros sent [= <-] Hs. contradiction.
    + cbn [truthy]. destruct (String.eqb_spec s ""); [contradiction |].
      cbn [negb]. do 2 eexists.
      repeat (split; [reflexivity |]). split.
      * intros sent [= <-] _. reflexivity.
      * discriminate.
  - cbn [truthy]. do 2 eexists.
    repeat (split; [reflexivity |]). split; [discriminate | reflexivity].
Qed.
